(** * Planner: persistence, sync queue and change-approval engine

    A shallow embedding of the TypeScript services of the planner
    (services/indexeddb.ts, services/planService.ts,
    services/enhancementService.ts and the selectors of
    hooks/usePlanContext.tsx), and the properties of its specification.

    Conventions of the embedding.
    - An IndexedDB object store with [keyPath: 'id'] is a finite map from
      the key to the stored record ([gmap string _]); [put] inserts at the
      record's own id.
    - [async] functions run to completion one after the other; a rejected
      promise is the outcome [Throw], and writes made before the rejection
      stay in the world.
    - [crypto.randomUUID()], [new Date()], [Date.prototype.toLocaleString]
      and the failure of a storage request are read from an environment
      [Env], indexed by the number of effects performed so far.
    - Integral JS numbers ([version], [order], lengths, timestamps) are [Z]
      or [nat]: the model is exact below 2^53. Numbers that the code divides
      are IEEE-754 doubles ([float]).
    - An optional property that is absent is [None]; a patch ([Partial<_>])
      names a field exactly when it carries [Some] value for it. *)

From Stdlib Require Import ZArith List String Ascii Lia Permutation.
From Stdlib Require Import Uint63 PrimFloat.
From stdpp Require Import base option list sorting gmap strings pretty.

Local Open Scope string_scope.
Local Open Scope Z_scope.

(** ** JavaScript values *)

(** Milliseconds since the epoch of a valid [Date]. *)
Definition Date := Z.

(** The values carried by fields of type [any]. *)
Inductive JsValue :=
  | JsUndefined
  | JsNull
  | JsBool (b : bool)
  | JsNumber (z : Z)
  | JsString (s : string).

(** [Error] objects, identified by their [message]. *)
Inductive JsError := MkError (message : string).

Definition message (e : JsError) : string :=
  match e with MkError m => m end.

(** ** Data model (types/plan.ts, types/enhancement.ts) *)

Inductive PlanType := PlanRoutine | PlanMeal | PlanWorkout | PlanSchedule | PlanCustom.
Inductive ItemType := ItemTask | ItemEvent | ItemNote | ItemReminder.
Inductive ItemStatus := StatusPending | StatusInProgress | StatusCompleted | StatusCancelled.
Inductive EnhancementType := EnhStructure | EnhSchedule | EnhCategorization | EnhOptimization.
Inductive EnhancementStatus := EnhPending | EnhApproved | EnhRejected.
Inductive ChangeOperation := ChangeAdd | ChangeModify | ChangeRemove.
Inductive RecurrencePattern := Daily | Weekly | Monthly | CustomPattern.
Inductive Flexibility := Strict | Moderate | Flexible.
Inductive Priority := Low | Medium | High.
Inductive PlanSource := UserInput | AiGenerated | Imported.
Inductive Complexity := Simple | ModerateComplexity | Complex.

Record Recurrence := {
  rec_pattern : RecurrencePattern;
  rec_interval : Z;
  rec_daysOfWeek : option (list Z);
  rec_endDate : option Date;
}.

Record TimingInfo := {
  timing_startTime : option Date;
  timing_endTime : option Date;
  timing_duration : option Z;
  timing_recurrence : option Recurrence;
}.

Record ScheduleInfo := {
  sched_startDate : Date;
  sched_endDate : option Date;
  sched_timeZone : string;
  sched_flexibility : Flexibility;
}.

Record Goal := {
  goal_id : string;
  goal_description : string;
  goal_targetDate : option Date;
  goal_priority : Priority;
  goal_measurable : bool;
}.

Record PlanItem := {
  item_id : string;
  item_text : string;
  item_type : ItemType;
  item_timing : option TimingInfo;
  item_status : ItemStatus;
  item_aiGenerated : bool;
  item_parentId : option string;
  item_order : Z;
}.

(** [Omit<PlanItem, 'id' | 'order'>], the argument of [addPlanItem]. *)
Record NewPlanItem := {
  new_text : string;
  new_type : ItemType;
  new_timing : option TimingInfo;
  new_status : ItemStatus;
  new_aiGenerated : bool;
  new_parentId : option string;
}.

(** [Partial<PlanItem>], the argument of [updatePlanItem]. *)
Record PlanItemPatch := {
  patch_id : option string;
  patch_text : option string;
  patch_type : option ItemType;
  patch_timing : option TimingInfo;
  patch_status : option ItemStatus;
  patch_aiGenerated : option bool;
  patch_parentId : option string;
  patch_order : option Z;
}.

Record StructuredPlanData := {
  sd_type : PlanType;
  sd_items : list PlanItem;
  sd_schedule : option ScheduleInfo;
  sd_goals : option (list Goal);
  sd_tags : list string;
  sd_category : option string;
  sd_estimatedDuration : option Z;
}.

(** [Partial<StructuredPlanData>]. *)
Record StructuredPlanDataPatch := {
  sdp_type : option PlanType;
  sdp_items : option (list PlanItem);
  sdp_schedule : option ScheduleInfo;
  sdp_goals : option (list Goal);
  sdp_tags : option (list string);
  sdp_category : option string;
  sdp_estimatedDuration : option Z;
}.

Record PlanMetadata := {
  meta_source : PlanSource;
  meta_language : string;
  meta_complexity : Complexity;
  meta_lastAiProcessed : option Date;
  meta_processingVersion : option string;
}.

Record NaturalLanguageContent := {
  content_originalText : string;
  content_processedText : option string;
  content_confidence : option float;
  content_ambiguities : option (list string);
}.

Record Plan := {
  plan_id : string;
  plan_userId : string;
  plan_title : string;
  plan_content : NaturalLanguageContent;
  plan_structuredData : StructuredPlanData;
  plan_metadata : PlanMetadata;
  plan_version : Z;
  plan_createdAt : Date;
  plan_updatedAt : Date;
}.

Record Change := {
  change_operation : ChangeOperation;
  change_target : string;
  change_oldValue : JsValue;       (* [JsUndefined] when the property is absent *)
  change_newValue : JsValue;
  change_description : string;
  change_confidence : option float;
}.

Record Enhancement := {
  enh_id : string;
  enh_planId : string;
  enh_type : EnhancementType;
  enh_changes : list Change;
  enh_confidence : float;
  enh_reasoning : string;
  enh_status : EnhancementStatus;
  enh_createdAt : Date;
  enh_appliedAt : option Date;
  enh_rejectedAt : option Date;
  enh_userFeedback : option string;
}.

(** The two shapes the services give to [rollbackData]. *)
Inductive RollbackData :=
  | ForwardData (operation : ChangeOperation) (target : string)
  | RollbackMark (isRollback : bool) (originalHistoryEntryId : string).

Record ChangeHistoryEntry := {
  hist_id : string;
  hist_enhancementId : string;
  hist_planId : string;
  hist_changeId : string;
  hist_appliedAt : Date;
  hist_appliedBy : string;
  hist_originalValue : JsValue;
  hist_appliedValue : JsValue;
  hist_rollbackData : option RollbackData;
}.

Record BatchFailure := {
  failure_id : string;
  failure_error : string;
}.

Record BatchOperationResult := {
  successful : list string;
  failed : list BatchFailure;
}.

Inductive SyncOperation := SyncCreate | SyncUpdate | SyncDelete.

Record SyncQueueItem := {
  sync_id : string;
  sync_operation : SyncOperation;
  sync_planId : string;
  sync_data : option Plan;
  sync_timestamp : Date;
  sync_retryCount : Z;
}.

(** [Omit<SyncQueueItem, 'id' | 'timestamp' | 'retryCount'>]. *)
Record SyncQueueInput := {
  input_operation : SyncOperation;
  input_planId : string;
  input_data : option Plan;
}.

(** The projection of a queue item returned by [getSyncQueueStatus]. *)
Record SyncQueueSummary := {
  summary_id : string;
  summary_operation : SyncOperation;
  summary_planId : string;
  summary_timestamp : Date;
  summary_retryCount : Z;
}.

Record SyncQueueStatus := {
  pending : nat;
  items : list SyncQueueSummary;
}.

Record CreatePlanInput := {
  create_title : string;
  create_content : NaturalLanguageContent;
  create_userId : string;
  create_structuredData : option StructuredPlanDataPatch;
}.

Record UpdatePlanInput := {
  update_id : string;
  update_title : option string;
  update_content : option NaturalLanguageContent;
  update_structuredData : option StructuredPlanDataPatch;
}.

(** Events of [PlanServiceEvents], as passed to [emit]. *)
Inductive ServiceEvent :=
  | planCreated (p : Plan)
  | planUpdated (p : Plan)
  | planDeleted (planId : string)
  | plansLoaded (ps : list Plan)
  | errorEvent (e : JsError).

(** ** The world: stores, service fields and the environment *)

(** The storage requests that can fail ([request.onerror]). *)
Inductive StoreOp :=
  | OpOpen | OpGetPlan | OpSavePlan | OpDeletePlan
  | OpAddToSyncQueue | OpGetSyncQueue | OpRemoveFromSyncQueue
  | OpEnhOpen | OpGetEnhancement | OpPutEnhancement
  | OpGetHistory | OpPutHistory.

Record Env := {
  randomUUID_at : nat → string;
  date_at : nat → Date;
  toLocaleString : Date → string;
  storageFails : nat → StoreOp → bool;
}.

(** State of [IndexedDBService.initPromise]. *)
Inductive InitState := NotStarted | Opened | Rejected.

Record World := {
  plans : gmap string Plan;
  syncQueue : gmap string SyncQueueItem;
  initState : InitState;
  isOnline : bool;
  events : list ServiceEvent;
  enhancements : gmap string Enhancement;
  changeHistory : gmap string ChangeHistoryEntry;
  enhDbOpen : bool;
  tick : nat;
}.

Definition setPlans (f : gmap string Plan → gmap string Plan) (w : World) : World :=
  {| plans := f (plans w); syncQueue := syncQueue w; initState := initState w;
     isOnline := isOnline w; events := events w; enhancements := enhancements w;
     changeHistory := changeHistory w; enhDbOpen := enhDbOpen w; tick := tick w |}.

Definition setSyncQueue (f : gmap string SyncQueueItem → gmap string SyncQueueItem)
    (w : World) : World :=
  {| plans := plans w; syncQueue := f (syncQueue w); initState := initState w;
     isOnline := isOnline w; events := events w; enhancements := enhancements w;
     changeHistory := changeHistory w; enhDbOpen := enhDbOpen w; tick := tick w |}.

Definition setInitState (s : InitState) (w : World) : World :=
  {| plans := plans w; syncQueue := syncQueue w; initState := s;
     isOnline := isOnline w; events := events w; enhancements := enhancements w;
     changeHistory := changeHistory w; enhDbOpen := enhDbOpen w; tick := tick w |}.

Definition setIsOnline (b : bool) (w : World) : World :=
  {| plans := plans w; syncQueue := syncQueue w; initState := initState w;
     isOnline := b; events := events w; enhancements := enhancements w;
     changeHistory := changeHistory w; enhDbOpen := enhDbOpen w; tick := tick w |}.

Definition pushEvent (ev : ServiceEvent) (w : World) : World :=
  {| plans := plans w; syncQueue := syncQueue w; initState := initState w;
     isOnline := isOnline w; events := events w ++ [ev]; enhancements := enhancements w;
     changeHistory := changeHistory w; enhDbOpen := enhDbOpen w; tick := tick w |}.

Definition setEnhancements (f : gmap string Enhancement → gmap string Enhancement)
    (w : World) : World :=
  {| plans := plans w; syncQueue := syncQueue w; initState := initState w;
     isOnline := isOnline w; events := events w; enhancements := f (enhancements w);
     changeHistory := changeHistory w; enhDbOpen := enhDbOpen w; tick := tick w |}.

Definition setChangeHistory
    (f : gmap string ChangeHistoryEntry → gmap string ChangeHistoryEntry)
    (w : World) : World :=
  {| plans := plans w; syncQueue := syncQueue w; initState := initState w;
     isOnline := isOnline w; events := events w; enhancements := enhancements w;
     changeHistory := f (changeHistory w); enhDbOpen := enhDbOpen w; tick := tick w |}.

Definition setEnhDbOpen (b : bool) (w : World) : World :=
  {| plans := plans w; syncQueue := syncQueue w; initState := initState w;
     isOnline := isOnline w; events := events w; enhancements := enhancements w;
     changeHistory := changeHistory w; enhDbOpen := b; tick := tick w |}.

Definition step (w : World) : World :=
  {| plans := plans w; syncQueue := syncQueue w; initState := initState w;
     isOnline := isOnline w; events := events w; enhancements := enhancements w;
     changeHistory := changeHistory w; enhDbOpen := enhDbOpen w; tick := S (tick w) |}.

(** ** The effect monad: environment, state and exceptions *)

Inductive Outcome (A : Type) :=
  | Ok (a : A)
  | Throw (e : JsError).
Arguments Ok {A} a.
Arguments Throw {A} e.

Definition M (A : Type) : Type := Env → World → Outcome A * World.

Definition ret {A} (a : A) : M A := λ _ w, (Ok a, w).

Definition bind {A B} (m : M A) (k : A → M B) : M B :=
  λ env w,
    match m env w with
    | (Ok a, w') => k a env w'
    | (Throw e, w') => (Throw e, w')
    end.

Definition throw {A} (e : JsError) : M A := λ _ w, (Throw e, w).

(** [try { m } catch (e) { h e }]. *)
Definition tryCatch {A} (m : M A) (h : JsError → M A) : M A :=
  λ env w,
    match m env w with
    | (Ok a, w') => (Ok a, w')
    | (Throw e, w') => h e env w'
    end.

Notation "'let*' x ':=' m 'in' k" := (bind m (λ x, k))
  (at level 10, x name, m at level 100, k at level 200).
Notation "'let*' ' pat ':=' m 'in' k" :=
  (bind m (λ x, match x with pat => k end))
  (at level 10, pat pattern, m at level 100, k at level 200).
Notation "m ';;' k" := (bind m (λ _, k))
  (at level 100, k at level 200, right associativity).

Definition get : M World := λ _ w, (Ok w, w).
Definition modify (f : World → World) : M unit := λ _ w, (Ok tt, f w).

(** [crypto.randomUUID()]. *)
Definition randomUUID : M string :=
  λ env w, (Ok (randomUUID_at env (tick w)), step w).

(** [new Date()]. *)
Definition newDate : M Date :=
  λ env w, (Ok (date_at env (tick w)), step w).

(** One storage request: it fails with [msg] when the environment says so. *)
Definition request (op : StoreOp) (msg : string) : M unit :=
  λ env w,
    if storageFails env (tick w) op
    then (Throw (MkError msg), step w)
    else (Ok tt, step w).

(** [for (const x of xs) { await body(x) }]. *)
Fixpoint forEachM {A} (body : A → M unit) (xs : list A) : M unit :=
  match xs with
  | [] => ret tt
  | x :: rest => body x;; forEachM body rest
  end.

(** ** services/indexeddb.ts *)

Module IndexedDBService.

(** [init]: the first call opens the database and caches the promise;
    later calls return the cached promise, resolved or rejected. *)
Definition init : M unit :=
  λ env w,
    match initState w with
    | Opened => (Ok tt, w)
    | Rejected => (Throw (MkError "Failed to open IndexedDB"), w)
    | NotStarted =>
        if storageFails env (tick w) OpOpen
        then (Throw (MkError "Failed to open IndexedDB"), step (setInitState Rejected w))
        else (Ok tt, step (setInitState Opened w))
    end.

(** [ensureDB]: [this.db] is set exactly when [init] has resolved. *)
Definition ensureDB : M unit :=
  let* w := get in
  match initState w with
  | Opened => ret tt
  | _ =>
      init;;
      let* w' := get in
      match initState w' with
      | Opened => ret tt
      | _ => throw (MkError "Database not initialized")
      end
  end.

Definition getPlan (planId : string) : M (option Plan) :=
  ensureDB;;
  request OpGetPlan "Failed to get plan from IndexedDB";;
  let* w := get in
  ret (plans w !! planId).

Definition savePlan (plan : Plan) : M unit :=
  ensureDB;;
  request OpSavePlan "Failed to save plan to IndexedDB";;
  modify (setPlans (insert (plan_id plan) plan)).

Definition deletePlan (planId : string) : M unit :=
  ensureDB;;
  request OpDeletePlan "Failed to delete plan from IndexedDB";;
  modify (setPlans (delete planId)).

Definition addToSyncQueue (item : SyncQueueInput) : M unit :=
  ensureDB;;
  let* uuid := randomUUID in
  let* now := newDate in
  let syncItem :=
    {| sync_id := uuid;
       sync_operation := input_operation item;
       sync_planId := input_planId item;
       sync_data := input_data item;
       sync_timestamp := now;
       sync_retryCount := 0 |} in
  request OpAddToSyncQueue "Failed to add item to sync queue";;
  modify (setSyncQueue (insert (sync_id syncItem) syncItem)).

(** Oldest first: the comparator of [items.sort]. *)
Definition olderFirst (a b : SyncQueueItem) : Prop :=
  (sync_timestamp a ≤ sync_timestamp b)%Z.

Global Instance olderFirst_dec a b : Decision (olderFirst a b).
Proof. unfold olderFirst. apply _. Defined.

(** [getSyncQueue]: every item of the store, sorted by timestamp. The
    order of items with equal timestamps is the order of the traversal
    of the store. *)
Definition getSyncQueue : M (list SyncQueueItem) :=
  ensureDB;;
  request OpGetSyncQueue "Failed to get sync queue";;
  let* w := get in
  ret (merge_sort olderFirst (snd <$> map_to_list (syncQueue w))).

Definition removeFromSyncQueue (itemId : string) : M unit :=
  ensureDB;;
  request OpRemoveFromSyncQueue "Failed to remove item from sync queue";;
  modify (setSyncQueue (delete itemId)).

(** Most recently updated first: the comparator of [plans.sort]. *)
Definition newerFirst (a b : Plan) : Prop :=
  (plan_updatedAt b ≤ plan_updatedAt a)%Z.

Global Instance newerFirst_dec a b : Decision (newerFirst a b).
Proof. unfold newerFirst. apply _. Defined.

(** [getPlans]: the records of the index [userId] at that key, sorted by
    [updatedAt], latest first. The request is a read of the plans store,
    as in [getPlan]. *)
Definition getPlans (userId : string) : M (list Plan) :=
  ensureDB;;
  request OpGetPlan "Failed to get plans from IndexedDB";;
  let* w := get in
  ret (merge_sort newerFirst
         (filter (λ plan, plan_userId plan = userId) (snd <$> map_to_list (plans w)))).

End IndexedDBService.

(** ** services/planService.ts *)

Module PlanService.

(** [this.emit(event, ...args)]: the registered listener observes the
    event; the trace [events] records what was emitted. *)
Definition emit (ev : ServiceEvent) : M unit := modify (pushEvent ev).

(** The [catch] block shared by the public methods: every thrown value
    is an [Error], so it is emitted on the error channel and rethrown. *)
Definition reportAndRethrow {A} (error : JsError) : M A :=
  emit (errorEvent error);;
  throw error.

(** [{ ...base, ...patch }] on structured plan data. *)
Definition mergeStructuredData (base : StructuredPlanData)
    (patch : option StructuredPlanDataPatch) : StructuredPlanData :=
  match patch with
  | None => base
  | Some p =>
      {| sd_type := default (sd_type base) (sdp_type p);
         sd_items := default (sd_items base) (sdp_items p);
         sd_schedule := from_option Some (sd_schedule base) (sdp_schedule p);
         sd_goals := from_option Some (sd_goals base) (sdp_goals p);
         sd_tags := default (sd_tags base) (sdp_tags p);
         sd_category := from_option Some (sd_category base) (sdp_category p);
         sd_estimatedDuration :=
           from_option Some (sd_estimatedDuration base) (sdp_estimatedDuration p) |}
  end.

Definition setItems (newItems : list PlanItem) (sd : StructuredPlanData)
    : StructuredPlanData :=
  {| sd_type := sd_type sd; sd_items := newItems; sd_schedule := sd_schedule sd;
     sd_goals := sd_goals sd; sd_tags := sd_tags sd; sd_category := sd_category sd;
     sd_estimatedDuration := sd_estimatedDuration sd |}.

(** [if (!this.isOnline) await indexedDBService.addToSyncQueue(item)]. *)
Definition queueIfOffline (item : SyncQueueInput) : M unit :=
  let* w := get in
  if isOnline w then ret tt else IndexedDBService.addToSyncQueue item.

Definition getPlan (planId : string) : M (option Plan) :=
  tryCatch
    (IndexedDBService.init;;
     IndexedDBService.getPlan planId)
    reportAndRethrow.

Definition createPlan (input : CreatePlanInput) : M Plan :=
  tryCatch
    (let* now := newDate in
     let* uuid := randomUUID in
     let plan :=
       {| plan_id := uuid;
          plan_userId := create_userId input;
          plan_title := create_title input;
          plan_content := create_content input;
          plan_structuredData :=
            mergeStructuredData
              {| sd_type := PlanCustom; sd_items := []; sd_schedule := None;
                 sd_goals := None; sd_tags := []; sd_category := None;
                 sd_estimatedDuration := None |}
              (create_structuredData input);
          plan_metadata :=
            {| meta_source := UserInput; meta_language := "en";
               meta_complexity := Simple; meta_lastAiProcessed := None;
               meta_processingVersion := None |};
          plan_version := 1;
          plan_createdAt := now;
          plan_updatedAt := now |} in
     IndexedDBService.init;;
     IndexedDBService.savePlan plan;;
     queueIfOffline
       {| input_operation := SyncCreate; input_planId := plan_id plan;
          input_data := Some plan |};;
     emit (planCreated plan);;
     ret plan)
    reportAndRethrow.

Definition updatePlan (input : UpdatePlanInput) : M Plan :=
  tryCatch
    (IndexedDBService.init;;
     let* existing := IndexedDBService.getPlan (update_id input) in
     match existing with
     | None => throw (MkError "Plan not found")
     | Some existingPlan =>
         let* now := newDate in
         let updatedPlan :=
           {| plan_id := update_id input;
              plan_userId := plan_userId existingPlan;
              plan_title := default (plan_title existingPlan) (update_title input);
              plan_content := default (plan_content existingPlan) (update_content input);
              plan_structuredData :=
                mergeStructuredData (plan_structuredData existingPlan)
                  (update_structuredData input);
              plan_metadata := plan_metadata existingPlan;
              plan_version := plan_version existingPlan + 1;
              plan_createdAt := plan_createdAt existingPlan;
              plan_updatedAt := now |} in
         IndexedDBService.savePlan updatedPlan;;
         queueIfOffline
           {| input_operation := SyncUpdate; input_planId := plan_id updatedPlan;
              input_data := Some updatedPlan |};;
         emit (planUpdated updatedPlan);;
         ret updatedPlan
     end)
    reportAndRethrow.

Definition deletePlan (planId : string) : M unit :=
  tryCatch
    (IndexedDBService.init;;
     IndexedDBService.deletePlan planId;;
     queueIfOffline
       {| input_operation := SyncDelete; input_planId := planId; input_data := None |};;
     emit (planDeleted planId))
    reportAndRethrow.

(** The tail shared by the three item operations: the plan with its new
    items, version and date is saved, queued when offline and announced. *)
Definition commitItems (plan : Plan) (newItems : list PlanItem) : M Plan :=
  let* now := newDate in
  let updatedPlan :=
    {| plan_id := plan_id plan;
       plan_userId := plan_userId plan;
       plan_title := plan_title plan;
       plan_content := plan_content plan;
       plan_structuredData := setItems newItems (plan_structuredData plan);
       plan_metadata := plan_metadata plan;
       plan_version := plan_version plan + 1;
       plan_createdAt := plan_createdAt plan;
       plan_updatedAt := now |} in
  IndexedDBService.savePlan updatedPlan;;
  queueIfOffline
    {| input_operation := SyncUpdate; input_planId := plan_id updatedPlan;
       input_data := Some updatedPlan |};;
  emit (planUpdated updatedPlan);;
  ret updatedPlan.

Definition addPlanItem (planId : string) (item : NewPlanItem) : M Plan :=
  tryCatch
    (IndexedDBService.init;;
     let* found := IndexedDBService.getPlan planId in
     match found with
     | None => throw (MkError "Plan not found")
     | Some plan =>
         let* uuid := randomUUID in
         let newItem :=
           {| item_id := uuid;
              item_text := new_text item;
              item_type := new_type item;
              item_timing := new_timing item;
              item_status := new_status item;
              item_aiGenerated := new_aiGenerated item;
              item_parentId := new_parentId item;
              item_order := Z.of_nat (length (sd_items (plan_structuredData plan))) |} in
         commitItems plan (sd_items (plan_structuredData plan) ++ [newItem])
     end)
    reportAndRethrow.

(** [{ ...item, ...updates }]. *)
Definition applyItemPatch (item : PlanItem) (updates : PlanItemPatch) : PlanItem :=
  {| item_id := default (item_id item) (patch_id updates);
     item_text := default (item_text item) (patch_text updates);
     item_type := default (item_type item) (patch_type updates);
     item_timing := from_option Some (item_timing item) (patch_timing updates);
     item_status := default (item_status item) (patch_status updates);
     item_aiGenerated := default (item_aiGenerated item) (patch_aiGenerated updates);
     item_parentId := from_option Some (item_parentId item) (patch_parentId updates);
     item_order := default (item_order item) (patch_order updates) |}.

Definition updatePlanItem (planId itemId : string) (updates : PlanItemPatch) : M Plan :=
  tryCatch
    (IndexedDBService.init;;
     let* found := IndexedDBService.getPlan planId in
     match found with
     | None => throw (MkError "Plan not found")
     | Some plan =>
         let planItems := sd_items (plan_structuredData plan) in
         (* findIndex: [None] is the source's -1 *)
         match list_find (λ item, item_id item = itemId) planItems with
         | None => throw (MkError "Plan item not found")
         | Some (itemIndex, item) =>
             commitItems plan (<[itemIndex := applyItemPatch item updates]> planItems)
         end
     end)
    reportAndRethrow.

Definition setOrder (index : nat) (item : PlanItem) : PlanItem :=
  {| item_id := item_id item; item_text := item_text item; item_type := item_type item;
     item_timing := item_timing item; item_status := item_status item;
     item_aiGenerated := item_aiGenerated item; item_parentId := item_parentId item;
     item_order := Z.of_nat index |}.

Definition removePlanItem (planId itemId : string) : M Plan :=
  tryCatch
    (IndexedDBService.init;;
     let* found := IndexedDBService.getPlan planId in
     match found with
     | None => throw (MkError "Plan not found")
     | Some plan =>
         let updatedItems :=
           filter (λ item, item_id item ≠ itemId) (sd_items (plan_structuredData plan)) in
         (* updatedItems.forEach((item, index) => { item.order = index }) *)
         commitItems plan (imap setOrder updatedItems)
     end)
    reportAndRethrow.

(** [processSyncQueue]: failures are logged and swallowed. *)
Definition processSyncQueue : M unit :=
  tryCatch
    (IndexedDBService.init;;
     let* queue := IndexedDBService.getSyncQueue in
     forEachM
       (λ item,
          tryCatch (IndexedDBService.removeFromSyncQueue (sync_id item))
                   (λ _, ret tt))
       queue)
    (λ _, ret tt).

(** The listeners installed by the constructor on [window]. *)
Definition onOnline : M unit :=
  modify (setIsOnline true);;
  processSyncQueue.

Definition onOffline : M unit := modify (setIsOnline false).

Definition summarize (item : SyncQueueItem) : SyncQueueSummary :=
  {| summary_id := sync_id item;
     summary_operation := sync_operation item;
     summary_planId := sync_planId item;
     summary_timestamp := sync_timestamp item;
     summary_retryCount := sync_retryCount item |}.

Definition getSyncQueueStatus : M SyncQueueStatus :=
  tryCatch
    (IndexedDBService.init;;
     let* queue := IndexedDBService.getSyncQueue in
     ret {| pending := length queue; items := summarize <$> queue |})
    (λ _, ret {| pending := 0%nat; items := [] |}).

Definition loadPlans (userId : string) : M (list Plan) :=
  tryCatch
    (IndexedDBService.init;;
     let* loaded := IndexedDBService.getPlans userId in
     emit (plansLoaded loaded);;
     ret loaded)
    reportAndRethrow.

End PlanService.

(** ** services/enhancementService.ts *)

Module EnhancementService.

(** The [DOMException] a failed request rejects with ([request.error]). *)
Definition requestError : string := "request.error".

(** [ensureDB]: [initDB] is retried while [this.db] is still null. *)
Definition ensureDB : M unit :=
  let* w := get in
  if enhDbOpen w then ret tt
  else
    request OpEnhOpen requestError;;
    modify (setEnhDbOpen true).

Definition getEnhancementById (enhancementId : string) : M (option Enhancement) :=
  ensureDB;;
  request OpGetEnhancement requestError;;
  let* w := get in
  ret (enhancements w !! enhancementId).

Definition saveEnhancement (enhancement : Enhancement) : M unit :=
  ensureDB;;
  request OpPutEnhancement requestError;;
  modify (setEnhancements (insert (enh_id enhancement) enhancement)).

Definition putAll (entries : list ChangeHistoryEntry)
    (store : gmap string ChangeHistoryEntry) : gmap string ChangeHistoryEntry :=
  foldl (λ acc entry, <[hist_id entry := entry]> acc) store entries.

(** [saveChangeHistory]: the puts share one transaction, which commits
    all of them or, when a request fails, none. *)
Definition saveChangeHistory (entries : list ChangeHistoryEntry) : M unit :=
  ensureDB;;
  match entries with
  | [] => ret tt
  | _ =>
      request OpPutHistory requestError;;
      modify (setChangeHistory (putAll entries))
  end.

Definition getHistoryEntry (historyEntryId : string) : M (option ChangeHistoryEntry) :=
  request OpGetHistory requestError;;
  let* w := get in
  ret (changeHistory w !! historyEntryId).

(** *** [extractChangeIndex]: [/-change-(\d+)$/] and [parseInt(_, 10)] *)

Definition isDigit (c : ascii) : bool :=
  (48 <=? nat_of_ascii c)%nat && (nat_of_ascii c <=? 57)%nat.

Definition digitValue (c : ascii) : Z := Z.of_nat (nat_of_ascii c) - 48.

Definition parseInt10 (digits : list ascii) : Z :=
  fold_left (λ acc c, 10 * acc + digitValue c) digits 0.

Fixpoint takeDigits (cs : list ascii) : list ascii :=
  match cs with
  | c :: rest => if isDigit c then c :: takeDigits rest else []
  | [] => []
  end.

Fixpoint dropDigits (cs : list ascii) : list ascii :=
  match cs with
  | c :: rest => if isDigit c then dropDigits rest else cs
  | [] => []
  end.

Fixpoint startsWith (pre cs : list ascii) : bool :=
  match pre, cs with
  | [], _ => true
  | p :: pre', c :: cs' => Ascii.eqb p c && startsWith pre' cs'
  | _ :: _, [] => false
  end.

(** The match is anchored at the end of the string, so it is read off
    the reversed string: a non-empty run of digits, then "-change-". *)
Definition extractChangeIndex (changeId : string) : Z :=
  let reversed := rev (list_ascii_of_string changeId) in
  match takeDigits reversed with
  | [] => -1
  | digits =>
      if startsWith (rev (list_ascii_of_string "-change-")) (dropDigits reversed)
      then parseInt10 (rev digits)
      else -1
  end.

(** [enhancement.changes[changeIndex]]. *)
Definition changeAt (changes : list Change) (changeIndex : Z) : option Change :=
  if changeIndex <? 0 then None else changes !! Z.to_nat changeIndex.

(** [`${enhancementId}-change-${index}`]. *)
Definition changeIdOf (enhancementId : string) (index : nat) : string :=
  enhancementId +:+ "-change-" +:+ pretty index.

Definition allChangeIds (enhancement : Enhancement) (enhancementId : string)
    : list string :=
  imap (λ index _, changeIdOf enhancementId index) (enh_changes enhancement).

Definition setStatusApproved (enhancement : Enhancement) (now : Date) : Enhancement :=
  {| enh_id := enh_id enhancement; enh_planId := enh_planId enhancement;
     enh_type := enh_type enhancement; enh_changes := enh_changes enhancement;
     enh_confidence := enh_confidence enhancement;
     enh_reasoning := enh_reasoning enhancement;
     enh_status := EnhApproved;
     enh_createdAt := enh_createdAt enhancement;
     enh_appliedAt := Some now;
     enh_rejectedAt := enh_rejectedAt enhancement;
     enh_userFeedback := enh_userFeedback enhancement |}.

Definition setStatusRejected (enhancement : Enhancement) (now : Date)
    (feedback : option string) : Enhancement :=
  {| enh_id := enh_id enhancement; enh_planId := enh_planId enhancement;
     enh_type := enh_type enhancement; enh_changes := enh_changes enhancement;
     enh_confidence := enh_confidence enhancement;
     enh_reasoning := enh_reasoning enhancement;
     enh_status := EnhRejected;
     enh_createdAt := enh_createdAt enhancement;
     enh_appliedAt := enh_appliedAt enhancement;
     enh_rejectedAt := Some now;
     enh_userFeedback := feedback |}.

Definition setChanges (enhancement : Enhancement) (changes : list Change) : Enhancement :=
  {| enh_id := enh_id enhancement; enh_planId := enh_planId enhancement;
     enh_type := enh_type enhancement; enh_changes := changes;
     enh_confidence := enh_confidence enhancement;
     enh_reasoning := enh_reasoning enhancement;
     enh_status := enh_status enhancement;
     enh_createdAt := enh_createdAt enhancement;
     enh_appliedAt := enh_appliedAt enhancement;
     enh_rejectedAt := enh_rejectedAt enhancement;
     enh_userFeedback := enh_userFeedback enhancement |}.

(** The body of the [for] loop of [approveChanges], threading the
    history entries and the batch result built so far. *)
Fixpoint approveLoop (enhancement : Enhancement) (enhancementId userId : string)
    (changeIds : list string)
    (historyEntries : list ChangeHistoryEntry) (result : BatchOperationResult)
    : M (list ChangeHistoryEntry * BatchOperationResult) :=
  match changeIds with
  | [] => ret (historyEntries, result)
  | changeId :: rest =>
      match changeAt (enh_changes enhancement) (extractChangeIndex changeId) with
      | None =>
          approveLoop enhancement enhancementId userId rest historyEntries
            {| successful := successful result;
               failed := failed result ++
                 [{| failure_id := changeId; failure_error := "Change not found" |}] |}
      | Some change =>
          let* uuid := randomUUID in
          let* now := newDate in
          let historyEntry :=
            {| hist_id := uuid;
               hist_enhancementId := enhancementId;
               hist_planId := enh_planId enhancement;
               hist_changeId := changeId;
               hist_appliedAt := now;
               hist_appliedBy := userId;
               hist_originalValue := change_oldValue change;
               hist_appliedValue := change_newValue change;
               hist_rollbackData :=
                 Some (ForwardData (change_operation change) (change_target change)) |} in
          approveLoop enhancement enhancementId userId rest
            (historyEntries ++ [historyEntry])
            {| successful := successful result ++ [changeId];
               failed := failed result |}
      end
  end.

(** [approveChanges]. The [catch] block of the source reads
    [changesToApprove], which is scoped to the [try] block: reaching it
    raises a [ReferenceError]. *)
Definition approveChanges (enhancementId : string) (changeIds : option (list string))
    (userId : string) : M BatchOperationResult :=
  let* found := getEnhancementById enhancementId in
  match found with
  | None => throw (MkError ("Enhancement " +:+ enhancementId +:+ " not found"))
  | Some enhancement =>
      tryCatch
        (let changesToApprove :=
           default (allChangeIds enhancement enhancementId) changeIds in
         let* '(historyEntries, result) :=
           approveLoop enhancement enhancementId userId changesToApprove []
             {| successful := []; failed := [] |} in
         saveChangeHistory historyEntries;;
         let* now := newDate in
         saveEnhancement (setStatusApproved enhancement now);;
         ret result)
        (λ _, throw (MkError "changesToApprove is not defined"))
  end.

Definition rejectChanges (enhancementId : string) (changeIds : option (list string))
    (feedback : option string) (userId : string) : M BatchOperationResult :=
  let* found := getEnhancementById enhancementId in
  match found with
  | None => throw (MkError ("Enhancement " +:+ enhancementId +:+ " not found"))
  | Some enhancement =>
      let changesToReject :=
        default (allChangeIds enhancement enhancementId) changeIds in
      tryCatch
        (let* now := newDate in
         saveEnhancement (setStatusRejected enhancement now feedback);;
         ret {| successful := changesToReject; failed := [] |})
        (λ error,
           ret {| successful := [];
                  failed := (λ id, {| failure_id := id;
                                      failure_error := message error |})
                            <$> changesToReject |})
  end.

Definition editedChange (change : Change) (newValue : JsValue) : Change :=
  {| change_operation := change_operation change;
     change_target := change_target change;
     change_oldValue := change_oldValue change;
     change_newValue := newValue;
     change_description := change_description change +:+ " (edited by user)";
     change_confidence := change_confidence change |}.

Definition editChange (enhancementId changeId : string) (newValue : JsValue)
    (userId : string) : M unit :=
  let* found := getEnhancementById enhancementId in
  match found with
  | None => throw (MkError ("Enhancement " +:+ enhancementId +:+ " not found"))
  | Some enhancement =>
      let changeIndex := extractChangeIndex changeId in
      if (changeIndex <? 0) || (Z.of_nat (length (enh_changes enhancement)) <=? changeIndex)
      then throw (MkError ("Change " +:+ changeId +:+ " not found"))
      else
        let updatedChanges :=
          alter (λ change, editedChange change newValue) (Z.to_nat changeIndex)
                (enh_changes enhancement) in
        saveEnhancement (setChanges enhancement updatedChanges)
  end.

(** [historyEntry.rollbackData?.target || 'unknown']. *)
Definition rollbackTarget (entry : ChangeHistoryEntry) : string :=
  match hist_rollbackData entry with
  | Some (ForwardData _ target) => if decide (target = "") then "unknown" else target
  | _ => "unknown"
  end.

Definition rollbackChange (historyEntryId : string) (userId : string) : M unit :=
  ensureDB;;
  let* found := getHistoryEntry historyEntryId in
  match found with
  | None => throw (MkError ("History entry " +:+ historyEntryId +:+ " not found"))
  | Some historyEntry =>
      let* env := (λ env w, (Ok env, w)) in
      let* enhancementUuid := randomUUID in
      let* createdAt := newDate in
      let* appliedAt := newDate in
      let rollbackEnhancement :=
        {| enh_id := enhancementUuid;
           enh_planId := hist_planId historyEntry;
           enh_type := EnhOptimization;
           enh_changes :=
             [{| change_operation := ChangeModify;
                 change_target := rollbackTarget historyEntry;
                 change_oldValue := hist_appliedValue historyEntry;
                 change_newValue := hist_originalValue historyEntry;
                 change_description :=
                   "Rollback of change from " +:+
                   toLocaleString env (hist_appliedAt historyEntry);
                 change_confidence := Some 1%float |}];
           enh_confidence := 1%float;
           enh_reasoning := "User-requested rollback of previous change";
           enh_status := EnhApproved;
           enh_createdAt := createdAt;
           enh_appliedAt := Some appliedAt;
           enh_rejectedAt := None;
           enh_userFeedback := None |} in
      saveEnhancement rollbackEnhancement;;
      let* entryUuid := randomUUID in
      let* now := newDate in
      let rollbackHistoryEntry :=
        {| hist_id := entryUuid;
           hist_enhancementId := enh_id rollbackEnhancement;
           hist_planId := hist_planId historyEntry;
           hist_changeId := enh_id rollbackEnhancement +:+ "-change-0";
           hist_appliedAt := now;
           hist_appliedBy := userId;
           hist_originalValue := hist_appliedValue historyEntry;
           hist_appliedValue := hist_originalValue historyEntry;
           hist_rollbackData := Some (RollbackMark true historyEntryId) |} in
      saveChangeHistory [rollbackHistoryEntry]
  end.

(** Newest first: the comparator of [enhancements.sort]. *)
Definition createdLast (a b : Enhancement) : Prop :=
  (enh_createdAt b ≤ enh_createdAt a)%Z.

Global Instance createdLast_dec a b : Decision (createdLast a b).
Proof. unfold createdLast. apply _. Defined.

(** [getEnhancementsByPlan]: the records of the index [planId] at that
    key, newest first. *)
Definition getEnhancementsByPlan (planId : string) : M (list Enhancement) :=
  ensureDB;;
  request OpGetEnhancement requestError;;
  let* w := get in
  ret (merge_sort createdLast
         (filter (λ e, enh_planId e = planId) (snd <$> map_to_list (enhancements w)))).

Definition isPending (e : Enhancement) : bool :=
  match enh_status e with
  | EnhPending => true
  | _ => false
  end.

Definition getPendingEnhancements (planId : string) : M (list Enhancement) :=
  let* allEnhancements := getEnhancementsByPlan planId in
  ret (List.filter isPending allEnhancements).

(** The loop of [batchApproveEnhancements]. *)
Fixpoint batchApproveLoop (enhancementIds : list string) (userId : string)
    (result : BatchOperationResult) : M BatchOperationResult :=
  match enhancementIds with
  | [] => ret result
  | enhancementId :: rest =>
      let* result' :=
        tryCatch
          (approveChanges enhancementId None userId;;
           ret {| successful := successful result ++ [enhancementId];
                  failed := failed result |})
          (λ error,
             ret {| successful := successful result;
                    failed := failed result ++
                      [{| failure_id := enhancementId;
                          failure_error := message error |}] |}) in
      batchApproveLoop rest userId result'
  end.

Definition batchApproveEnhancements (enhancementIds : list string) (userId : string)
    : M BatchOperationResult :=
  batchApproveLoop enhancementIds userId {| successful := []; failed := [] |}.

(** The loop of [batchRejectEnhancements]. *)
Fixpoint batchRejectLoop (enhancementIds : list string) (feedback : option string)
    (userId : string) (result : BatchOperationResult) : M BatchOperationResult :=
  match enhancementIds with
  | [] => ret result
  | enhancementId :: rest =>
      let* result' :=
        tryCatch
          (rejectChanges enhancementId None feedback userId;;
           ret {| successful := successful result ++ [enhancementId];
                  failed := failed result |})
          (λ error,
             ret {| successful := successful result;
                    failed := failed result ++
                      [{| failure_id := enhancementId;
                          failure_error := message error |}] |}) in
      batchRejectLoop rest feedback userId result'
  end.

Definition batchRejectEnhancements (enhancementIds : list string)
    (feedback : option string) (userId : string) : M BatchOperationResult :=
  batchRejectLoop enhancementIds feedback userId {| successful := []; failed := [] |}.

(** Latest application first: the comparator of [history.sort]. *)
Definition appliedLast (a b : ChangeHistoryEntry) : Prop :=
  (hist_appliedAt b ≤ hist_appliedAt a)%Z.

Global Instance appliedLast_dec a b : Decision (appliedLast a b).
Proof. unfold appliedLast. apply _. Defined.

Definition getChangeHistory (planId : string) : M (list ChangeHistoryEntry) :=
  ensureDB;;
  request OpGetHistory requestError;;
  let* w := get in
  ret (merge_sort appliedLast
         (filter (λ entry, hist_planId entry = planId)
                 (snd <$> map_to_list (changeHistory w)))).

(** The order in which an index returns records of equal index key: by
    primary key, compared as strings, code unit by code unit. *)
Definition byKey (a b : ChangeHistoryEntry) : Prop :=
  String.leb (hist_id a) (hist_id b) = true.

Global Instance byKey_dec a b : Decision (byKey a b).
Proof. unfold byKey. apply _. Defined.

(** The records of the index [enhancementId] at that key. *)
Definition entriesOfEnhancement (enhancementId : string)
    (store : gmap string ChangeHistoryEntry) : list ChangeHistoryEntry :=
  merge_sort byKey
    (filter (λ entry, hist_enhancementId entry = enhancementId)
            (snd <$> map_to_list store)).

Definition rollbackEnhancement (enhancementId : string) (userId : string) : M unit :=
  ensureDB;;
  request OpGetHistory requestError;;
  let* w := get in
  let historyEntries := entriesOfEnhancement enhancementId (changeHistory w) in
  forEachM (λ entry, rollbackChange (hist_id entry) userId) (reverse historyEntries).

(** [deleteEnhancement]: a write to the enhancements store. *)
Definition deleteEnhancement (enhancementId : string) : M unit :=
  ensureDB;;
  request OpPutEnhancement requestError;;
  modify (setEnhancements (delete enhancementId)).

(** 30 * 24 * 60 * 60 * 1000 milliseconds. *)
Definition thirtyDays : Z := 2592000000.

(** What the cursor of [clearHistory] deletes. *)
Definition expired (planId : string) (cutoffDate : Date)
    (entry : ChangeHistoryEntry) : Prop :=
  hist_planId entry = planId ∧ (hist_appliedAt entry < cutoffDate)%Z.

Global Instance expired_dec planId cutoffDate entry :
  Decision (expired planId cutoffDate entry).
Proof. unfold expired. apply _. Defined.

(** [clearHistory]: the cursor walks the entries of the plan in one
    transaction and deletes those applied before the cutoff; the clock is
    read only when no cutoff is given. *)
Definition clearHistory (planId : string) (olderThan : option Date) : M unit :=
  ensureDB;;
  let* cutoffDate :=
    match olderThan with
    | Some date => ret date
    | None => let* now := newDate in ret (now - thirtyDays)
    end in
  request OpPutHistory requestError;;
  modify (setChangeHistory
            (filter (λ kv, ¬ expired planId cutoffDate kv.2))).

End EnhancementService.

(** ** hooks/usePlanContext.tsx: the selectors of [usePlans] *)

Module PlanContext.

(** A length or a count as a JS number. *)
Definition toNumber (n : nat) : float :=
  PrimFloat.of_uint63 (Uint63.of_Z (Z.of_nat n)).

Definition two52 : float := 4503599627370496%float.

(** [Math.floor] on a finite double: below 2^52 in magnitude, adding and
    subtracting 2^52 rounds to a neighbouring integer; larger doubles
    are integers already. *)
Definition Math_floor (x : float) : float :=
  if PrimFloat.leb two52 (PrimFloat.abs x) then x
  else
    let r := if PrimFloat.ltb x 0%float
             then ((x - two52) + two52)%float
             else ((x + two52) - two52)%float in
    if PrimFloat.ltb x r then (r - 1)%float else r.

(** [Math.round]: the nearest integer, ties towards +∞. The difference
    [x - Math.floor x] is exact. *)
Definition Math_round (x : float) : float :=
  let f := Math_floor x in
  let r := if PrimFloat.leb 0.5%float (x - f)%float then (f + 1)%float else f in
  (* a zero result keeps the sign of [x] *)
  if PrimFloat.eqb r 0%float && PrimFloat.ltb (1 / x)%float 0%float
  then (- 0)%float
  else r.

(** [state.plans.find(plan => plan.id === planId)]. *)
Definition getPlan (statePlans : list Plan) (planId : string) : option Plan :=
  snd <$> list_find (λ plan, plan_id plan = planId) statePlans.

Definition isCompleted (item : PlanItem) : bool :=
  match item_status item with
  | StatusCompleted => true
  | _ => false
  end.

Definition getCompletedItemsCount (statePlans : list Plan) (planId : string) : nat :=
  match getPlan statePlans planId with
  | None => 0%nat
  | Some plan => length (List.filter isCompleted (sd_items (plan_structuredData plan)))
  end.

Definition getTotalItemsCount (statePlans : list Plan) (planId : string) : nat :=
  match getPlan statePlans planId with
  | None => 0%nat
  | Some plan => length (sd_items (plan_structuredData plan))
  end.

Definition getCompletionPercentage (statePlans : list Plan) (planId : string) : float :=
  let total := getTotalItemsCount statePlans planId in
  if decide (total = 0%nat) then 0%float
  else
    let completed := getCompletedItemsCount statePlans planId in
    Math_round ((toNumber completed / toNumber total) * 100)%float.

End PlanContext.

(** ** hooks/usePlanContext.tsx: the reducer and the actions of [PlanProvider] *)

Module PlanProvider.

Record SyncStatus := {
  status_isOnline : bool;
  status_pendingSync : nat;
  status_lastSync : option Date;
}.

(** [Partial<PlanState['syncStatus']>]. *)
Record SyncStatusPatch := {
  statusPatch_isOnline : option bool;
  statusPatch_pendingSync : option nat;
  statusPatch_lastSync : option Date;
}.

Record PlanState := {
  state_plans : list Plan;
  state_loading : bool;
  state_error : option string;
  state_selectedPlanId : option string;
  state_syncStatus : SyncStatus;
}.

(** [Partial<Plan>], the payload of an optimistic update. *)
Record PlanPatch := {
  planPatch_id : option string;
  planPatch_userId : option string;
  planPatch_title : option string;
  planPatch_content : option NaturalLanguageContent;
  planPatch_structuredData : option StructuredPlanData;
  planPatch_metadata : option PlanMetadata;
  planPatch_version : option Z;
  planPatch_createdAt : option Date;
  planPatch_updatedAt : option Date;
}.

Inductive PlanAction :=
  | SET_LOADING (payload : bool)
  | SET_ERROR (payload : option string)
  | SET_PLANS (payload : list Plan)
  | ADD_PLAN (payload : Plan)
  | UPDATE_PLAN (payload : Plan)
  | REMOVE_PLAN (payload : string)
  | SELECT_PLAN (payload : option string)
  | SET_SYNC_STATUS (payload : SyncStatusPatch)
  | OPTIMISTIC_UPDATE (planId : string) (updates : PlanPatch)
  | REVERT_OPTIMISTIC (payload : string).

(** [{ ...plan, ...updates }]. *)
Definition applyPlanPatch (plan : Plan) (updates : PlanPatch) : Plan :=
  {| plan_id := default (plan_id plan) (planPatch_id updates);
     plan_userId := default (plan_userId plan) (planPatch_userId updates);
     plan_title := default (plan_title plan) (planPatch_title updates);
     plan_content := default (plan_content plan) (planPatch_content updates);
     plan_structuredData :=
       default (plan_structuredData plan) (planPatch_structuredData updates);
     plan_metadata := default (plan_metadata plan) (planPatch_metadata updates);
     plan_version := default (plan_version plan) (planPatch_version updates);
     plan_createdAt := default (plan_createdAt plan) (planPatch_createdAt updates);
     plan_updatedAt := default (plan_updatedAt plan) (planPatch_updatedAt updates) |}.

Definition mergeSyncStatus (status : SyncStatus) (patch : SyncStatusPatch) : SyncStatus :=
  {| status_isOnline := default (status_isOnline status) (statusPatch_isOnline patch);
     status_pendingSync :=
       default (status_pendingSync status) (statusPatch_pendingSync patch);
     status_lastSync :=
       from_option Some (status_lastSync status) (statusPatch_lastSync patch) |}.

Definition planReducer (state : PlanState) (action : PlanAction) : PlanState :=
  match action with
  | SET_LOADING payload =>
      {| state_plans := state_plans state; state_loading := payload;
         state_error := state_error state;
         state_selectedPlanId := state_selectedPlanId state;
         state_syncStatus := state_syncStatus state |}
  | SET_ERROR payload =>
      {| state_plans := state_plans state; state_loading := false;
         state_error := payload;
         state_selectedPlanId := state_selectedPlanId state;
         state_syncStatus := state_syncStatus state |}
  | SET_PLANS payload =>
      {| state_plans := payload; state_loading := false; state_error := None;
         state_selectedPlanId := state_selectedPlanId state;
         state_syncStatus := state_syncStatus state |}
  | ADD_PLAN payload =>
      {| state_plans := payload :: state_plans state; state_loading := false;
         state_error := None;
         state_selectedPlanId := state_selectedPlanId state;
         state_syncStatus := state_syncStatus state |}
  | UPDATE_PLAN payload =>
      {| state_plans :=
           (λ plan, if decide (plan_id plan = plan_id payload) then payload else plan)
             <$> state_plans state;
         state_loading := false; state_error := None;
         state_selectedPlanId := state_selectedPlanId state;
         state_syncStatus := state_syncStatus state |}
  | REMOVE_PLAN payload =>
      {| state_plans := filter (λ plan, plan_id plan ≠ payload) (state_plans state);
         state_loading := false; state_error := None;
         state_selectedPlanId :=
           if decide (state_selectedPlanId state = Some payload) then None
           else state_selectedPlanId state;
         state_syncStatus := state_syncStatus state |}
  | SELECT_PLAN payload =>
      {| state_plans := state_plans state; state_loading := state_loading state;
         state_error := state_error state;
         state_selectedPlanId := payload;
         state_syncStatus := state_syncStatus state |}
  | SET_SYNC_STATUS payload =>
      {| state_plans := state_plans state; state_loading := state_loading state;
         state_error := state_error state;
         state_selectedPlanId := state_selectedPlanId state;
         state_syncStatus := mergeSyncStatus (state_syncStatus state) payload |}
  | OPTIMISTIC_UPDATE planId updates =>
      {| state_plans :=
           (λ plan, if decide (plan_id plan = planId) then applyPlanPatch plan updates
                    else plan)
             <$> state_plans state;
         state_loading := state_loading state;
         state_error := state_error state;
         state_selectedPlanId := state_selectedPlanId state;
         state_syncStatus := state_syncStatus state |}
  | REVERT_OPTIMISTIC _ => state
  end.

(** The listeners the provider registers on the plan service: each event
    is dispatched as an action. *)
Definition listenerAction (ev : ServiceEvent) : PlanAction :=
  match ev with
  | planCreated plan => ADD_PLAN plan
  | planUpdated plan => UPDATE_PLAN plan
  | planDeleted planId => REMOVE_PLAN planId
  | plansLoaded loaded => SET_PLANS loaded
  | errorEvent error => SET_ERROR (Some (message error))
  end.

(** A computation of the provider: it runs in a state of the reducer. *)
Definition Action (A : Type) : Type :=
  PlanState → Env → World → Outcome A * PlanState * World.

(** A call of the plan service made while the listeners are registered:
    the events it emits are dispatched in the order of emission. *)
Definition observed {A} (call : M A) : Action A :=
  λ state env w,
    let '(outcome, w') := call env w in
    (outcome,
     foldl (λ st ev, planReducer st (listenerAction ev)) state
           (drop (length (events w)) (events w')),
     w').

Definition createPlan (input : CreatePlanInput) : Action Plan :=
  λ state env w,
    match observed (PlanService.createPlan input)
            (planReducer state (SET_LOADING true)) env w with
    | (Ok plan, state', w') => (Ok plan, state', w')
    | (Throw error, state', w') =>
        (Throw error, planReducer state' (SET_ERROR (Some (message error))), w')
    end.

Definition deletePlan (planId : string) : Action unit :=
  λ state env w,
    let originalPlans := state_plans state in
    match observed (PlanService.deletePlan planId)
            (planReducer state (REMOVE_PLAN planId)) env w with
    | (Ok _, state', w') => (Ok tt, state', w')
    | (Throw error, state', w') =>
        (Throw error,
         planReducer (planReducer state' (SET_PLANS originalPlans))
                     (SET_ERROR (Some (message error))),
         w')
    end.

(** The shape shared by [addPlanItem], [updatePlanItem] and
    [removePlanItem]: a rejected call is reported with [SET_ERROR]. *)
Definition reported (call : M Plan) : Action Plan :=
  λ state env w,
    match observed call state env w with
    | (Ok plan, state', w') => (Ok plan, state', w')
    | (Throw error, state', w') =>
        (Throw error, planReducer state' (SET_ERROR (Some (message error))), w')
    end.

Definition addPlanItem (planId : string) (item : NewPlanItem) : Action Plan :=
  reported (PlanService.addPlanItem planId item).

Definition updatePlanItem (planId itemId : string) (updates : PlanItemPatch)
    : Action Plan :=
  reported (PlanService.updatePlanItem planId itemId updates).

Definition removePlanItem (planId itemId : string) : Action Plan :=
  reported (PlanService.removePlanItem planId itemId).

End PlanProvider.

(** ** Concrete worlds used by the examples *)

Module Fixtures.

Definition uuidOf (n : nat) : string := "uuid-" +:+ pretty n.

(** An environment in which no storage request fails. *)
Definition calmEnv : Env :=
  {| randomUUID_at := uuidOf;
     date_at := λ n, 1000 + Z.of_nat n;
     toLocaleString := λ d, pretty d;
     storageFails := λ _ _, false |}.

(** An environment in which reading the sync queue fails. *)
Definition brokenQueueEnv : Env :=
  {| randomUUID_at := uuidOf;
     date_at := λ n, 1000 + Z.of_nat n;
     toLocaleString := λ d, pretty d;
     storageFails := λ _ op, match op with OpGetSyncQueue => true | _ => false end |}.

Definition emptyWorld : World :=
  {| plans := ∅; syncQueue := ∅; initState := NotStarted; isOnline := true;
     events := []; enhancements := ∅; changeHistory := ∅; enhDbOpen := true;
     tick := 0 |}.

Definition someContent : NaturalLanguageContent :=
  {| content_originalText := "Test content"; content_processedText := None;
     content_confidence := None; content_ambiguities := None |}.

Definition someMetadata : PlanMetadata :=
  {| meta_source := UserInput; meta_language := "en"; meta_complexity := Simple;
     meta_lastAiProcessed := None; meta_processingVersion := None |}.

Definition mkItem (itemId : string) (status : ItemStatus) (order : Z) : PlanItem :=
  {| item_id := itemId; item_text := "Test item"; item_type := ItemTask;
     item_timing := None; item_status := status; item_aiGenerated := false;
     item_parentId := None; item_order := order |}.

Definition mkPlan (planId : string) (planItems : list PlanItem) (version : Z) : Plan :=
  {| plan_id := planId; plan_userId := "user-1"; plan_title := "Test Plan";
     plan_content := someContent;
     plan_structuredData :=
       {| sd_type := PlanCustom; sd_items := planItems; sd_schedule := None;
          sd_goals := None; sd_tags := ["test"]; sd_category := None;
          sd_estimatedDuration := None |};
     plan_metadata := someMetadata; plan_version := version;
     plan_createdAt := 10; plan_updatedAt := 10 |}.

Definition worldWith (p : Plan) : World :=
  setPlans (insert (plan_id p) p) emptyWorld.

(** The plan of the service's tests: one pending item, version 1. *)
Definition planWithItem : Plan := mkPlan "p1" [mkItem "i1" StatusPending 0] 1.

Definition newItem : NewPlanItem :=
  {| new_text := "New item"; new_type := ItemTask; new_timing := None;
     new_status := StatusPending; new_aiGenerated := false; new_parentId := None |}.

(** The input of the service's tests. *)
Definition newPlanInput : CreatePlanInput :=
  {| create_title := "New Plan";
     create_content :=
       {| content_originalText := "New content"; content_processedText := None;
          content_confidence := None; content_ambiguities := None |};
     create_userId := "user-1";
     create_structuredData := None |}.

Definition titleUpdate (planId title : string) : UpdatePlanInput :=
  {| update_id := planId; update_title := Some title; update_content := None;
     update_structuredData := None |}.

Definition tagsPatch (tags : list string) : StructuredPlanDataPatch :=
  {| sdp_type := None; sdp_items := None; sdp_schedule := None;
     sdp_goals := None; sdp_tags := Some tags; sdp_category := None;
     sdp_estimatedDuration := None |}.

(** [{ id, structuredData: { tags } }]. *)
Definition tagsUpdate (planId : string) (tags : list string) : UpdatePlanInput :=
  {| update_id := planId; update_title := None; update_content := None;
     update_structuredData := Some (tagsPatch tags) |}.

Definition orderPatch (order : Z) : PlanItemPatch :=
  {| patch_id := None; patch_text := None; patch_type := None; patch_timing := None;
     patch_status := None; patch_aiGenerated := None; patch_parentId := None;
     patch_order := Some order |}.

(** A plan of [total] items of which the first [completed] are done. *)
Definition progressPlan (completed total : nat) : Plan :=
  mkPlan "p1"
    ((λ i, mkItem ("i" +:+ pretty i)
             (if (i <? completed)%nat then StatusCompleted else StatusPending)
             (Z.of_nat i))
       <$> seq 0 total)
    1.

Definition retitle : Change :=
  {| change_operation := ChangeModify; change_target := "title";
     change_oldValue := JsString "Old title"; change_newValue := JsString "New title";
     change_description := "Rename the plan"; change_confidence := None |}.

Definition mkEnhancement (enhancementId : string) (status : EnhancementStatus)
    : Enhancement :=
  {| enh_id := enhancementId; enh_planId := "p1"; enh_type := EnhStructure;
     enh_changes := [retitle]; enh_confidence := 1%float;
     enh_reasoning := "Clearer title"; enh_status := status;
     enh_createdAt := 20; enh_appliedAt := None; enh_rejectedAt := None;
     enh_userFeedback := None |}.

Definition worldWithEnhancement (e : Enhancement) : World :=
  setEnhancements (insert (enh_id e) e) emptyWorld.

(** A history entry recording that "p1" was retitled. *)
Definition mkHistoryEntry (entryId : string) (original applied : JsValue)
    : ChangeHistoryEntry :=
  {| hist_id := entryId; hist_enhancementId := "e1"; hist_planId := "p1";
     hist_changeId := "e1-change-0"; hist_appliedAt := 30; hist_appliedBy := "user-1";
     hist_originalValue := original; hist_appliedValue := applied;
     hist_rollbackData := Some (ForwardData ChangeModify "title") |}.

Definition worldWithHistory (p : Plan) (entries : list ChangeHistoryEntry) : World :=
  setChangeHistory (EnhancementService.putAll entries) (worldWith p).

(** An environment in which writing to the sync queue fails. *)
Definition fullQueueEnv : Env :=
  {| randomUUID_at := uuidOf;
     date_at := λ n, 1000 + Z.of_nat n;
     toLocaleString := λ d, pretty d;
     storageFails := λ _ op, match op with OpAddToSyncQueue => true | _ => false end |}.

(** An environment in which deleting a plan fails. *)
Definition brokenDeleteEnv : Env :=
  {| randomUUID_at := uuidOf;
     date_at := λ n, 1000 + Z.of_nat n;
     toLocaleString := λ d, pretty d;
     storageFails := λ _ op, match op with OpDeletePlan => true | _ => false end |}.

(** An environment in which writing an enhancement fails. *)
Definition readOnlyEnv : Env :=
  {| randomUUID_at := uuidOf;
     date_at := λ n, 1000 + Z.of_nat n;
     toLocaleString := λ d, pretty d;
     storageFails := λ _ op, match op with OpPutEnhancement => true | _ => false end |}.

(** The service has seen the [offline] event. *)
Definition offline (w : World) : World := setIsOnline false w.

(** The world after a plan has been created offline: the store is open and
    the sync queue holds one item. *)
Definition offlineCreated : World :=
  (PlanService.createPlan newPlanInput calmEnv (offline emptyWorld)).2.

(** Two plans of the same owner. *)
Definition twoPlans : World :=
  setPlans (insert "p2" (mkPlan "p2" [] 3)) (worldWith planWithItem).

(** The state of the provider: the given plans are cached. *)
Definition cached (cachedPlans : list Plan) (selected : option string)
    : PlanProvider.PlanState :=
  {| PlanProvider.state_plans := cachedPlans;
     PlanProvider.state_loading := false;
     PlanProvider.state_error := None;
     PlanProvider.state_selectedPlanId := selected;
     PlanProvider.state_syncStatus :=
       {| PlanProvider.status_isOnline := true;
          PlanProvider.status_pendingSync := 0;
          PlanProvider.status_lastSync := None |} |}.

End Fixtures.

(** ** Mutations as data, and the properties stated about them *)

(** The three operations of the Plan Mutation Service that touch items. *)
Inductive ItemMutation :=
  | AddItem (planId : string) (item : NewPlanItem)
  | UpdateItem (planId itemId : string) (updates : PlanItemPatch)
  | RemoveItem (planId itemId : string).

Definition itemMutationTarget (m : ItemMutation) : string :=
  match m with
  | AddItem planId _ => planId
  | UpdateItem planId _ _ => planId
  | RemoveItem planId _ => planId
  end.

Definition runItemMutation (m : ItemMutation) : M Plan :=
  match m with
  | AddItem planId item => PlanService.addPlanItem planId item
  | UpdateItem planId itemId updates => PlanService.updatePlanItem planId itemId updates
  | RemoveItem planId itemId => PlanService.removePlanItem planId itemId
  end.

(** The mutations of one plan document. *)
Inductive PlanMutation :=
  | UpdatePlan (input : UpdatePlanInput)
  | ItemOp (m : ItemMutation).

Definition mutationTarget (m : PlanMutation) : string :=
  match m with
  | UpdatePlan input => update_id input
  | ItemOp m => itemMutationTarget m
  end.

Definition runMutation (m : PlanMutation) : M Plan :=
  match m with
  | UpdatePlan input => PlanService.updatePlan input
  | ItemOp m => runItemMutation m
  end.


Definition planItems (p : Plan) : list PlanItem := sd_items (plan_structuredData p).

(** The [order] values are a permutation of 0, 1, ..., n-1: sorted by
    [order], the i-th item has order i. *)
Definition orderInvariant (its : list PlanItem) : Prop :=
  item_order <$> its ≡ₚ Z.of_nat <$> seq 0 (length its).

(** The [order] values of the items, in increasing order. *)
Definition sortedOrders (its : list PlanItem) : list Z :=
  merge_sort Z.le (item_order <$> its).

(** The item at position i has order i. *)
Definition orderedByPosition (its : list PlanItem) : Prop :=
  item_order <$> its = Z.of_nat <$> seq 0 (length its).

(** An item mutation whose patch, if it has one, does not name [order]. *)
Definition leavesOrderAlone (m : ItemMutation) : Prop :=
  match m with
  | UpdateItem _ _ updates => patch_order updates = None
  | _ => True
  end.


(** No storage request fails. *)
Definition calm (env : Env) : Prop := ∀ n op, storageFails env n op = false.

(** [round(100 × completed / total)] in exact arithmetic, ties upwards. *)
Definition exactPercentage (completed total : nat) : nat :=
  ((200 * completed + total) / (2 * total))%nat.

(** What C1 asks of the stored plan: removal re-indexes whatever it finds,
    the other two mutations keep an order that was already there. *)
Definition startsOrdered (m : ItemMutation) (w : World) : Prop :=
  match m with
  | RemoveItem _ _ => True
  | _ => ∀ stored, plans w !! itemMutationTarget m = Some stored →
                   orderInvariant (planItems stored)
  end.

(** The queue store after every listed item has been deleted from it. *)
Definition drained (queue : list SyncQueueItem)
    (store : gmap string SyncQueueItem) : gmap string SyncQueueItem :=
  foldl (λ acc item, delete (sync_id item) acc) store queue.

(** Two worlds that hold the same documents. *)
Definition sameStores (w w' : World) : Prop :=
  plans w' = plans w ∧ syncQueue w' = syncQueue w ∧
  enhancements w' = enhancements w ∧ changeHistory w' = changeHistory w.

(** The failure recorded for a change identifier that addresses nothing. *)
Definition notFound (changeId : string) : BatchFailure :=
  {| failure_id := changeId; failure_error := "Change not found" |}.

(** A change identifier that addresses no change of the enhancement: its
    index cannot be read, or is out of range. *)
Definition addressesNothing (enhancement : Enhancement) (changeId : string) : Prop :=
  EnhancementService.changeAt (enh_changes enhancement)
    (EnhancementService.extractChangeIndex changeId) = None.

(** Every write operation of the plan service, as data. *)
Inductive ServiceCall :=
  | CreatePlan (input : CreatePlanInput)
  | ModifyPlan (m : PlanMutation)
  | DeletePlan (planId : string).

(** The call, returning the plan it resolves with, if it resolves with one. *)
Definition runCall (c : ServiceCall) : M (option Plan) :=
  match c with
  | CreatePlan input => let* plan := PlanService.createPlan input in ret (Some plan)
  | ModifyPlan m => let* plan := runMutation m in ret (Some plan)
  | DeletePlan planId => PlanService.deletePlan planId;; ret None
  end.

(** ** Notions used by the further properties *)

(** What the queue holds once [item] has been added to it. *)
Definition queuedAs (item : SyncQueueInput) (before after : gmap string SyncQueueItem)
    : Prop :=
  ∃ queued,
    after = <[sync_id queued := queued]> before ∧
    sync_operation queued = input_operation item ∧
    sync_planId queued = input_planId item ∧
    sync_data queued = input_data item ∧
    sync_retryCount queued = 0.

(** The error of a failed write to the sync queue. *)
Definition queueError : JsError := MkError "Failed to add item to sync queue".

(** The facts about one call of the plan service: [stored] is what a
    completed write makes of the plans store, [item] what is queued when
    offline, [ev] what is announced on success. *)
Definition callFacts {A} (stored : gmap string Plan → gmap string Plan)
    (item : SyncQueueInput) (ev : ServiceEvent)
    (w : World) (outcome : Outcome A) (w' : World) : Prop :=
  isOnline w' = isOnline w ∧
  match outcome with
  | Ok _ =>
      events w' = (events w ++ [ev])%list ∧
      plans w' = stored (plans w) ∧
      (if isOnline w then syncQueue w' = syncQueue w
       else queuedAs item (syncQueue w) (syncQueue w'))
  | Throw error =>
      events w' = (events w ++ [errorEvent error])%list ∧
      syncQueue w' = syncQueue w ∧
      ((plans w' = plans w ∧ error ≠ queueError) ∨
       (isOnline w = false ∧ plans w' = stored (plans w) ∧ error = queueError))
  end.

(** Two worlds that differ by bookkeeping only. *)
Definition sameDocs (w w1 : World) : Prop :=
  plans w1 = plans w ∧ syncQueue w1 = syncQueue w ∧
  isOnline w1 = isOnline w ∧ events w1 = events w.

(** A call rejected before it wrote anything. *)
Definition rejectedUntouched {A} (w : World) (outcome : Outcome A) (w' : World) : Prop :=
  ∃ error,
    outcome = Throw error ∧ error ≠ queueError ∧
    events w' = (events w ++ [errorEvent error])%list ∧
    plans w' = plans w ∧ syncQueue w' = syncQueue w ∧ isOnline w' = isOnline w.

(** The plan that the item operations commit. *)
Definition committedPlan (plan : Plan) (newItems : list PlanItem) (now : Date) : Plan :=
  {| plan_id := plan_id plan;
     plan_userId := plan_userId plan;
     plan_title := plan_title plan;
     plan_content := plan_content plan;
     plan_structuredData := PlanService.setItems newItems (plan_structuredData plan);
     plan_metadata := plan_metadata plan;
     plan_version := plan_version plan + 1;
     plan_createdAt := plan_createdAt plan;
     plan_updatedAt := now |}.

Definition updateItemOf (p : Plan) : SyncQueueInput :=
  {| input_operation := SyncUpdate; input_planId := plan_id p; input_data := Some p |}.

(** The items an item mutation makes of the stored ones. *)
Definition itemsAfter (m : ItemMutation) (plan : Plan) (newItems : list PlanItem) : Prop :=
  match m with
  | AddItem _ item =>
      ∃ uuid,
        newItems = (planItems plan ++
          [{| item_id := uuid;
              item_text := new_text item;
              item_type := new_type item;
              item_timing := new_timing item;
              item_status := new_status item;
              item_aiGenerated := new_aiGenerated item;
              item_parentId := new_parentId item;
              item_order := Z.of_nat (length (planItems plan)) |}])%list
  | UpdateItem _ itemId updates =>
      ∃ itemIndex item,
        list_find (λ item, item_id item = itemId) (planItems plan)
        = Some (itemIndex, item) ∧
        newItems = <[itemIndex := PlanService.applyItemPatch item updates]> (planItems plan)
  | RemoveItem _ itemId =>
      newItems = imap PlanService.setOrder
                   (filter (λ item, item_id item ≠ itemId) (planItems plan))
  end.

(** The plan that updatePlan commits. *)
Definition updatedPlanOf (existingPlan : Plan) (input : UpdatePlanInput) (now : Date)
    : Plan :=
  {| plan_id := update_id input;
     plan_userId := plan_userId existingPlan;
     plan_title := default (plan_title existingPlan) (update_title input);
     plan_content := default (plan_content existingPlan) (update_content input);
     plan_structuredData :=
       PlanService.mergeStructuredData (plan_structuredData existingPlan)
         (update_structuredData input);
     plan_metadata := plan_metadata existingPlan;
     plan_version := plan_version existingPlan + 1;
     plan_createdAt := plan_createdAt existingPlan;
     plan_updatedAt := now |}.

(** The plan that createPlan synthesizes. *)
Definition createdPlanOf (input : CreatePlanInput) (uuid : string) (now : Date) : Plan :=
  {| plan_id := uuid;
     plan_userId := create_userId input;
     plan_title := create_title input;
     plan_content := create_content input;
     plan_structuredData :=
       PlanService.mergeStructuredData
         {| sd_type := PlanCustom; sd_items := []; sd_schedule := None;
            sd_goals := None; sd_tags := []; sd_category := None;
            sd_estimatedDuration := None |}
         (create_structuredData input);
     plan_metadata :=
       {| meta_source := UserInput; meta_language := "en";
          meta_complexity := Simple; meta_lastAiProcessed := None;
          meta_processingVersion := None |};
     plan_version := 1;
     plan_createdAt := now;
     plan_updatedAt := now |}.

Definition createItemOf (p : Plan) : SyncQueueInput :=
  {| input_operation := SyncCreate; input_planId := plan_id p; input_data := Some p |}.

Definition deleteItemOf (planId : string) : SyncQueueInput :=
  {| input_operation := SyncDelete; input_planId := planId; input_data := None |}.

(** What a mutation makes of the stored plan. *)
Definition modified (m : PlanMutation) (existingPlan p : Plan) : Prop :=
  match m with
  | UpdatePlan input => ∃ now, p = updatedPlanOf existingPlan input now
  | ItemOp m =>
      ∃ newItems now,
        p = committedPlan existingPlan newItems now ∧ itemsAfter m existingPlan newItems
  end.

(** What a write operation writes, queues and announces. *)
Definition callShape (c : ServiceCall) (w : World) (outcome : Outcome (option Plan))
    (stored : gmap string Plan → gmap string Plan)
    (item : SyncQueueInput) (ev : ServiceEvent) : Prop :=
  match c with
  | CreatePlan input =>
      ∃ uuid now,
        let p := createdPlanOf input uuid now in
        stored = insert (plan_id p) p ∧ item = createItemOf p ∧ ev = planCreated p ∧
        (∀ result, outcome = Ok result → result = Some p)
  | ModifyPlan m =>
      ∃ existingPlan p,
        plans w !! mutationTarget m = Some existingPlan ∧
        modified m existingPlan p ∧
        stored = insert (plan_id p) p ∧ item = updateItemOf p ∧ ev = planUpdated p ∧
        (∀ result, outcome = Ok result → result = Some p)
  | DeletePlan planId =>
      stored = delete planId ∧ item = deleteItemOf planId ∧ ev = planDeleted planId ∧
      (∀ result, outcome = Ok result → result = None)
  end.


(** The sync queue store is keyed by [keyPath: 'id']. *)
Definition queueKeyedById (w : World) : Prop :=
  map_Forall (λ key item, sync_id item = key) (syncQueue w).

Global Instance newerFirst_total : Total IndexedDBService.newerFirst.
Proof. intros a b. unfold IndexedDBService.newerFirst. lia. Qed.

Global Instance newerFirst_trans : Transitive IndexedDBService.newerFirst.
Proof. intros a b c. unfold IndexedDBService.newerFirst. lia. Qed.

Global Instance olderFirst_total : Total IndexedDBService.olderFirst.
Proof. intros a b. unfold IndexedDBService.olderFirst. lia. Qed.

Global Instance olderFirst_trans : Transitive IndexedDBService.olderFirst.
Proof. intros a b c. unfold IndexedDBService.olderFirst. lia. Qed.

(** A change identifier that addresses a change of the enhancement. *)
Definition addresses (enhancement : Enhancement) (changeId : string) : Prop :=
  is_Some (EnhancementService.changeAt (enh_changes enhancement)
             (EnhancementService.extractChangeIndex changeId)).

Global Instance addresses_dec enhancement changeId :
  Decision (addresses enhancement changeId).
Proof. unfold addresses. apply _. Defined.

Global Instance addressesNothing_dec enhancement changeId :
  Decision (addressesNothing enhancement changeId).
Proof. unfold addressesNothing. apply _. Defined.

(** The history entry approveChanges writes for a change it approves. *)
Definition recordsChange (enhancement : Enhancement) (enhancementId userId : string)
    (entry : ChangeHistoryEntry) : Prop :=
  hist_enhancementId entry = enhancementId ∧
  hist_planId entry = enh_planId enhancement ∧
  hist_appliedBy entry = userId ∧
  ∃ change,
    EnhancementService.changeAt (enh_changes enhancement)
      (EnhancementService.extractChangeIndex (hist_changeId entry)) = Some change ∧
    hist_originalValue entry = change_oldValue change ∧
    hist_appliedValue entry = change_newValue change ∧
    hist_rollbackData entry
    = Some (ForwardData (change_operation change) (change_target change)).

(** The failure recorded for an identifier when a storage request fails. *)
Definition requestFailed (changeId : string) : BatchFailure :=
  {| failure_id := changeId; failure_error := EnhancementService.requestError |}.

Global Instance createdLast_total : Total EnhancementService.createdLast.
Proof. intros a b. unfold EnhancementService.createdLast. lia. Qed.

Global Instance createdLast_trans : Transitive EnhancementService.createdLast.
Proof. intros a b c. unfold EnhancementService.createdLast. lia. Qed.

Global Instance appliedLast_total : Total EnhancementService.appliedLast.
Proof. intros a b. unfold EnhancementService.appliedLast. lia. Qed.

Global Instance appliedLast_trans : Transitive EnhancementService.appliedLast.
Proof. intros a b c. unfold EnhancementService.appliedLast. lia. Qed.

(** The item actions of the provider, as data. *)
Definition runProviderItemMutation (m : ItemMutation) : PlanProvider.Action Plan :=
  match m with
  | AddItem planId item => PlanProvider.addPlanItem planId item
  | UpdateItem planId itemId updates => PlanProvider.updatePlanItem planId itemId updates
  | RemoveItem planId itemId => PlanProvider.removePlanItem planId itemId
  end.

(** ** Reasoning about runs *)

Ltac unfold_indexeddb :=
  unfold IndexedDBService.getPlan, IndexedDBService.savePlan,
    IndexedDBService.deletePlan, IndexedDBService.addToSyncQueue,
    IndexedDBService.getSyncQueue, IndexedDBService.removeFromSyncQueue,
    IndexedDBService.ensureDB, IndexedDBService.init in *.

Ltac unfold_monad :=
  unfold bind, ret, throw, tryCatch, get, modify, request, randomUUID, newDate in *.

(** Case analysis on every branch taken by a run. *)
Ltac crunch :=
  simpl in *; simplify_eq/=; repeat (case_match; simplify_eq/=); try done.

(** Close the branches left by [crunch]: contradictory branches, and goals
    that still test a field whose value the branch has fixed. *)
Ltac settle :=
  try congruence;
  repeat match goal with
         | H : isOnline ?w = _ |- context [isOnline ?w] => rewrite H
         end;
  repeat split; try done;
  try match goal with
      | |- ∃ item, <[_ := ?v]> _ = _ ∧ _ => exists v; split_and!; reflexivity
      end;
  eauto 10.

Lemma bind_Ok {A B} (m : M A) (k : A → M B) env w b w' :
  bind m k env w = (Ok b, w') →
  ∃ a w1, m env w = (Ok a, w1) ∧ k a env w1 = (Ok b, w').
Proof.
  unfold bind. destruct (m env w) as [[a|e] w1]; [eauto | discriminate].
Qed.

Lemma rethrow_Ok {A} (m : M A) env w a w' :
  tryCatch m PlanService.reportAndRethrow env w = (Ok a, w') →
  m env w = (Ok a, w').
Proof.
  unfold tryCatch, PlanService.reportAndRethrow, PlanService.emit.
  unfold_monad. destruct (m env w) as [[?|?] ?]; [done | discriminate].
Qed.

(** A successful run that starts by loading a plan continues with what
    the store holds, in a world that differs by bookkeeping only. *)
Lemma load_then_Ok {B} planId (k : option Plan → M B) env w b w' :
  (IndexedDBService.init;;
   let* found := IndexedDBService.getPlan planId in k found) env w = (Ok b, w') →
  ∃ w1, k (plans w !! planId) env w1 = (Ok b, w') ∧
        plans w1 = plans w ∧ syncQueue w1 = syncQueue w ∧
        isOnline w1 = isOnline w ∧ events w1 = events w.
Proof.
  unfold_indexeddb. unfold_monad. intros H. crunch; eauto 10.
Qed.

Lemma commitItems_Ok plan newItems env w p w' :
  PlanService.commitItems plan newItems env w = (Ok p, w') →
  plan_version p = plan_version plan + 1 ∧
  plan_id p = plan_id plan ∧
  plan_structuredData p = PlanService.setItems newItems (plan_structuredData plan) ∧
  plans w' = <[plan_id p := p]> (plans w).
Proof.
  unfold PlanService.commitItems, PlanService.queueIfOffline, PlanService.emit.
  unfold_indexeddb. unfold_monad. intros H. crunch.
Qed.

Lemma updatePlan_Ok input env w p w' :
  PlanService.updatePlan input env w = (Ok p, w') →
  ∃ existingPlan,
    plans w !! update_id input = Some existingPlan ∧
    plan_id p = update_id input ∧
    plan_version p = plan_version existingPlan + 1 ∧
    plan_structuredData p =
      PlanService.mergeStructuredData (plan_structuredData existingPlan)
        (update_structuredData input) ∧
    plans w' = <[update_id input := p]> (plans w).
Proof.
  intros H%rethrow_Ok.
  apply load_then_Ok in H as (w1 & H & Hplans & _).
  destruct (plans w !! update_id input) as [existingPlan|]; [|discriminate].
  exists existingPlan. rewrite <- Hplans. clear Hplans.
  unfold PlanService.queueIfOffline, PlanService.emit in H.
  unfold_indexeddb. unfold_monad. crunch.
Qed.

Lemma addPlanItem_Ok planId item env w p w' :
  PlanService.addPlanItem planId item env w = (Ok p, w') →
  ∃ plan newItem,
    plans w !! planId = Some plan ∧
    item_order newItem = Z.of_nat (length (planItems plan)) ∧
    plan_version p = plan_version plan + 1 ∧
    plan_id p = plan_id plan ∧
    plan_structuredData p =
      PlanService.setItems (planItems plan ++ [newItem]) (plan_structuredData plan) ∧
    plans w' = <[plan_id p := p]> (plans w).
Proof.
  intros H%rethrow_Ok.
  apply load_then_Ok in H as (w1 & H & Hplans & _).
  destruct (plans w !! planId) as [plan|]; [|discriminate].
  apply bind_Ok in H as (uuid & w2 & Huuid & H).
  apply commitItems_Ok in H as (? & ? & ? & Hstore).
  assert (plans w2 = plans w1) as Hw2 by (unfold_monad; crunch).
  rewrite Hw2, Hplans in Hstore.
  eexists plan, _. split_and!; try eassumption; try done.
Qed.

Lemma updatePlanItem_Ok planId itemId updates env w p w' :
  PlanService.updatePlanItem planId itemId updates env w = (Ok p, w') →
  ∃ plan itemIndex item,
    plans w !! planId = Some plan ∧
    planItems plan !! itemIndex = Some item ∧
    item_id item = itemId ∧
    plan_version p = plan_version plan + 1 ∧
    plan_id p = plan_id plan ∧
    plan_structuredData p =
      PlanService.setItems
        (<[itemIndex := PlanService.applyItemPatch item updates]> (planItems plan))
        (plan_structuredData plan) ∧
    plans w' = <[plan_id p := p]> (plans w).
Proof.
  intros H%rethrow_Ok.
  apply load_then_Ok in H as (w1 & H & Hplans & _).
  destruct (plans w !! planId) as [plan|]; [|discriminate].
  cbv zeta in H.
  destruct (list_find _ (sd_items _)) as [[itemIndex item]|] eqn:Hfind; [|discriminate].
  apply list_find_Some in Hfind as (Hlookup & Hid & _).
  apply commitItems_Ok in H as (? & ? & ? & Hstore).
  rewrite Hplans in Hstore. eauto 12.
Qed.

Lemma removePlanItem_Ok planId itemId env w p w' :
  PlanService.removePlanItem planId itemId env w = (Ok p, w') →
  ∃ plan,
    plans w !! planId = Some plan ∧
    plan_version p = plan_version plan + 1 ∧
    plan_id p = plan_id plan ∧
    plan_structuredData p =
      PlanService.setItems
        (imap PlanService.setOrder
           (filter (λ item, item_id item ≠ itemId) (planItems plan)))
        (plan_structuredData plan) ∧
    plans w' = <[plan_id p := p]> (plans w).
Proof.
  intros H%rethrow_Ok.
  apply load_then_Ok in H as (w1 & H & Hplans & _).
  destruct (plans w !! planId) as [plan|]; [|discriminate].
  apply commitItems_Ok in H as (? & ? & ? & Hstore).
  rewrite Hplans in Hstore. eauto 10.
Qed.

(** ** Item order *)

Lemma setItems_items newItems sd :
  sd_items (PlanService.setItems newItems sd) = newItems.
Proof. done. Qed.

Lemma orders_reindexed_from (k : nat) (its : list PlanItem) :
  item_order <$> imap (λ i, PlanService.setOrder (k + i)) its
  = Z.of_nat <$> seq k (length its).
Proof.
  revert k. induction its as [|it its IH]; intros k; [done|].
  cbn [imap length seq fmap list_fmap]. f_equal.
  - by rewrite Nat.add_0_r.
  - rewrite <- (IH (S k)). f_equal. apply imap_ext. intros i x _. simpl.
    by rewrite Nat.add_succ_r.
Qed.

Lemma orders_reindexed (its : list PlanItem) :
  orderedByPosition (imap PlanService.setOrder its).
Proof.
  unfold orderedByPosition. rewrite length_imap.
  apply (orders_reindexed_from 0).
Qed.

Lemma orderedByPosition_invariant its : orderedByPosition its → orderInvariant its.
Proof. unfold orderedByPosition, orderInvariant. by intros ->. Qed.

Lemma Sorted_indices k n : Sorted Z.le (Z.of_nat <$> seq k n).
Proof.
  revert k. induction n as [|n IH]; intros k; [constructor|].
  simpl. constructor; [apply IH|].
  destruct n; simpl; constructor. lia.
Qed.

(** The invariant read on the sorted items: the i-th has order i. *)
Lemma orderInvariant_sorted its :
  orderInvariant its ↔ sortedOrders its = Z.of_nat <$> seq 0 (length its).
Proof.
  unfold orderInvariant, sortedOrders. split.
  - intros Hperm. apply (Sorted_unique Z.le).
    + apply Sorted_merge_sort. intros x y. lia.
    + apply Sorted_indices.
    + by rewrite merge_sort_Permutation.
  - intros <-. by rewrite merge_sort_Permutation.
Qed.

Lemma orders_appended (its : list PlanItem) (newItem : PlanItem) :
  item_order newItem = Z.of_nat (length its) →
  orderInvariant its → orderInvariant (its ++ [newItem]).
Proof.
  unfold orderInvariant. intros Horder Hperm.
  rewrite length_app, Nat.add_1_r, seq_S, !fmap_app. simpl.
  rewrite Horder. by apply Permutation_app.
Qed.

Lemma orders_patched (its : list PlanItem) i item updates :
  its !! i = Some item → patch_order updates = None →
  item_order <$> <[i := PlanService.applyItemPatch item updates]> its
  = item_order <$> its.
Proof.
  intros Hlookup Hnone. rewrite list_fmap_insert. simpl. rewrite Hnone. simpl.
  apply list_insert_id. by rewrite list_lookup_fmap, Hlookup.
Qed.

Lemma insert_committed (store : gmap string Plan) (store' : gmap string Plan) p :
  store' = <[plan_id p := p]> store → store' !! plan_id p = Some p.
Proof. intros ->. apply lookup_insert_eq. Qed.

(** C1, as amended: a successful addPlanItem, removePlanItem, or
    updatePlanItem whose patch does not name [order], commits a plan whose
    [order] values are a contiguous zero-based permutation of its item list,
    provided the stored plan satisfied this before (removePlanItem needs no
    such proviso: it re-indexes every remaining item). *)
Theorem C1_order_invariant_preserved (m : ItemMutation) env w p w' :
  leavesOrderAlone m →
  startsOrdered m w →
  runItemMutation m env w = (Ok p, w') →
  orderInvariant (planItems p) ∧
  sortedOrders (planItems p) = Z.of_nat <$> seq 0 (length (planItems p)) ∧
  plans w' !! plan_id p = Some p.
Proof.
  intros Hpatch Hstart Hrun.
  cut (orderInvariant (planItems p) ∧ plans w' !! plan_id p = Some p).
  { intros [Hinvariant Hcommitted]. split_and!; [done| |done].
    by apply orderInvariant_sorted. }
  destruct m as [planId item|planId itemId updates|planId itemId]; simpl in *.
  - apply addPlanItem_Ok in Hrun
      as (plan & newItem & Hstored & Horder & _ & _ & Hsd & Hcommit).
    split; [|by eapply insert_committed].
    unfold planItems at 1. rewrite Hsd, setItems_items.
    apply orders_appended; [done | by apply Hstart].
  - apply updatePlanItem_Ok in Hrun
      as (plan & i & item & Hstored & Hlookup & _ & _ & _ & Hsd & Hcommit).
    split; [|by eapply insert_committed].
    unfold planItems at 1. rewrite Hsd, setItems_items.
    unfold orderInvariant. rewrite length_insert, orders_patched by done.
    by apply Hstart.
  - apply removePlanItem_Ok in Hrun as (plan & Hstored & _ & _ & Hsd & Hcommit).
    split; [|by eapply insert_committed].
    unfold planItems at 1. rewrite Hsd, setItems_items.
    apply orderedByPosition_invariant, orders_reindexed.
Qed.

(** An instance of C1: adding an item to a stored plan of one item. *)
Lemma C1_order_invariant_preserved_witness :
  ∃ p w',
    PlanService.addPlanItem "p1" Fixtures.newItem Fixtures.calmEnv
      (Fixtures.worldWith Fixtures.planWithItem)
    = (Ok p, w') ∧
    orderInvariant (planItems p) ∧
    sortedOrders (planItems p) = [0; 1] ∧
    plans w' !! plan_id p = Some p.
Proof.
  eexists _, _. split; [vm_compute; reflexivity|].
  apply (C1_order_invariant_preserved
           (AddItem "p1" Fixtures.newItem) Fixtures.calmEnv
           (Fixtures.worldWith Fixtures.planWithItem)).
  - exact I.
  - intros stored Hstored. vm_compute in Hstored.
    injection Hstored as <-. unfold orderInvariant. reflexivity.
  - vm_compute. reflexivity.
Defined.

(** C1 as stated fails: a patch that names [order] is stored as given. *)
Lemma C1_counterexample :
  orderInvariant (planItems Fixtures.planWithItem) ∧
  ∃ p w',
    PlanService.updatePlanItem "p1" "i1" (Fixtures.orderPatch 5) Fixtures.calmEnv
      (Fixtures.worldWith Fixtures.planWithItem) = (Ok p, w') ∧
    plans w' !! "p1" = Some p ∧
    (item_order <$> planItems p) = [5] ∧
    sortedOrders (planItems p) ≠ [0] ∧
    ¬ orderInvariant (planItems p).
Proof.
  split; [unfold orderInvariant; reflexivity|].
  eexists _, _. split; [vm_compute; reflexivity|].
  split; [vm_compute; reflexivity|].
  split; [reflexivity|].
  split; [vm_compute; discriminate|].
  unfold orderInvariant. simpl. intros Hperm.
  apply Permutation_singleton_r in Hperm. discriminate.
Qed.

(** ** Versions *)

Lemma createPlan_Ok input env w p w' :
  PlanService.createPlan input env w = (Ok p, w') →
  plan_version p = 1 ∧
  plans w' = <[plan_id p := p]> (plans w) ∧
  initState w' = Opened ∧
  if isOnline w then syncQueue w' = syncQueue w
  else ∃ item,
         syncQueue w' = <[sync_id item := item]> (syncQueue w) ∧
         sync_operation item = SyncCreate ∧
         sync_planId item = plan_id p ∧
         sync_data item = Some p.
Proof.
  intros H%rethrow_Ok.
  unfold PlanService.queueIfOffline, PlanService.emit in H.
  unfold_indexeddb. unfold_monad. crunch; settle.
Qed.







(** ** Partial updates of the structured payload *)

(** C7: an updatePlan whose input carries a structuredData patch commits a
    plan in which every field of structuredData that the patch does not
    name is the stored one. *)
Theorem C7_structured_data_merged input patch env w stored p w' :
  update_structuredData input = Some patch →
  plans w !! update_id input = Some stored →
  PlanService.updatePlan input env w = (Ok p, w') →
  plans w' !! update_id input = Some p ∧
  (sdp_type patch = None →
   sd_type (plan_structuredData p) = sd_type (plan_structuredData stored)) ∧
  (sdp_items patch = None →
   sd_items (plan_structuredData p) = sd_items (plan_structuredData stored)) ∧
  (sdp_schedule patch = None →
   sd_schedule (plan_structuredData p) = sd_schedule (plan_structuredData stored)) ∧
  (sdp_goals patch = None →
   sd_goals (plan_structuredData p) = sd_goals (plan_structuredData stored)) ∧
  (sdp_tags patch = None →
   sd_tags (plan_structuredData p) = sd_tags (plan_structuredData stored)) ∧
  (sdp_category patch = None →
   sd_category (plan_structuredData p) = sd_category (plan_structuredData stored)) ∧
  (sdp_estimatedDuration patch = None →
   sd_estimatedDuration (plan_structuredData p)
   = sd_estimatedDuration (plan_structuredData stored)).
Proof.
  intros Hpatch Hstored (stored' & Hstored' & _ & _ & Hsd & Hstore)%updatePlan_Ok.
  simplify_eq. split; [rewrite Hstore; apply lookup_insert_eq|].
  rewrite Hsd, Hpatch. simpl. split_and!; by intros ->.
Qed.

(** An instance of C7: a patch of [tags] alone keeps the stored items,
    type, goals and schedule. *)
Lemma C7_structured_data_merged_witness :
  ∃ p w',
    PlanService.updatePlan (Fixtures.tagsUpdate "p1" ["home"]) Fixtures.calmEnv
      (Fixtures.worldWith Fixtures.planWithItem) = (Ok p, w') ∧
    sd_tags (plan_structuredData p) = ["home"] ∧
    sd_items (plan_structuredData p) = planItems Fixtures.planWithItem ∧
    sd_type (plan_structuredData p) = PlanCustom.
Proof.
  eexists _, _. split; [vm_compute; reflexivity|].
  split; [reflexivity|].
  edestruct (C7_structured_data_merged
               (Fixtures.tagsUpdate "p1" ["home"]) (Fixtures.tagsPatch ["home"])
               Fixtures.calmEnv
               (Fixtures.worldWith Fixtures.planWithItem) Fixtures.planWithItem)
    as (_ & Htype & Hitems & _);
    [reflexivity | vm_compute; reflexivity | vm_compute; reflexivity |].
  split; [exact (Hitems eq_refl) | exact (Htype eq_refl)].
Defined.

(** ** Missing targets *)

(** Loading a plan either fails on a storage request, or hands over what
    the store holds; it writes to no store either way. *)
Lemma load_then_cases {B} planId (k : option Plan → M B) env w :
  ∃ w1,
    plans w1 = plans w ∧ syncQueue w1 = syncQueue w ∧
    isOnline w1 = isOnline w ∧ events w1 = events w ∧
    ((IndexedDBService.init;;
      let* found := IndexedDBService.getPlan planId in k found) env w
     = k (plans w !! planId) env w1
     ∨ ∃ e, (IndexedDBService.init;;
             let* found := IndexedDBService.getPlan planId in k found) env w
            = (Throw e, w1) ∧ (calm env → initState w = Rejected)).
Proof.
  unfold_indexeddb. unfold_monad. simpl.
  destruct (initState w) eqn:Hinit; simpl; rewrite ?Hinit; simpl;
    repeat (match goal with
            | |- context [storageFails ?env ?n ?op] =>
                destruct (storageFails env n op) eqn:?; simpl
            end);
    eexists; split_and!;
    try (right; eexists; split; [reflexivity|]; intros Hcalm; congruence);
    try (left; reflexivity); reflexivity.
Qed.

Ltac load_cases :=
  match goal with
  | |- context [bind IndexedDBService.init
                  (λ _, bind (IndexedDBService.getPlan ?planId) ?k) ?env ?w] =>
      destruct (load_then_cases planId k env w)
        as (?w1 & ?Hplans & ?Hqueue & ?Honline & ?Hevents & [->|(?e & -> & ?Hstormy)])
  end.

(** updatePlan on an identity the store does not hold is rejected and
    writes neither a plan nor a queue item. *)
Lemma updatePlan_missing input env w :
  plans w !! update_id input = None →
  ∃ e w', PlanService.updatePlan input env w = (Throw e, w') ∧
          plans w' = plans w ∧ syncQueue w' = syncQueue w ∧
          (calm env → initState w ≠ Rejected → e = MkError "Plan not found").
Proof.
  intros Hmissing.
  unfold PlanService.updatePlan, tryCatch. load_cases.
  - rewrite Hmissing. unfold PlanService.reportAndRethrow, PlanService.emit.
    unfold_monad. simpl. eexists _, _. by split_and!.
  - unfold PlanService.reportAndRethrow, PlanService.emit.
    unfold_monad. simpl. eexists _, _. split_and!; try done.
    intros Hcalm Hinit. by destruct Hinit; apply Hstormy.
Qed.

(** updatePlanItem on an item identity the plan does not hold is rejected,
    scoped to the item, and writes nothing. *)
Lemma updatePlanItem_missing planId itemId updates plan env w :
  plans w !! planId = Some plan →
  Forall (λ item, item_id item ≠ itemId) (planItems plan) →
  ∃ e w', PlanService.updatePlanItem planId itemId updates env w = (Throw e, w') ∧
          plans w' = plans w ∧ syncQueue w' = syncQueue w ∧
          (calm env → initState w ≠ Rejected → e = MkError "Plan item not found").
Proof.
  intros Hstored Hnone.
  assert (list_find (λ item, item_id item = itemId) (sd_items (plan_structuredData plan))
          = None) as Hfind.
  { apply list_find_None. eapply Forall_impl; [exact Hnone|]. done. }
  unfold PlanService.updatePlanItem, tryCatch. load_cases.
  - rewrite Hstored. cbv zeta. rewrite Hfind.
    unfold PlanService.reportAndRethrow, PlanService.emit.
    unfold_monad. simpl. eexists _, _. by split_and!.
  - unfold PlanService.reportAndRethrow, PlanService.emit.
    unfold_monad. simpl. eexists _, _. split_and!; try done.
    intros Hcalm Hinit. by destruct Hinit; apply Hstormy.
Qed.

(** C5, where the code departs from it: removePlanItem does not look for
    the item and deletePlan does not look for the plan. Removing an item
    the plan does not hold commits version 2 of the plan of the tests;
    deleting a plan the store does not hold resolves, announces the
    deletion and, offline, queues it. *)
Theorem C5_missing_target_not_rejected :
  (∃ p w',
     PlanService.removePlanItem "p1" "ghost" Fixtures.calmEnv
       (Fixtures.worldWith Fixtures.planWithItem) = (Ok p, w') ∧
     plan_version p = 2 ∧
     plans w' !! "p1" = Some p ∧
     events w' = [planUpdated p]) ∧
  (∃ w',
     PlanService.deletePlan "ghost" Fixtures.calmEnv
       (setIsOnline false (Fixtures.worldWith Fixtures.planWithItem)) = (Ok tt, w') ∧
     plans w' = plans (Fixtures.worldWith Fixtures.planWithItem) ∧
     events w' = [planDeleted "ghost"] ∧
     (sync_operation <$> (snd <$> map_to_list (syncQueue w'))) = [SyncDelete]).
Proof.
  split.
  - eexists _, _. split; [vm_compute; reflexivity|].
    split_and!; vm_compute; reflexivity.
  - eexists _. split; [vm_compute; reflexivity|].
    split_and!; vm_compute; reflexivity.
Qed.

(** ** The sync queue *)

(** C9: getSyncQueueStatus never raises, and whenever the initialization
    of the store or the read of the queue fails it returns
    [{ pending: 0, items: [] }]. The failure is stated both as the failure
    of the two awaited calls and by its causes: a cached rejection of
    [init], a failing open, or a failing read of the queue. *)
Theorem C9_sync_status_never_raises env w :
  (∃ status w', PlanService.getSyncQueueStatus env w = (Ok status, w')) ∧
  (∀ e w1,
     (IndexedDBService.init;; IndexedDBService.getSyncQueue) env w = (Throw e, w1) →
     PlanService.getSyncQueueStatus env w = (Ok {| pending := 0%nat; items := [] |}, w1)) ∧
  (initState w = Rejected ∨
   (initState w = NotStarted ∧ storageFails env (tick w) OpOpen = true) ∨
   (initState w = NotStarted ∧ storageFails env (S (tick w)) OpGetSyncQueue = true) ∨
   (initState w = Opened ∧ storageFails env (tick w) OpGetSyncQueue = true) →
   (PlanService.getSyncQueueStatus env w).1 = Ok {| pending := 0%nat; items := [] |}).
Proof.
  unfold PlanService.getSyncQueueStatus.
  unfold_indexeddb. unfold_monad. simpl. split_and!.
  - destruct (initState w) eqn:Hinit; simpl; rewrite ?Hinit; simpl;
      repeat case_match; simplify_eq/=; eauto.
  - intros e w1 H.
    destruct (initState w) eqn:Hinit; simpl in *; rewrite ?Hinit in *; simpl in *;
      simplify_eq/=; repeat (case_match; simplify_eq/=); done.
  - intros [Hinit|[[Hinit Hfail]|[[Hinit Hfail]|[Hinit Hfail]]]];
      rewrite Hinit; simpl; rewrite ?Hinit; simpl; rewrite ?Hfail; simpl;
      repeat case_match; simplify_eq/=; try done; congruence.
Qed.

(** An instance of C9: the read of the queue fails. *)
Lemma C9_sync_status_never_raises_witness :
  PlanService.getSyncQueueStatus Fixtures.brokenQueueEnv Fixtures.emptyWorld
  = (Ok {| pending := 0%nat; items := [] |},
     step (step (setInitState Opened Fixtures.emptyWorld))).
Proof.
  apply (proj1 (proj2 (C9_sync_status_never_raises
                         Fixtures.brokenQueueEnv Fixtures.emptyWorld))
           (MkError "Failed to get sync queue")).
  vm_compute. reflexivity.
Defined.

Lemma drain_calm env queue w :
  calm env → initState w = Opened →
  ∃ w',
    forEachM
      (λ item, tryCatch (IndexedDBService.removeFromSyncQueue (sync_id item))
                        (λ _, ret tt))
      queue env w = (Ok tt, w') ∧
    syncQueue w' = drained queue (syncQueue w) ∧
    plans w' = plans w ∧ isOnline w' = isOnline w ∧ initState w' = Opened.
Proof.
  intros Hcalm. revert w. induction queue as [|item queue IH]; intros w Hinit.
  - by eexists.
  - cbn [forEachM]. unfold bind at 1, tryCatch.
    unfold_indexeddb. unfold_monad. simpl. rewrite Hinit. simpl. rewrite Hcalm. simpl.
    edestruct (IH (setSyncQueue (delete (sync_id item)) (step w)))
      as (w' & Hrun & Hqueue & Hplans & Honline & Hinit'); [done|].
    exists w'. split; [exact Hrun|]. by split_and!.
Qed.

Lemma drained_stays_absent queue (store : gmap string SyncQueueItem) key :
  store !! key = None → drained queue store !! key = None.
Proof.
  revert store. induction queue as [|item queue IH]; intros store Habsent; [done|].
  simpl. apply IH. rewrite lookup_delete_None. by right.
Qed.

Lemma drained_removes queue (store : gmap string SyncQueueItem) item :
  item ∈ queue → drained queue store !! sync_id item = None.
Proof.
  revert store. induction queue as [|first queue IH]; intros store Hin.
  - by apply elem_of_nil in Hin.
  - apply elem_of_cons in Hin as [<-|Hin]; simpl.
    + apply drained_stays_absent, lookup_delete_eq.
    + by apply IH.
Qed.

Lemma onOnline_calm env w :
  calm env → initState w = Opened →
  ∃ w',
    PlanService.onOnline env w = (Ok tt, w') ∧
    isOnline w' = true ∧ plans w' = plans w ∧
    syncQueue w'
    = drained (merge_sort IndexedDBService.olderFirst
                 (snd <$> map_to_list (syncQueue w)))
              (syncQueue w).
Proof.
  intros Hcalm Hinit.
  unfold PlanService.onOnline, PlanService.processSyncQueue, tryCatch.
  unfold bind at 1. unfold modify at 1.
  unfold bind at 1. unfold IndexedDBService.init at 1. simpl. rewrite Hinit.
  unfold bind at 1. unfold IndexedDBService.getSyncQueue.
  unfold IndexedDBService.ensureDB.
  unfold_monad. simpl. rewrite Hinit. simpl. rewrite Hcalm. simpl.
  edestruct (drain_calm env
               (merge_sort IndexedDBService.olderFirst
                  (snd <$> map_to_list (syncQueue w)))
               (step (setIsOnline true w)))
    as (w' & Hrun & Hqueue & Hplans & Honline & _); [done..|].
  unfold_monad. rewrite Hrun. by exists w'.
Qed.

(** C8: offline, a successful createPlan puts exactly one item in the sync
    queue, of operation 'create', naming the new plan and carrying the
    committed document; going back online drains the queue, and (no
    storage request failing) that item is no longer in it. *)
Theorem C8_offline_create_enqueues env input w p w1 :
  isOnline w = false →
  PlanService.createPlan input env w = (Ok p, w1) →
  ∃ item,
    syncQueue w1 = <[sync_id item := item]> (syncQueue w) ∧
    sync_operation item = SyncCreate ∧
    sync_planId item = plan_id p ∧
    sync_data item = Some p ∧
    plans w1 !! plan_id p = Some p ∧
    (syncQueue w !! sync_id item = None →
     size (syncQueue w1) = S (size (syncQueue w))) ∧
    (calm env →
     ∃ w2, PlanService.onOnline env w1 = (Ok tt, w2) ∧
           isOnline w2 = true ∧
           syncQueue w2 !! sync_id item = None).
Proof.
  intros Hoffline (_ & Hplans & Hinit & Hqueue)%createPlan_Ok.
  rewrite Hoffline in Hqueue. destruct Hqueue as (item & Hqueue & Hop & Hid & Hdata).
  exists item. split_and!; try done.
  - by eapply insert_committed.
  - intros Hfresh. rewrite Hqueue. by apply map_size_insert_None.
  - intros Hcalm.
    destruct (onOnline_calm env w1 Hcalm Hinit) as (w2 & Hrun & Honline & _ & Hdrained).
    exists w2. split_and!; try done.
    rewrite Hdrained. apply drained_removes.
    rewrite merge_sort_Permutation.
    apply list_elem_of_fmap. exists (sync_id item, item). split; [done|].
    apply elem_of_map_to_list. rewrite Hqueue. apply lookup_insert_eq.
Qed.

Lemma calmEnv_calm : calm Fixtures.calmEnv.
Proof. intros n op. reflexivity. Qed.

(** An instance of C8: the service goes offline, and a first plan is
    created in an empty store. *)
Lemma C8_offline_create_enqueues_witness :
  ∃ p w1 item,
    PlanService.createPlan Fixtures.newPlanInput Fixtures.calmEnv
      (PlanService.onOffline Fixtures.calmEnv Fixtures.emptyWorld).2 = (Ok p, w1) ∧
    syncQueue w1 = <[sync_id item := item]> ∅ ∧
    size (syncQueue w1) = 1%nat ∧
    sync_operation item = SyncCreate ∧
    sync_planId item = plan_id p ∧
    sync_data item = Some p ∧
    ∃ w2, PlanService.onOnline Fixtures.calmEnv w1 = (Ok tt, w2) ∧
          isOnline w2 = true ∧
          syncQueue w2 !! sync_id item = None.
Proof.
  edestruct (C8_offline_create_enqueues Fixtures.calmEnv Fixtures.newPlanInput
               (PlanService.onOffline Fixtures.calmEnv Fixtures.emptyWorld).2)
    as (item & Hqueue & Hop & Hid & Hdata & _ & Hsize & Hdrain);
    [reflexivity | vm_compute; reflexivity |].
  eexists _, _, item. split; [vm_compute; reflexivity|].
  split_and!; [exact Hqueue | exact (Hsize (lookup_empty _)) | exact Hop | exact Hid
              | exact Hdata | exact (Hdrain calmEnv_calm)].
Defined.

(** ** Enhancements: approval, rejection, edition *)

Ltac unfold_enhancement :=
  unfold EnhancementService.getEnhancementById, EnhancementService.saveEnhancement,
    EnhancementService.saveChangeHistory, EnhancementService.getHistoryEntry,
    EnhancementService.ensureDB in *.

Lemma bind_run {A B} (m : M A) (k : A → M B) env w a w1 :
  m env w = (Ok a, w1) → bind m k env w = k a env w1.
Proof. unfold bind. by intros ->. Qed.

Lemma sameStores_refl w : sameStores w w.
Proof. done. Qed.

Lemma getEnhancementById_calm enhancementId env w :
  calm env →
  ∃ w1, EnhancementService.getEnhancementById enhancementId env w
        = (Ok (enhancements w !! enhancementId), w1) ∧
        sameStores w w1.
Proof.
  intros Hcalm. unfold_enhancement. unfold_monad. simpl.
  destruct (enhDbOpen w) eqn:Hopen; simpl; rewrite ?Hcalm; simpl;
    rewrite ?Hcalm; by eexists.
Qed.

Lemma saveEnhancement_calm enhancement env w :
  calm env →
  ∃ w1, EnhancementService.saveEnhancement enhancement env w = (Ok tt, w1) ∧
        enhancements w1 = <[enh_id enhancement := enhancement]> (enhancements w) ∧
        plans w1 = plans w ∧ changeHistory w1 = changeHistory w.
Proof.
  intros Hcalm. unfold_enhancement. unfold_monad. simpl.
  destruct (enhDbOpen w) eqn:Hopen; simpl; rewrite ?Hcalm; simpl;
    rewrite ?Hcalm; by eexists.
Qed.

Lemma saveChangeHistory_calm entries env w :
  calm env →
  ∃ w1, EnhancementService.saveChangeHistory entries env w = (Ok tt, w1) ∧
        changeHistory w1 = EnhancementService.putAll entries (changeHistory w) ∧
        plans w1 = plans w ∧ enhancements w1 = enhancements w.
Proof.
  intros Hcalm. unfold_enhancement. unfold_monad. simpl.
  destruct (enhDbOpen w) eqn:Hopen, entries; simpl; rewrite ?Hcalm; simpl;
    rewrite ?Hcalm; by eexists.
Qed.

(** The loop of approveChanges performs no storage request: it always
    completes, and leaves the stores as they are. *)
Lemma approveLoop_total enhancement enhancementId userId changeIds entries result env w :
  ∃ entries' result' w1,
    EnhancementService.approveLoop enhancement enhancementId userId changeIds
      entries result env w = (Ok (entries', result'), w1) ∧
    sameStores w w1.
Proof.
  revert entries result w. induction changeIds as [|changeId rest IH];
    intros entries result w; simpl.
  - by eexists _, _, _.
  - destruct (EnhancementService.changeAt _ _); [|apply IH].
    unfold_monad. simpl.
    edestruct IH as (entries' & result' & w1 & -> & Hsame).
    by eexists _, _, _.
Qed.

Lemma approveLoop_all_invalid enhancement enhancementId userId changeIds
    entries result env w :
  Forall (addressesNothing enhancement) changeIds →
  EnhancementService.approveLoop enhancement enhancementId userId changeIds
    entries result env w
  = (Ok (entries, {| successful := successful result;
                     failed := failed result ++ (notFound <$> changeIds) |}), w).
Proof.
  intros Hall. revert result. induction Hall as [|changeId rest Hinvalid _ IH];
    intros result; simpl.
  - rewrite app_nil_r. by destruct result.
  - unfold addressesNothing in Hinvalid. rewrite Hinvalid, IH. simpl.
    by rewrite <- app_assoc.
Qed.

(** approveChanges when no storage request fails. *)
Lemma approveChanges_calm enhancementId changeIds userId enhancement env w :
  calm env →
  enhancements w !! enhancementId = Some enhancement →
  ∃ result w' now entries,
    EnhancementService.approveChanges enhancementId changeIds userId env w
    = (Ok result, w') ∧
    enhancements w'
    = <[enh_id enhancement := EnhancementService.setStatusApproved enhancement now]>
        (enhancements w) ∧
    changeHistory w' = EnhancementService.putAll entries (changeHistory w) ∧
    plans w' = plans w ∧
    (∀ ids, changeIds = Some ids → Forall (addressesNothing enhancement) ids →
            entries = [] ∧ successful result = [] ∧ failed result = notFound <$> ids).
Proof.
  intros Hcalm Hstored. unfold EnhancementService.approveChanges.
  destruct (getEnhancementById_calm enhancementId env w Hcalm) as (w1 & Hget & Hsame1).
  rewrite (bind_run _ _ _ _ _ _ Hget), Hstored. unfold tryCatch.
  set (ids := default _ changeIds).
  destruct (approveLoop_total enhancement enhancementId userId ids []
              {| successful := []; failed := [] |} env w1)
    as (entries & result & w2 & Hloop & Hsame2).
  rewrite (bind_run _ _ _ _ _ _ Hloop).
  destruct (saveChangeHistory_calm entries env w2 Hcalm)
    as (w3 & Hsave & Hhistory & Hplans3 & Henh3).
  rewrite (bind_run _ _ _ _ _ _ Hsave).
  unfold bind at 1, newDate at 1.
  destruct (saveEnhancement_calm
              (EnhancementService.setStatusApproved enhancement (date_at env (tick w3)))
              env (step w3) Hcalm)
    as (w4 & Hput & Henh4 & Hplans4 & Hhistory4).
  rewrite (bind_run _ _ _ _ _ _ Hput). unfold ret.
  destruct Hsame1 as (Hp1 & _ & He1 & Hh1), Hsame2 as (Hp2 & _ & He2 & Hh2).
  exists result, w4, (date_at env (tick w3)), entries. split_and!; try done.
  - rewrite Henh4. simpl. by rewrite Henh3, He2, He1.
  - rewrite Hhistory4. simpl. by rewrite Hhistory, Hh2, Hh1.
  - rewrite Hplans4. simpl. by rewrite Hplans3, Hp2, Hp1.
  - intros ids' -> Hinvalid. subst ids. simpl in Hloop.
    rewrite (approveLoop_all_invalid _ _ _ _ _ _ _ _ Hinvalid) in Hloop.
    by simplify_eq/=.
Qed.

(** C10: on an existing enhancement (no storage request failing),
    approveChanges always stores status 'approved' and stamps appliedAt;
    this holds even when every addressed change identifier is invalid, in
    which case the result lists no success, one 'Change not found' failure
    per identifier, and no history entry is written. *)
Theorem C10_approve_flips_status_even_if_all_fail
    enhancementId changeIds userId enhancement env w :
  calm env →
  enhancements w !! enhancementId = Some enhancement →
  enh_id enhancement = enhancementId →
  ∃ result w' approved now,
    EnhancementService.approveChanges enhancementId changeIds userId env w
    = (Ok result, w') ∧
    enhancements w' !! enhancementId = Some approved ∧
    enh_status approved = EnhApproved ∧
    enh_appliedAt approved = Some now ∧
    (∀ ids, changeIds = Some ids → Forall (addressesNothing enhancement) ids →
            successful result = [] ∧
            failed result = notFound <$> ids ∧
            changeHistory w' = changeHistory w).
Proof.
  intros Hcalm Hstored Hid.
  destruct (approveChanges_calm enhancementId changeIds userId enhancement env w
              Hcalm Hstored)
    as (result & w' & now & entries & Hrun & Henh & Hhistory & _ & Hinvalid).
  exists result, w', (EnhancementService.setStatusApproved enhancement now), now.
  split_and!; try done.
  - rewrite Henh, Hid. apply lookup_insert_eq.
  - intros ids Hids Hall. destruct (Hinvalid ids Hids Hall) as (-> & ? & ?).
    by split_and!.
Qed.

(** An instance of C10: an unreadable identifier and an index out of range
    are addressed to a pending enhancement of one change. *)
Lemma C10_approve_flips_status_even_if_all_fail_witness :
  ∃ result w' approved now,
    EnhancementService.approveChanges "e1" (Some ["nonsense"; "e1-change-7"]) "user-1"
      Fixtures.calmEnv (Fixtures.worldWithEnhancement (Fixtures.mkEnhancement "e1" EnhPending))
    = (Ok result, w') ∧
    enhancements w' !! "e1" = Some approved ∧
    enh_status approved = EnhApproved ∧
    enh_appliedAt approved = Some now ∧
    successful result = [] ∧
    failed result = [notFound "nonsense"; notFound "e1-change-7"] ∧
    changeHistory w' = ∅.
Proof.
  destruct (C10_approve_flips_status_even_if_all_fail
              "e1" (Some ["nonsense"; "e1-change-7"]) "user-1"
              (Fixtures.mkEnhancement "e1" EnhPending) Fixtures.calmEnv
              (Fixtures.worldWithEnhancement (Fixtures.mkEnhancement "e1" EnhPending))
              calmEnv_calm ltac:(vm_compute; reflexivity) eq_refl)
    as (result & w' & approved & now & Hrun & Hstored & Hstatus & Hstamp & Hinvalid).
  destruct (Hinvalid _ eq_refl) as (Hnone & Hfailed & Hhistory).
  { repeat constructor. }
  exists result, w', approved, now. by split_and!.
Defined.

Lemma rejectChanges_calm enhancementId changeIds feedback userId enhancement env w :
  calm env →
  enhancements w !! enhancementId = Some enhancement →
  ∃ w' now,
    EnhancementService.rejectChanges enhancementId changeIds feedback userId env w
    = (Ok {| successful :=
               default (EnhancementService.allChangeIds enhancement enhancementId)
                       changeIds;
             failed := [] |}, w') ∧
    enhancements w'
    = <[enh_id enhancement :=
          EnhancementService.setStatusRejected enhancement now feedback]>
        (enhancements w).
Proof.
  intros Hcalm Hstored. unfold EnhancementService.rejectChanges.
  destruct (getEnhancementById_calm enhancementId env w Hcalm) as (w1 & Hget & Hsame1).
  rewrite (bind_run _ _ _ _ _ _ Hget), Hstored. unfold tryCatch.
  unfold bind at 1, newDate at 1.
  destruct (saveEnhancement_calm
              (EnhancementService.setStatusRejected enhancement
                 (date_at env (tick w1)) feedback)
              env (step w1) Hcalm)
    as (w2 & Hput & Henh2 & _).
  rewrite (bind_run _ _ _ _ _ _ Hput). unfold ret.
  destruct Hsame1 as (_ & _ & He1 & _).
  eexists _, _. split; [reflexivity|]. rewrite Henh2. simpl. by rewrite He1.
Qed.

Lemma changeAt_Some changes index change :
  EnhancementService.changeAt changes index = Some change →
  0 ≤ index < Z.of_nat (length changes) ∧ changes !! Z.to_nat index = Some change.
Proof.
  unfold EnhancementService.changeAt. destruct (Z.ltb_spec index 0); [done|].
  intros Hlookup. split; [|done]. apply lookup_lt_Some in Hlookup. lia.
Qed.

Lemma editChange_calm enhancementId changeId newValue userId enhancement change env w :
  calm env →
  enhancements w !! enhancementId = Some enhancement →
  EnhancementService.changeAt (enh_changes enhancement)
    (EnhancementService.extractChangeIndex changeId) = Some change →
  ∃ w' edited,
    EnhancementService.editChange enhancementId changeId newValue userId env w
    = (Ok tt, w') ∧
    enhancements w' = <[enh_id enhancement := edited]> (enhancements w) ∧
    enh_status edited = enh_status enhancement ∧
    EnhancementService.changeAt (enh_changes edited)
      (EnhancementService.extractChangeIndex changeId)
    = Some (EnhancementService.editedChange change newValue).
Proof.
  intros Hcalm Hstored (Hrange & Hlookup)%changeAt_Some.
  unfold EnhancementService.editChange.
  destruct (getEnhancementById_calm enhancementId env w Hcalm) as (w1 & Hget & Hsame1).
  rewrite (bind_run _ _ _ _ _ _ Hget), Hstored.
  destruct (Z.ltb_spec (EnhancementService.extractChangeIndex changeId) 0); [lia|].
  destruct (Z.leb_spec (Z.of_nat (length (enh_changes enhancement)))
              (EnhancementService.extractChangeIndex changeId)); [lia|].
  simpl.
  match goal with
  | |- context [EnhancementService.saveEnhancement ?e] =>
      destruct (saveEnhancement_calm e env w1 Hcalm) as (w2 & Hput & Henh2 & _);
      exists w2, e
  end.
  destruct Hsame1 as (_ & _ & He1 & _).
  split_and!; [done | by rewrite Henh2, He1 | done |].
  unfold EnhancementService.changeAt. simpl.
  destruct (Z.ltb_spec (EnhancementService.extractChangeIndex changeId) 0); [lia|].
  by rewrite list_lookup_alter_eq, Hlookup.
Qed.

(** C4, as amended: the operations do not look at the status. On an
    existing enhancement in any status (pending, approved or rejected; no
    storage request failing), approveChanges stores status 'approved',
    rejectChanges stores status 'rejected', and editChange with an
    identifier that addresses a change succeeds, replaces the proposed
    value of that change and leaves the status as it was. *)
Theorem C4_status_is_not_guarded enhancementId userId enhancement env w :
  calm env →
  enhancements w !! enhancementId = Some enhancement →
  enh_id enhancement = enhancementId →
  (∀ changeIds, ∃ result w' stored,
     EnhancementService.approveChanges enhancementId changeIds userId env w
     = (Ok result, w') ∧
     enhancements w' !! enhancementId = Some stored ∧
     enh_status stored = EnhApproved) ∧
  (∀ changeIds feedback, ∃ result w' stored,
     EnhancementService.rejectChanges enhancementId changeIds feedback userId env w
     = (Ok result, w') ∧
     enhancements w' !! enhancementId = Some stored ∧
     enh_status stored = EnhRejected) ∧
  (∀ changeId newValue change,
     EnhancementService.changeAt (enh_changes enhancement)
       (EnhancementService.extractChangeIndex changeId) = Some change →
     ∃ w' stored,
       EnhancementService.editChange enhancementId changeId newValue userId env w
       = (Ok tt, w') ∧
       enhancements w' !! enhancementId = Some stored ∧
       enh_status stored = enh_status enhancement ∧
       EnhancementService.changeAt (enh_changes stored)
         (EnhancementService.extractChangeIndex changeId)
       = Some (EnhancementService.editedChange change newValue)).
Proof.
  intros Hcalm Hstored Hid. split_and!.
  - intros changeIds.
    destruct (approveChanges_calm enhancementId changeIds userId enhancement env w
                Hcalm Hstored)
      as (result & w' & now & _ & Hrun & Henh & _).
    eexists result, w', _.
    split_and!; [done | rewrite Henh, Hid; apply lookup_insert_eq | done].
  - intros changeIds feedback.
    destruct (rejectChanges_calm enhancementId changeIds feedback userId enhancement
                env w Hcalm Hstored)
      as (w' & now & Hrun & Henh).
    eexists _, w', _.
    split_and!; [done | rewrite Henh, Hid; apply lookup_insert_eq | done].
  - intros changeId newValue change Hchange.
    destruct (editChange_calm enhancementId changeId newValue userId enhancement change
                env w Hcalm Hstored Hchange)
      as (w' & edited & Hrun & Henh & Hstatus & Hedited).
    exists w', edited. split_and!; try done.
    rewrite Henh, Hid. apply lookup_insert_eq.
Qed.

(** An instance of C4 as amended: a rejected enhancement. *)
Lemma C4_status_is_not_guarded_witness :
  (∃ result w' stored,
     EnhancementService.approveChanges "e1" None "user-1" Fixtures.calmEnv
       (Fixtures.worldWithEnhancement (Fixtures.mkEnhancement "e1" EnhRejected))
     = (Ok result, w') ∧
     enhancements w' !! "e1" = Some stored ∧
     enh_status stored = EnhApproved) ∧
  (∃ w' stored,
     EnhancementService.editChange "e1" "e1-change-0" (JsString "Edited") "user-1"
       Fixtures.calmEnv
       (Fixtures.worldWithEnhancement (Fixtures.mkEnhancement "e1" EnhRejected))
     = (Ok tt, w') ∧
     enhancements w' !! "e1" = Some stored ∧
     enh_status stored = EnhRejected ∧
     enh_changes stored !! 0%nat
     = Some (EnhancementService.editedChange Fixtures.retitle (JsString "Edited"))).
Proof.
  destruct (C4_status_is_not_guarded "e1" "user-1"
              (Fixtures.mkEnhancement "e1" EnhRejected) Fixtures.calmEnv
              (Fixtures.worldWithEnhancement (Fixtures.mkEnhancement "e1" EnhRejected))
              calmEnv_calm ltac:(vm_compute; reflexivity) eq_refl)
    as (Happrove & _ & Hedit).
  split; [exact (Happrove None)|].
  destruct (Hedit "e1-change-0" (JsString "Edited") Fixtures.retitle eq_refl)
    as (w' & stored & Hrun & Hstored & Hstatus & Hchange).
  apply changeAt_Some in Hchange as (_ & Hchange).
  exists w', stored. by split_and!.
Defined.

(** C4 as stated fails: 'rejected' is not terminal, and editChange
    succeeds on an enhancement that is no longer pending. *)
Lemma C4_counterexample :
  (∃ result w' stored,
     EnhancementService.approveChanges "e1" None "user-1" Fixtures.calmEnv
       (Fixtures.worldWithEnhancement (Fixtures.mkEnhancement "e1" EnhRejected))
     = (Ok result, w') ∧
     enhancements w' !! "e1" = Some stored ∧
     enh_status (Fixtures.mkEnhancement "e1" EnhRejected) = EnhRejected ∧
     enh_status stored = EnhApproved) ∧
  (∃ w' stored,
     EnhancementService.editChange "e1" "e1-change-0" (JsString "Edited") "user-1"
       Fixtures.calmEnv
       (Fixtures.worldWithEnhancement (Fixtures.mkEnhancement "e1" EnhApproved))
     = (Ok tt, w') ∧
     enhancements w' !! "e1" = Some stored ∧
     change_newValue <$> enh_changes (Fixtures.mkEnhancement "e1" EnhApproved)
     = [JsString "New title"] ∧
     change_newValue <$> enh_changes stored = [JsString "Edited"]).
Proof.
  split.
  - eexists _, _, _. split; [vm_compute; reflexivity|].
    split_and!; [vm_compute; reflexivity | reflexivity | reflexivity].
  - eexists _, _. split; [vm_compute; reflexivity|].
    split_and!; [vm_compute; reflexivity | reflexivity | reflexivity].
Qed.

(** ** Rollback *)

(** What a successful rollbackChange has done. *)
Lemma rollbackChange_Ok historyEntryId userId env w w' historyEntry :
  changeHistory w !! historyEntryId = Some historyEntry →
  EnhancementService.rollbackChange historyEntryId userId env w = (Ok tt, w') →
  plans w' = plans w ∧ syncQueue w' = syncQueue w ∧
  ∃ entry rollback,
    changeHistory w' = <[hist_id entry := entry]> (changeHistory w) ∧
    enhancements w' = <[enh_id rollback := rollback]> (enhancements w) ∧
    hist_originalValue entry = hist_appliedValue historyEntry ∧
    hist_appliedValue entry = hist_originalValue historyEntry ∧
    hist_rollbackData entry = Some (RollbackMark true historyEntryId) ∧
    hist_planId entry = hist_planId historyEntry ∧
    hist_appliedBy entry = userId ∧
    hist_enhancementId entry = enh_id rollback ∧
    enh_status rollback = EnhApproved ∧
    enh_planId rollback = hist_planId historyEntry ∧
    change_operation <$> enh_changes rollback = [ChangeModify] ∧
    change_target <$> enh_changes rollback
      = [EnhancementService.rollbackTarget historyEntry] ∧
    change_oldValue <$> enh_changes rollback = [hist_appliedValue historyEntry] ∧
    change_newValue <$> enh_changes rollback = [hist_originalValue historyEntry].
Proof.
  intros Hstored. unfold EnhancementService.rollbackChange.
  unfold_enhancement. unfold_monad. simpl. intros Hrun.
  repeat (case_match; simplify_eq/=);
    (split; [done|]); (split; [done|]);
    match goal with
    | |- ∃ entry rollback, <[_ := ?e]> _ = _ ∧ <[_ := ?r]> _ = _ ∧ _ => exists e, r
    end;
    split_and!; reflexivity.
Qed.

(** C3, as amended: rollbackChange does not write the plan store, so
    re-reading the plan returns what it held before the rollback. It
    stores one new approved enhancement holding the single inverse change,
    and creates one history entry with the original and applied values
    swapped, flagged as a rollback of h; the UUID of the new entry being
    fresh, the history has exactly one entry more and still holds h
    unchanged. *)
Theorem C3_rollback_records_inverse h userId env w w' :
  changeHistory w !! hist_id h = Some h →
  EnhancementService.rollbackChange (hist_id h) userId env w = (Ok tt, w') →
  plans w' = plans w ∧
  ∃ entry rollback,
    changeHistory w' = <[hist_id entry := entry]> (changeHistory w) ∧
    hist_originalValue entry = hist_appliedValue h ∧
    hist_appliedValue entry = hist_originalValue h ∧
    hist_rollbackData entry = Some (RollbackMark true (hist_id h)) ∧
    hist_planId entry = hist_planId h ∧
    hist_enhancementId entry = enh_id rollback ∧
    enhancements w' = <[enh_id rollback := rollback]> (enhancements w) ∧
    enh_status rollback = EnhApproved ∧
    change_oldValue <$> enh_changes rollback = [hist_appliedValue h] ∧
    change_newValue <$> enh_changes rollback = [hist_originalValue h] ∧
    (changeHistory w !! hist_id entry = None →
     size (changeHistory w') = S (size (changeHistory w)) ∧
     changeHistory w' !! hist_id h = Some h).
Proof.
  intros Hstored Hrun.
  destruct (rollbackChange_Ok _ _ _ _ _ _ Hstored Hrun)
    as (Hplans & _ & entry & rollback & Hhistory & Henh & Horiginal & Happlied & Hmark
        & Hplan & _ & Hlink & Hstatus & _ & _ & _ & Hold & Hnew).
  split; [done|]. exists entry, rollback. split_and!; try done.
  intros Hfresh. rewrite Hhistory. split.
  - by apply map_size_insert_None.
  - rewrite lookup_insert_ne; [done|]. intros Heq. rewrite Heq in Hfresh. congruence.
Qed.

(** An instance of C3 as amended: the retitling of "p1" is rolled back. *)
Lemma C3_rollback_records_inverse_witness :
  let h := Fixtures.mkHistoryEntry "h1" (JsString "Plan A") (JsString "Test Plan") in
  let w := Fixtures.worldWithHistory Fixtures.planWithItem [h] in
  ∃ w' entry,
    EnhancementService.rollbackChange "h1" "user-1" Fixtures.calmEnv w = (Ok tt, w') ∧
    plans w' = plans w ∧
    changeHistory w' = <[hist_id entry := entry]> (changeHistory w) ∧
    hist_originalValue entry = JsString "Test Plan" ∧
    hist_appliedValue entry = JsString "Plan A" ∧
    hist_rollbackData entry = Some (RollbackMark true "h1").
Proof.
  intros h w.
  edestruct (C3_rollback_records_inverse h "user-1" Fixtures.calmEnv w)
    as (Hplans & entry & rollback & Hhistory & Horiginal & Happlied & Hmark & _);
    [vm_compute; reflexivity | vm_compute; reflexivity |].
  eexists _, entry. split; [vm_compute; reflexivity|]. by split_and!.
Defined.

(** C3 as stated fails. The plan "p1" is titled "Test Plan"; its history
    records two retitlings, from "Draft" to "Plan A" and from "Plan A" to
    "Test Plan". Rolling either back leaves the plan store as it was, so
    the plan still reads "Test Plan". No way of reading a plan at a target
    path can then return the original value of every rolled-back entry,
    since here both entries have the same target and the same plan but
    different original values. *)
Lemma C3_counterexample :
  let h1 := Fixtures.mkHistoryEntry "h1" (JsString "Draft") (JsString "Plan A") in
  let h2 := Fixtures.mkHistoryEntry "h2" (JsString "Plan A") (JsString "Test Plan") in
  let w := Fixtures.worldWithHistory Fixtures.planWithItem [h1; h2] in
  (∃ w', EnhancementService.rollbackChange "h2" "user-1" Fixtures.calmEnv w
         = (Ok tt, w') ∧
         plans w' !! "p1" = Some Fixtures.planWithItem ∧
         plan_title Fixtures.planWithItem = "Test Plan" ∧
         EnhancementService.rollbackTarget h2 = "title" ∧
         hist_originalValue h2 = JsString "Plan A") ∧
  ¬ ∃ valueAt : Plan → string → JsValue,
      ∀ world h userId world',
        changeHistory world !! hist_id h = Some h →
        EnhancementService.rollbackChange (hist_id h) userId Fixtures.calmEnv world
        = (Ok tt, world') →
        ∀ p, plans world' !! hist_planId h = Some p →
             valueAt p (EnhancementService.rollbackTarget h) = hist_originalValue h.
Proof.
  intros h1 h2 w. split.
  - eexists. split; [vm_compute; reflexivity|].
    split_and!; [vm_compute; reflexivity | reflexivity..].
  - intros (valueAt & Hclaim).
    assert (∃ w1, EnhancementService.rollbackChange (hist_id h1) "user-1"
                    Fixtures.calmEnv w = (Ok tt, w1) ∧
                  plans w1 !! hist_planId h1 = Some Fixtures.planWithItem)
      as (w1 & Hrun1 & Hplan1).
    { eexists. split; vm_compute; reflexivity. }
    assert (∃ w2, EnhancementService.rollbackChange (hist_id h2) "user-1"
                    Fixtures.calmEnv w = (Ok tt, w2) ∧
                  plans w2 !! hist_planId h2 = Some Fixtures.planWithItem)
      as (w2 & Hrun2 & Hplan2).
    { eexists. split; vm_compute; reflexivity. }
    assert (changeHistory w !! hist_id h1 = Some h1) as Hstored1
      by (vm_compute; reflexivity).
    assert (changeHistory w !! hist_id h2 = Some h2) as Hstored2
      by (vm_compute; reflexivity).
    pose proof (Hclaim w h1 "user-1" w1 Hstored1 Hrun1 _ Hplan1) as Hread1.
    pose proof (Hclaim w h2 "user-1" w2 Hstored2 Hrun2 _ Hplan2) as Hread2.
    change (EnhancementService.rollbackTarget h2)
      with (EnhancementService.rollbackTarget h1) in Hread2.
    rewrite Hread1 in Hread2. discriminate.
Qed.

(** ** Completion percentage *)

Lemma completed_le_total statePlans planId :
  (PlanContext.getCompletedItemsCount statePlans planId
   ≤ PlanContext.getTotalItemsCount statePlans planId)%nat.
Proof.
  unfold PlanContext.getCompletedItemsCount, PlanContext.getTotalItemsCount.
  destruct (PlanContext.getPlan statePlans planId); [apply filter_length_le | done].
Qed.

Lemma exactPercentage_le_100 completed total :
  (0 < total)%nat → (completed ≤ total)%nat → (exactPercentage completed total ≤ 100)%nat.
Proof.
  intros Htotal Hle. unfold exactPercentage.
  apply Nat.lt_succ_r, Nat.Div0.div_lt_upper_bound. lia.
Qed.

(** Below 40 items, the double-precision product does not fall short of a
    tie: every pair of counts is evaluated. *)
Lemma percentage_exact_below_40 (total completed : nat) :
  (0 < total < 40)%nat → (completed ≤ total)%nat →
  PlanContext.Math_round
    ((PlanContext.toNumber completed / PlanContext.toNumber total) * 100)%float
  = PlanContext.toNumber (exactPercentage completed total).
Proof.
  intros Htotal Hle.
  do 40 (destruct total as [|total];
         [ try lia;
           do 40 (destruct completed as [|completed];
                  [try lia; vm_compute; reflexivity|]);
           lia |]).
  lia.
Qed.

(** C6, as amended: getCompletionPercentage returns exactly 0 when the plan
    has no items or does not exist, and otherwise
    [Math.round((completed / total) * 100)] in double precision; for plans
    of fewer than 40 items this is round(100 × completed / total), a whole
    number between 0 and 100. *)
Theorem C6_completion_percentage statePlans planId :
  let total := PlanContext.getTotalItemsCount statePlans planId in
  let completed := PlanContext.getCompletedItemsCount statePlans planId in
  (PlanContext.getPlan statePlans planId = None →
   PlanContext.getCompletionPercentage statePlans planId = 0%float) ∧
  (total = 0%nat →
   PlanContext.getCompletionPercentage statePlans planId = 0%float) ∧
  ((0 < total < 40)%nat →
   PlanContext.getCompletionPercentage statePlans planId
   = PlanContext.toNumber (exactPercentage completed total) ∧
   (exactPercentage completed total ≤ 100)%nat).
Proof.
  intros total completed. unfold PlanContext.getCompletionPercentage.
  fold total. fold completed. split_and!.
  - intros Hmissing. subst total. unfold PlanContext.getTotalItemsCount.
    by rewrite Hmissing.
  - intros ->. done.
  - intros Htotal. pose proof (completed_le_total statePlans planId) as Hle.
    fold total in Hle. fold completed in Hle.
    destruct (decide (total = 0%nat)); [lia|]. split.
    + by apply percentage_exact_below_40.
    + apply exactPercentage_le_100; [lia | done].
Qed.

(** An instance of C6 as amended: one completed item out of three. *)
Lemma C6_completion_percentage_witness :
  PlanContext.getCompletionPercentage [Fixtures.progressPlan 1 3] "p1" = 33%float ∧
  PlanContext.getCompletionPercentage [Fixtures.progressPlan 1 3] "missing" = 0%float.
Proof.
  destruct (C6_completion_percentage [Fixtures.progressPlan 1 3] "p1")
    as (_ & _ & Hexact).
  destruct (C6_completion_percentage [Fixtures.progressPlan 1 3] "missing")
    as (Hmissing & _).
  split.
  - refine (proj1 (Hexact _)). vm_compute. lia.
  - apply Hmissing. reflexivity.
Defined.

(** C6 as stated fails: with 23 of 40 items completed,
    round(100 × 23 / 40) = round(57.5) = 58, but in double precision
    23 / 40 × 100 is 57.49999999999999 and the function returns 57. *)
Lemma C6_counterexample :
  PlanContext.getTotalItemsCount [Fixtures.progressPlan 23 40] "p1" = 40%nat ∧
  PlanContext.getCompletedItemsCount [Fixtures.progressPlan 23 40] "p1" = 23%nat ∧
  exactPercentage 23 40 = 58%nat ∧
  PlanContext.getCompletionPercentage [Fixtures.progressPlan 23 40] "p1" = 57%float ∧
  PlanContext.getCompletionPercentage [Fixtures.progressPlan 23 40] "p1"
  ≠ PlanContext.toNumber (exactPercentage 23 40).
Proof.
  split_and!; try (vm_compute; reflexivity).
  intros Heq.
  apply (f_equal (PrimFloat.eqb 57%float)) in Heq.
  vm_compute in Heq. discriminate.
Qed.

(** * Further properties of the code *)

(** ** The write operations of the plan service *)

Ltac fault_cases :=
  repeat match goal with
         | |- context [initState ?w] =>
             is_var w; destruct (initState w) eqn:?; simpl
         | |- context [storageFails ?env ?n ?op] =>
             destruct (storageFails env n op) eqn:?; simpl
         | |- context [isOnline ?w] =>
             is_var w; destruct (isOnline w) eqn:?; simpl
         end.

Ltac queued_witness :=
  match goal with
  | |- queuedAs _ _ (<[_ := ?v]> _) => exists v; by split_and!
  end.

(** The tail shared by createPlan, updatePlan and the item operations. *)
Lemma persist_facts (plan : Plan) (item : SyncQueueInput) (ev : ServiceEvent) env w :
  let run :=
    tryCatch
      (IndexedDBService.savePlan plan;;
       PlanService.queueIfOffline item;;
       PlanService.emit ev;;
       ret plan)
      PlanService.reportAndRethrow env w in
  callFacts (insert (plan_id plan) plan) item ev w run.1 run.2 ∧
  (∀ result, run.1 = Ok result → result = plan).
Proof.
  unfold callFacts, PlanService.queueIfOffline, PlanService.reportAndRethrow,
    PlanService.emit.
  unfold_indexeddb. unfold_monad. simpl.
  fault_cases; split_and!; try done; try (by left); try (by right);
    try queued_witness; try congruence.
Qed.

Lemma tryCatch_bind {A B} (m : M A) (k : A → M B) (h : JsError → M B) env w :
  tryCatch (bind m k) h env w
  = match m env w with
    | (Ok a, w1) => tryCatch (k a) h env w1
    | (Throw error, w1) => h error env w1
    end.
Proof. unfold tryCatch, bind. by destruct (m env w) as [[?|?] ?]. Qed.

Lemma callFacts_from {A} stored item ev w w1 (outcome : Outcome A) w' :
  sameDocs w w1 → callFacts stored item ev w1 outcome w' →
  callFacts stored item ev w outcome w'.
Proof.
  unfold callFacts. intros (-> & -> & -> & ->). done.
Qed.

Lemma rejectedUntouched_from {A} w w1 (outcome : Outcome A) w' :
  sameDocs w w1 → rejectedUntouched w1 outcome w' → rejectedUntouched w outcome w'.
Proof.
  unfold rejectedUntouched. intros (-> & -> & -> & ->). done.
Qed.

Lemma rethrow_untouched {A} error env w :
  error ≠ queueError →
  rejectedUntouched (A := A) w
    (PlanService.reportAndRethrow (A := A) error env w).1
    (PlanService.reportAndRethrow (A := A) error env w).2.
Proof. intros Hother. by exists error. Qed.

(** Loading a plan inside the [try] block of a service method. *)
Lemma tryCatch_load {B} planId (k : option Plan → M B) env w :
  ∃ w1,
    sameDocs w w1 ∧
    (tryCatch
       (IndexedDBService.init;;
        let* found := IndexedDBService.getPlan planId in k found)
       PlanService.reportAndRethrow env w
     = tryCatch (k (plans w !! planId)) PlanService.reportAndRethrow env w1
     ∨ ∃ error,
         error ≠ queueError ∧
         tryCatch
           (IndexedDBService.init;;
            let* found := IndexedDBService.getPlan planId in k found)
           PlanService.reportAndRethrow env w
         = PlanService.reportAndRethrow error env w1).
Proof.
  unfold tryCatch. unfold_indexeddb. unfold_monad. simpl.
  destruct (initState w) eqn:Hinit; simpl; rewrite ?Hinit; simpl;
    repeat (match goal with
            | |- context [storageFails ?env ?n ?op] =>
                destruct (storageFails env n op) eqn:?; simpl
            end);
    eexists;
    (split;
     [|first [ right; eexists; split; [|reflexivity]; done
             | left; reflexivity ]]);
    done.
Qed.

Lemma commitItems_facts plan newItems env w :
  let run :=
    tryCatch (PlanService.commitItems plan newItems)
             PlanService.reportAndRethrow env w in
  let p := committedPlan plan newItems (date_at env (tick w)) in
  callFacts (insert (plan_id p) p) (updateItemOf p) (planUpdated p) w run.1 run.2 ∧
  (∀ result, run.1 = Ok result → result = p).
Proof.
  intros run p. subst run. unfold PlanService.commitItems.
  rewrite tryCatch_bind. unfold newDate at 1.
  destruct (persist_facts p (updateItemOf p) (planUpdated p) env (step w))
    as [Hfacts Hresult].
  split; [|exact Hresult].
  eapply callFacts_from; [|exact Hfacts]. done.
Qed.

Lemma itemMutation_facts m env w :
  let run := runItemMutation m env w in
  rejectedUntouched w run.1 run.2 ∨
  ∃ plan newItems now,
    let p := committedPlan plan newItems now in
    plans w !! itemMutationTarget m = Some plan ∧
    itemsAfter m plan newItems ∧
    callFacts (insert (plan_id p) p) (updateItemOf p) (planUpdated p) w run.1 run.2 ∧
    (∀ result, run.1 = Ok result → result = p).
Proof.
  destruct m as [planId item|planId itemId updates|planId itemId]; simpl;
    [unfold PlanService.addPlanItem
    |unfold PlanService.updatePlanItem
    |unfold PlanService.removePlanItem];
    match goal with
    | |- context [tryCatch (bind IndexedDBService.init
                              (λ _, bind (IndexedDBService.getPlan ?pid) ?k)) _ ?env ?w] =>
        destruct (tryCatch_load pid k env w)
          as (w1 & Hsame & [->|(error & Hother & ->)])
    end;
    try (left; eapply rejectedUntouched_from;
         [exact Hsame|by apply rethrow_untouched]);
    (destruct (plans w !! planId) as [plan|] eqn:Hstored;
     [|left; eapply rejectedUntouched_from; [exact Hsame|];
       unfold tryCatch, throw; by apply rethrow_untouched]).
  - rewrite tryCatch_bind. unfold randomUUID at 1.
    match goal with
    | |- context [PlanService.commitItems plan ?newItems] =>
        destruct (commitItems_facts plan newItems env (step w1)) as [Hfacts Hresult];
        right; exists plan, newItems, (date_at env (tick (step w1)))
    end.
    split_and!; [done|by eexists| |exact Hresult].
    eapply callFacts_from; [|exact Hfacts].
    destruct Hsame as (? & ? & ? & ?). by split_and!.
  - cbv zeta.
    destruct (list_find _ (sd_items _)) as [[itemIndex item]|] eqn:Hfind;
      [|left; eapply rejectedUntouched_from; [exact Hsame|];
        unfold tryCatch, throw; by apply rethrow_untouched].
    match goal with
    | |- context [PlanService.commitItems plan ?newItems] =>
        destruct (commitItems_facts plan newItems env w1) as [Hfacts Hresult];
        right; exists plan, newItems, (date_at env (tick w1))
    end.
    split_and!; [done|by eexists _, _| |exact Hresult].
    eapply callFacts_from; [exact Hsame|exact Hfacts].
  - match goal with
    | |- context [PlanService.commitItems plan ?newItems] =>
        destruct (commitItems_facts plan newItems env w1) as [Hfacts Hresult];
        right; exists plan, newItems, (date_at env (tick w1))
    end.
    split_and!; [done|done| |exact Hresult].
    eapply callFacts_from; [exact Hsame|exact Hfacts].
Qed.

Ltac untouched :=
  match goal with
  | |- rejectedUntouched ?w (PlanService.reportAndRethrow ?error ?env ?w1).1 _ =>
      apply (rejectedUntouched_from w w1); [try done | by apply rethrow_untouched]
  end.

Lemma updatePlan_facts input env w :
  let run := PlanService.updatePlan input env w in
  rejectedUntouched w run.1 run.2 ∨
  ∃ existingPlan now,
    let p := updatedPlanOf existingPlan input now in
    plans w !! update_id input = Some existingPlan ∧
    callFacts (insert (plan_id p) p) (updateItemOf p) (planUpdated p) w run.1 run.2 ∧
    (∀ result, run.1 = Ok result → result = p).
Proof.
  simpl. unfold PlanService.updatePlan.
  match goal with
  | |- context [tryCatch (bind IndexedDBService.init
                            (λ _, bind (IndexedDBService.getPlan ?pid) ?k)) _ ?env ?w] =>
      destruct (tryCatch_load pid k env w)
        as (w1 & Hsame & [->|(error & Hother & ->)])
  end;
    [|left; eapply rejectedUntouched_from; [exact Hsame|by apply rethrow_untouched]].
  destruct (plans w !! update_id input) as [existingPlan|] eqn:Hstored;
    [|left; eapply rejectedUntouched_from; [exact Hsame|];
      unfold tryCatch, throw; by apply rethrow_untouched].
  rewrite tryCatch_bind. unfold newDate at 1.
  set (p := updatedPlanOf existingPlan input (date_at env (tick w1))).
  destruct (persist_facts p (updateItemOf p) (planUpdated p) env (step w1))
    as [Hfacts Hresult].
  right. exists existingPlan, (date_at env (tick w1)).
  split_and!; [done| |exact Hresult].
  eapply callFacts_from; [|exact Hfacts].
  destruct Hsame as (? & ? & ? & ?). by split_and!.
Qed.

Lemma createPlan_facts input env w :
  let run := PlanService.createPlan input env w in
  rejectedUntouched w run.1 run.2 ∨
  ∃ uuid now,
    let p := createdPlanOf input uuid now in
    callFacts (insert (plan_id p) p) (createItemOf p) (planCreated p) w run.1 run.2 ∧
    (∀ result, run.1 = Ok result → result = p).
Proof.
  simpl. unfold PlanService.createPlan.
  rewrite tryCatch_bind. unfold newDate. cbv beta iota.
  rewrite tryCatch_bind. unfold randomUUID. cbv beta iota.
  rewrite tryCatch_bind.
  set (p := createdPlanOf input (randomUUID_at env (tick (step w))) (date_at env (tick w))).
  assert (∀ w2, sameDocs w w2 →
                let run := tryCatch
                             (IndexedDBService.savePlan p;;
                              PlanService.queueIfOffline (createItemOf p);;
                              PlanService.emit (planCreated p);;
                              ret p)
                             PlanService.reportAndRethrow env w2 in
                callFacts (insert (plan_id p) p) (createItemOf p) (planCreated p)
                  w run.1 run.2 ∧
                (∀ result, run.1 = Ok result → result = p)) as Htail.
  { intros w2 Hsame.
    destruct (persist_facts p (createItemOf p) (planCreated p) env w2) as [Hfacts Hresult].
    split; [|exact Hresult]. eapply callFacts_from; [exact Hsame|exact Hfacts]. }
  unfold IndexedDBService.init. simpl.
  destruct (initState w) eqn:Hinit.
  - destruct (storageFails env (S (S (tick w))) OpOpen).
    + left. untouched.
    + right. eexists _, _. apply Htail. done.
  - right. eexists _, _. apply Htail. done.
  - left. untouched.
Qed.

Lemma deletePlan_facts planId env w :
  let run := PlanService.deletePlan planId env w in
  callFacts (delete planId) (deleteItemOf planId) (planDeleted planId) w run.1 run.2.
Proof.
  unfold callFacts, PlanService.deletePlan, PlanService.queueIfOffline,
    PlanService.reportAndRethrow, PlanService.emit.
  unfold_indexeddb. unfold_monad. simpl.
  fault_cases; split_and!; try done; try (by left); try (by right);
    try queued_witness; try congruence.
Qed.

Lemma callFacts_result {A B} stored item ev w (outcome : Outcome A) (f : A → B) w' :
  callFacts stored item ev w outcome w' →
  callFacts stored item ev w
    (match outcome with Ok a => Ok (f a) | Throw error => Throw error end) w'.
Proof. by destruct outcome. Qed.

Lemma rejectedUntouched_result {A B} w (outcome : Outcome A) (f : A → B) w' :
  rejectedUntouched w outcome w' →
  rejectedUntouched w
    (match outcome with Ok a => Ok (f a) | Throw error => Throw error end) w'.
Proof. intros (error & -> & ? & ?). by exists error. Qed.

Lemma bind_ret_run {A B} (m : M A) (f : A → B) env w :
  (let* a := m in ret (f a)) env w
  = (match (m env w).1 with Ok a => Ok (f a) | Throw error => Throw error end,
     (m env w).2).
Proof. unfold bind, ret. by destruct (m env w) as [[?|?] ?]. Qed.

Lemma call_facts c env w :
  let run := runCall c env w in
  rejectedUntouched w run.1 run.2 ∨
  ∃ stored item ev,
    callFacts stored item ev w run.1 run.2 ∧
    callShape c w run.1 stored item ev.
Proof.
  destruct c as [input|[input|m]|planId]; simpl; rewrite bind_ret_run; simpl.
  - destruct (createPlan_facts input env w) as [Hrejected|(uuid & now & Hfacts & Hresult)];
      [left; by apply rejectedUntouched_result|].
    right. eexists _, _, _. split; [by apply callFacts_result|].
    exists uuid, now. split_and!; try done.
    intros result Hok. simpl in Hresult.
    destruct (PlanService.createPlan input env w).1; simplify_eq.
    by rewrite (Hresult _ eq_refl).
  - destruct (updatePlan_facts input env w)
      as [Hrejected|(existingPlan & now & Hstored & Hfacts & Hresult)];
      [left; by apply rejectedUntouched_result|].
    right. eexists _, _, _. split; [by apply callFacts_result|].
    eexists existingPlan, _. split_and!; try done; [by exists now|].
    intros result Hok. simpl in Hresult.
    destruct (PlanService.updatePlan input env w).1; simplify_eq.
    by rewrite (Hresult _ eq_refl).
  - destruct (itemMutation_facts m env w)
      as [Hrejected|(plan & newItems & now & Hstored & Hitems & Hfacts & Hresult)];
      [left; by apply rejectedUntouched_result|].
    right. eexists _, _, _. split; [by apply callFacts_result|].
    eexists plan, _. split_and!; try done; [by exists newItems, now|].
    intros result Hok. simpl in Hresult.
    destruct (runItemMutation m env w).1; simplify_eq.
    by rewrite (Hresult _ eq_refl).
  - right. eexists _, _, _.
    split; [apply (callFacts_result _ _ _ _ _ (λ _, None)), deletePlan_facts|].
    split_and!; try done.
    intros result Hok. destruct (PlanService.deletePlan planId env w).1; by simplify_eq.
Qed.

(** X1. Every write operation of the plan service announces exactly one
    event: the fitting success event carrying what it resolves with, or,
    when it is rejected, the error it is rejected with. *)
Theorem service_call_announces_once c env w :
  ∃ ev,
    events (runCall c env w).2 = (events w ++ [ev])%list ∧
    match (runCall c env w).1 with
    | Throw error => ev = errorEvent error
    | Ok result =>
        match c with
        | CreatePlan _ => ∃ plan, result = Some plan ∧ ev = planCreated plan
        | ModifyPlan _ => ∃ plan, result = Some plan ∧ ev = planUpdated plan
        | DeletePlan planId => result = None ∧ ev = planDeleted planId
        end
    end.
Proof.
  destruct (call_facts c env w)
    as [(error & -> & _ & Hevents & _)|(stored & item & ev & Hfacts & Hshape)].
  { by exists (errorEvent error). }
  destruct Hfacts as [_ Hfacts].
  destruct ((runCall c env w).1) as [result|error] eqn:Hrun.
  - destruct Hfacts as (Hevents & _). exists ev. split; [done|].
    destruct c as [input|m|planId]; simpl in Hshape.
    + destruct Hshape as (uuid & now & _ & _ & -> & Hresult).
      eexists. split; [by apply Hresult|done].
    + destruct Hshape as (existingPlan & p & _ & _ & _ & _ & -> & Hresult).
      eexists. split; [by apply Hresult|done].
    + destruct Hshape as (_ & _ & -> & Hresult). split; [by apply Hresult|done].
  - destruct Hfacts as (Hevents & _). by exists (errorEvent error).
Qed.

(** X2. While the service is online no write operation touches the sync
    queue, and one that is rejected has written no plan either. *)
Theorem online_call_spares_queue c env w :
  isOnline w = true →
  syncQueue (runCall c env w).2 = syncQueue w ∧
  (∀ error, (runCall c env w).1 = Throw error → plans (runCall c env w).2 = plans w).
Proof.
  intros Honline.
  destruct (call_facts c env w)
    as [(error & -> & _ & _ & Hplans & Hqueue & _)|(stored & item & ev & Hfacts & _)].
  { done. }
  destruct Hfacts as [_ Hfacts]. rewrite Honline in Hfacts.
  destruct ((runCall c env w).1) as [result|error].
  - by destruct Hfacts as (_ & _ & Hqueue).
  - destruct Hfacts as (_ & Hqueue & [[Hplans _]|(? & _)]); [|done].
    split; [done|]. by intros ? _.
Qed.

(** An instance of X2: deleting online. *)
Lemma online_call_spares_queue_witness :
  let w := Fixtures.worldWith Fixtures.planWithItem in
  syncQueue (runCall (DeletePlan "p1") Fixtures.calmEnv w).2 = syncQueue w.
Proof.
  intros w.
  exact (proj1 (online_call_spares_queue (DeletePlan "p1") Fixtures.calmEnv w eq_refl)).
Defined.

(** X3. While the service is offline a write operation that succeeds puts
    exactly one item in the sync queue, with retry count 0: 'create' or
    'update' naming and carrying the plan the call resolves with, or
    'delete' naming the plan and carrying no document. *)
Theorem offline_call_queues_once c env w result w' :
  isOnline w = false →
  runCall c env w = (Ok result, w') →
  ∃ queued,
    syncQueue w' = <[sync_id queued := queued]> (syncQueue w) ∧
    sync_retryCount queued = 0 ∧
    sync_data queued = result ∧
    match c with
    | CreatePlan _ =>
        sync_operation queued = SyncCreate ∧
        ∃ plan, result = Some plan ∧ sync_planId queued = plan_id plan
    | ModifyPlan _ =>
        sync_operation queued = SyncUpdate ∧
        ∃ plan, result = Some plan ∧ sync_planId queued = plan_id plan
    | DeletePlan planId =>
        sync_operation queued = SyncDelete ∧ sync_planId queued = planId
    end.
Proof.
  intros Hoffline Hrun.
  destruct (call_facts c env w)
    as [(error & Hthrow & _)|(stored & item & ev & Hfacts & Hshape)];
    rewrite Hrun in *; simpl in *; [done|].
  destruct Hfacts as (_ & _ & _ & Hqueue). rewrite Hoffline in Hqueue.
  destruct Hqueue as (queued & Hqueue & Hop & Hid & Hdata & Hretry).
  exists queued. split_and!; [done|done|..].
  - destruct c as [input|m|planId]; simpl in Hshape.
    + destruct Hshape as (uuid & now & _ & -> & _ & Hresult).
      by rewrite (Hresult _ eq_refl).
    + destruct Hshape as (existingPlan & p & _ & _ & _ & -> & _ & Hresult).
      by rewrite (Hresult _ eq_refl).
    + destruct Hshape as (_ & -> & _ & Hresult). by rewrite (Hresult _ eq_refl).
  - destruct c as [input|m|planId]; simpl in Hshape.
    + destruct Hshape as (uuid & now & _ & -> & _ & Hresult).
      split; [done|]. eexists. split; [by apply Hresult|done].
    + destruct Hshape as (existingPlan & p & _ & _ & _ & -> & _ & Hresult).
      split; [done|]. eexists. split; [by apply Hresult|done].
    + by destruct Hshape as (_ & -> & _).
Qed.

(** An instance of X3: creating offline. *)
Lemma offline_call_queues_once_witness :
  let w := Fixtures.offline Fixtures.emptyWorld in
  ∃ result w' queued,
    runCall (CreatePlan Fixtures.newPlanInput) Fixtures.calmEnv w = (Ok result, w') ∧
    syncQueue w' = <[sync_id queued := queued]> (syncQueue w) ∧
    sync_retryCount queued = 0 ∧
    sync_data queued = result ∧
    sync_operation queued = SyncCreate.
Proof.
  intros w.
  edestruct (offline_call_queues_once (CreatePlan Fixtures.newPlanInput)
               Fixtures.calmEnv w)
    as (queued & Hqueue & Hretry & Hdata & Hop & _);
    [reflexivity | vm_compute; reflexivity |].
  eexists _, _, queued. split; [vm_compute; reflexivity|]. by split_and!.
Defined.

(** X4. A rejected write operation never leaves an item in the sync queue.
    It has written the plans store in one case only: the service was
    offline, the plan was saved (or deleted), and the write to the queue
    then failed; the call is then rejected with 'Failed to add item to sync
    queue' although the store holds its effect. *)
Theorem rejected_call_effects c env w error w' :
  runCall c env w = (Throw error, w') →
  syncQueue w' = syncQueue w ∧
  (error ≠ queueError → plans w' = plans w) ∧
  (error = queueError →
   isOnline w = false ∧
   match c with
   | CreatePlan _ =>
       ∃ plan, plans w' = <[plan_id plan := plan]> (plans w) ∧ plan_version plan = 1
   | ModifyPlan m =>
       ∃ existingPlan plan,
         plans w !! mutationTarget m = Some existingPlan ∧
         plans w' = <[plan_id plan := plan]> (plans w) ∧
         plan_version plan = plan_version existingPlan + 1
   | DeletePlan planId => plans w' = delete planId (plans w)
   end).
Proof.
  intros Hrun.
  destruct (call_facts c env w)
    as [(error' & Hthrow & Hother & _ & Hplans & Hqueue & _)
       |(stored & item & ev & Hfacts & Hshape)];
    rewrite Hrun in *; simpl in *.
  { simplify_eq. done. }
  destruct Hfacts as (_ & _ & Hqueue & [[Hplans Hother]|(Hoffline & Hplans & ->)]).
  { done. }
  split_and!; [done|done|]. intros _. split; [done|].
  destruct c as [input|m|planId]; simpl in Hshape.
  - destruct Hshape as (uuid & now & -> & _).
    by exists (createdPlanOf input uuid now).
  - destruct Hshape as (existingPlan & p & Hstored & Hmodified & -> & _).
    exists existingPlan, p. split_and!; [done|done|].
    destruct m as [input|m]; simpl in Hmodified.
    + by destruct Hmodified as (now & ->).
    + by destruct Hmodified as (newItems & now & -> & _).
  - by destruct Hshape as (-> & _).
Qed.

(** An instance of X4: offline, the plan is deleted and the write to the
    queue then fails. *)
Lemma rejected_call_effects_witness :
  let w := Fixtures.offline (Fixtures.worldWith Fixtures.planWithItem) in
  ∃ w',
    runCall (DeletePlan "p1") Fixtures.fullQueueEnv w = (Throw queueError, w') ∧
    syncQueue w' = syncQueue w ∧
    plans w' = delete "p1" (plans w).
Proof.
  intros w.
  edestruct (rejected_call_effects (DeletePlan "p1") Fixtures.fullQueueEnv w)
    as (Hqueue & _ & Hwritten); [vm_compute; reflexivity|].
  eexists. split; [vm_compute; reflexivity|]. split; [exact Hqueue|].
  exact (proj2 (Hwritten eq_refl)).
Defined.

(** ** The item operations *)

Lemma itemMutation_Ok m env w p w' :
  runItemMutation m env w = (Ok p, w') →
  ∃ plan newItems now,
    plans w !! itemMutationTarget m = Some plan ∧
    p = committedPlan plan newItems now ∧
    itemsAfter m plan newItems ∧
    plans w' = <[plan_id p := p]> (plans w).
Proof.
  intros Hrun.
  destruct (itemMutation_facts m env w)
    as [(error & Hthrow & _)
       |(plan & newItems & now & Hstored & Hitems & Hfacts & Hresult)];
    rewrite Hrun in *; simpl in *; [done|].
  rewrite (Hresult _ eq_refl) in *.
  destruct Hfacts as (_ & _ & Hplans & _).
  by exists plan, newItems, now.
Qed.










(** X8. The item operations change the items, the version and updatedAt,
    and nothing else: identity, owner, title, content, metadata, creation
    date and every other field of the structured payload are the stored
    ones. *)
Theorem item_operation_frame m env w p w' :
  runItemMutation m env w = (Ok p, w') →
  ∃ stored,
    plans w !! itemMutationTarget m = Some stored ∧
    plan_id p = plan_id stored ∧
    plan_userId p = plan_userId stored ∧
    plan_title p = plan_title stored ∧
    plan_content p = plan_content stored ∧
    plan_metadata p = plan_metadata stored ∧
    plan_createdAt p = plan_createdAt stored ∧
    sd_type (plan_structuredData p) = sd_type (plan_structuredData stored) ∧
    sd_schedule (plan_structuredData p) = sd_schedule (plan_structuredData stored) ∧
    sd_goals (plan_structuredData p) = sd_goals (plan_structuredData stored) ∧
    sd_tags (plan_structuredData p) = sd_tags (plan_structuredData stored) ∧
    sd_category (plan_structuredData p) = sd_category (plan_structuredData stored) ∧
    sd_estimatedDuration (plan_structuredData p)
    = sd_estimatedDuration (plan_structuredData stored).
Proof.
  intros Hrun.
  destruct (itemMutation_Ok m env w p w' Hrun)
    as (plan & newItems & now & Hstored & -> & _).
  exists plan. by split_and!.
Qed.

(** An instance of X8: removing an item keeps the title and the tags. *)
Lemma item_operation_frame_witness :
  let w := Fixtures.worldWith Fixtures.planWithItem in
  ∃ p w' stored,
    runItemMutation (RemoveItem "p1" "i1") Fixtures.calmEnv w = (Ok p, w') ∧
    plans w !! "p1" = Some stored ∧
    plan_title p = plan_title stored ∧
    sd_tags (plan_structuredData p) = sd_tags (plan_structuredData stored).
Proof.
  intros w.
  edestruct (item_operation_frame (RemoveItem "p1" "i1") Fixtures.calmEnv w)
    as (stored & Hstored & _ & _ & Htitle & _ & _ & _ & _ & _ & _ & Htags & _);
    [vm_compute; reflexivity|].
  eexists _, _, stored. split; [vm_compute; reflexivity|]. by split_and!.
Defined.

(** ** Plans: update, creation, deletion *)

(** X9. updatePlan never changes the owner, the metadata or the creation
    date of a plan; the title and the content are replaced when the input
    names them and are the stored ones otherwise; a field of the structured
    payload that the patch names takes the value of the patch. *)
Theorem updatePlan_named_and_kept input env w p w' :
  PlanService.updatePlan input env w = (Ok p, w') →
  ∃ stored,
    plans w !! update_id input = Some stored ∧
    plan_userId p = plan_userId stored ∧
    plan_metadata p = plan_metadata stored ∧
    plan_createdAt p = plan_createdAt stored ∧
    plan_title p = default (plan_title stored) (update_title input) ∧
    plan_content p = default (plan_content stored) (update_content input) ∧
    (∀ patch, update_structuredData input = Some patch →
       (∀ v, sdp_type patch = Some v → sd_type (plan_structuredData p) = v) ∧
       (∀ v, sdp_items patch = Some v → sd_items (plan_structuredData p) = v) ∧
       (∀ v, sdp_schedule patch = Some v →
             sd_schedule (plan_structuredData p) = Some v) ∧
       (∀ v, sdp_goals patch = Some v → sd_goals (plan_structuredData p) = Some v) ∧
       (∀ v, sdp_tags patch = Some v → sd_tags (plan_structuredData p) = v) ∧
       (∀ v, sdp_category patch = Some v →
             sd_category (plan_structuredData p) = Some v) ∧
       (∀ v, sdp_estimatedDuration patch = Some v →
             sd_estimatedDuration (plan_structuredData p) = Some v)) ∧
    (update_structuredData input = None →
     plan_structuredData p = plan_structuredData stored).
Proof.
  intros Hrun.
  destruct (updatePlan_facts input env w)
    as [(error & Hthrow & _)|(stored & now & Hstored & _ & Hresult)];
    rewrite Hrun in *; simpl in *; [done|].
  rewrite (Hresult _ eq_refl). exists stored. split_and!; try done.
  - intros patch Hpatch. simpl. rewrite Hpatch. simpl.
    split_and!; by intros v ->.
  - intros Hnone. simpl. by rewrite Hnone.
Qed.

(** An instance of X9: the plan of the tests is renamed. *)
Lemma updatePlan_named_and_kept_witness :
  let w := Fixtures.worldWith Fixtures.planWithItem in
  ∃ p w' stored,
    PlanService.updatePlan (Fixtures.titleUpdate "p1" "Renamed") Fixtures.calmEnv w
    = (Ok p, w') ∧
    plans w !! "p1" = Some stored ∧
    plan_title p = "Renamed" ∧
    plan_userId p = plan_userId stored ∧
    plan_structuredData p = plan_structuredData stored.
Proof.
  intros w.
  edestruct (updatePlan_named_and_kept (Fixtures.titleUpdate "p1" "Renamed")
               Fixtures.calmEnv w)
    as (stored & Hstored & Howner & _ & _ & Htitle & _ & _ & Hpayload);
    [vm_compute; reflexivity|].
  eexists _, _, stored. split; [vm_compute; reflexivity|].
  split_and!; [exact Hstored | exact Htitle | exact Howner | exact (Hpayload eq_refl)].
Defined.

(** X10. createPlan synthesizes a document of version 1 whose creation and
    update dates coincide, with the title, content and owner of the input
    and the metadata 'user_input', 'en', 'simple'; without a structured
    payload in the input its type is 'custom' and it has no items, no tags
    and no optional field. The document is stored under its fresh identity
    and every other stored plan is left as it was. *)
Theorem createPlan_synthesizes input env w p w' :
  PlanService.createPlan input env w = (Ok p, w') →
  plan_version p = 1 ∧
  plan_createdAt p = plan_updatedAt p ∧
  plan_title p = create_title input ∧
  plan_content p = create_content input ∧
  plan_userId p = create_userId input ∧
  plan_metadata p
  = {| meta_source := UserInput; meta_language := "en"; meta_complexity := Simple;
       meta_lastAiProcessed := None; meta_processingVersion := None |} ∧
  (create_structuredData input = None →
   plan_structuredData p
   = {| sd_type := PlanCustom; sd_items := []; sd_schedule := None; sd_goals := None;
        sd_tags := []; sd_category := None; sd_estimatedDuration := None |}) ∧
  plans w' !! plan_id p = Some p ∧
  (∀ key, key ≠ plan_id p → plans w' !! key = plans w !! key).
Proof.
  intros Hrun.
  destruct (createPlan_facts input env w)
    as [(error & Hthrow & _)|(uuid & now & Hfacts & Hresult)];
    rewrite Hrun in *; simpl in *; [done|].
  rewrite (Hresult _ eq_refl) in *.
  destruct Hfacts as (_ & _ & Hplans & _).
  split_and!; try done.
  - intros Hnone. simpl. by rewrite Hnone.
  - rewrite Hplans. apply lookup_insert_eq.
  - intros key Hkey. rewrite Hplans. by apply lookup_insert_ne.
Qed.

(** An instance of X10: the input of the tests, in an empty store. *)
Lemma createPlan_synthesizes_witness :
  ∃ p w',
    PlanService.createPlan Fixtures.newPlanInput Fixtures.calmEnv Fixtures.emptyWorld
    = (Ok p, w') ∧
    plan_version p = 1 ∧
    plan_title p = "New Plan" ∧
    sd_items (plan_structuredData p) = [] ∧
    plans w' !! plan_id p = Some p.
Proof.
  edestruct (createPlan_synthesizes Fixtures.newPlanInput Fixtures.calmEnv
               Fixtures.emptyWorld)
    as (Hversion & _ & Htitle & _ & _ & _ & Hpayload & Hstored & _);
    [vm_compute; reflexivity|].
  eexists _, _. split; [vm_compute; reflexivity|].
  split_and!; [exact Hversion | exact Htitle | | exact Hstored].
  by rewrite (Hpayload eq_refl).
Defined.

(** X11. After a successful deletePlan the store holds no plan under that
    identity and holds every other plan as before; a later updatePlan of
    the deleted plan is rejected without writing ('Plan not found' when no
    storage request fails). *)
Theorem deletePlan_then_update planId input env w w' :
  PlanService.deletePlan planId env w = (Ok tt, w') →
  update_id input = planId →
  plans w' = delete planId (plans w) ∧
  ∃ error w'',
    PlanService.updatePlan input env w' = (Throw error, w'') ∧
    plans w'' = plans w' ∧
    (calm env → error = MkError "Plan not found").
Proof.
  intros Hrun Htarget.
  assert (plans w' = delete planId (plans w) ∧ initState w' = Opened) as [Hplans Hinit].
  { revert Hrun. unfold PlanService.deletePlan, PlanService.queueIfOffline,
      PlanService.reportAndRethrow, PlanService.emit.
    unfold_indexeddb. unfold_monad. simpl. intros Hrun.
    repeat (case_match; simplify_eq/=); done. }
  split; [done|].
  destruct (updatePlan_missing input env w') as (error & w'' & Hupdate & Hsame & _ & Hmsg).
  { rewrite Hplans, Htarget. apply lookup_delete_eq. }
  exists error, w''. split_and!; [done|done|].
  intros Hcalm. apply Hmsg; [done|]. by rewrite Hinit.
Qed.

(** An instance of X11: the plan of the tests is deleted, then updated. *)
Lemma deletePlan_then_update_witness :
  let w := Fixtures.worldWith Fixtures.planWithItem in
  ∃ w' w'',
    PlanService.deletePlan "p1" Fixtures.calmEnv w = (Ok tt, w') ∧
    plans w' = delete "p1" (plans w) ∧
    PlanService.updatePlan (Fixtures.titleUpdate "p1" "Renamed") Fixtures.calmEnv w'
    = (Throw (MkError "Plan not found"), w'') ∧
    plans w'' = plans w'.
Proof.
  intros w.
  edestruct (deletePlan_then_update "p1" (Fixtures.titleUpdate "p1" "Renamed")
               Fixtures.calmEnv w)
    as (Hplans & error & w'' & Hrun & Hkept & Hmessage);
    [vm_compute; reflexivity | reflexivity |].
  rewrite (Hmessage calmEnv_calm) in Hrun.
  eexists _, w''. split; [vm_compute; reflexivity|]. by split_and!.
Defined.

(** ** The stores and the sync queue *)


Lemma elem_of_values `{Countable K} {A} (m : gmap K A) (x : A) :
  x ∈ snd <$> map_to_list m ↔ ∃ key, m !! key = Some x.
Proof.
  rewrite list_elem_of_fmap. split.
  - intros ([key y] & -> & Hin). exists key. by apply elem_of_map_to_list.
  - intros (key & Hlookup). exists (key, x). split; [done|].
    by apply elem_of_map_to_list.
Qed.

(** X13. loadPlans resolves with exactly the stored plans of the given
    owner, each once per key, the most recently updated first, and
    announces that same list as its only event. *)
Theorem loadPlans_sorted_by_update userId env w loaded w' :
  PlanService.loadPlans userId env w = (Ok loaded, w') →
  StronglySorted (λ a b, plan_updatedAt b ≤ plan_updatedAt a) loaded ∧
  loaded ≡ₚ filter (λ plan, plan_userId plan = userId) (snd <$> map_to_list (plans w)) ∧
  (∀ plan, plan ∈ loaded ↔
           plan_userId plan = userId ∧ ∃ key, plans w !! key = Some plan) ∧
  events w' = (events w ++ [plansLoaded loaded])%list ∧
  plans w' = plans w.
Proof.
  intros Hrun.
  assert (loaded = merge_sort IndexedDBService.newerFirst
                     (filter (λ plan, plan_userId plan = userId)
                             (snd <$> map_to_list (plans w))) ∧
          events w' = (events w ++ [plansLoaded loaded])%list ∧
          plans w' = plans w) as (-> & Hevents & Hplans).
  { revert Hrun. unfold PlanService.loadPlans, IndexedDBService.getPlans,
      PlanService.reportAndRethrow, PlanService.emit.
    unfold_indexeddb. unfold_monad. intros Hrun. crunch. }
  split_and!; [|apply merge_sort_Permutation| |done|done].
  - apply (StronglySorted_merge_sort IndexedDBService.newerFirst).
  - intros plan. rewrite merge_sort_Permutation, list_elem_of_filter.
    by rewrite elem_of_values.
Qed.

(** An instance of X13: two plans of "user-1" are loaded. *)
Lemma loadPlans_sorted_by_update_witness :
  ∃ loaded w',
    PlanService.loadPlans "user-1" Fixtures.calmEnv Fixtures.twoPlans = (Ok loaded, w') ∧
    length loaded = 2%nat ∧
    StronglySorted (λ a b, plan_updatedAt b ≤ plan_updatedAt a) loaded ∧
    events w' = [plansLoaded loaded].
Proof.
  edestruct (loadPlans_sorted_by_update "user-1" Fixtures.calmEnv Fixtures.twoPlans)
    as (Hsorted & _ & _ & Hevents & _); [vm_compute; reflexivity|].
  eexists _, _. split; [vm_compute; reflexivity|].
  split_and!; [reflexivity | exact Hsorted | exact Hevents].
Defined.

(** X14. When the store answers, getSyncQueueStatus reports as pending the
    number of items the queue store holds, and lists the summary of every
    stored item once, the oldest first. *)
Theorem getSyncQueueStatus_counts env w queue w1 :
  (IndexedDBService.init;; IndexedDBService.getSyncQueue) env w = (Ok queue, w1) →
  ∃ status,
    PlanService.getSyncQueueStatus env w = (Ok status, w1) ∧
    pending status = size (syncQueue w) ∧
    items status = PlanService.summarize <$> queue ∧
    queue ≡ₚ snd <$> map_to_list (syncQueue w) ∧
    StronglySorted (λ a b, sync_timestamp a ≤ sync_timestamp b) queue ∧
    syncQueue w1 = syncQueue w.
Proof.
  intros Hrun.
  assert (queue = merge_sort IndexedDBService.olderFirst
                    (snd <$> map_to_list (syncQueue w)) ∧
          syncQueue w1 = syncQueue w ∧
          PlanService.getSyncQueueStatus env w
          = (Ok {| pending := length queue; items := PlanService.summarize <$> queue |},
             w1)) as (-> & Hqueue & Hstatus).
  { revert Hrun. unfold PlanService.getSyncQueueStatus.
    unfold_indexeddb. unfold_monad. intros Hrun. crunch. }
  eexists. split; [exact Hstatus|]. simpl. split_and!; try done.
  - by rewrite merge_sort_Permutation, length_fmap, length_map_to_list.
  - apply merge_sort_Permutation.
  - apply (StronglySorted_merge_sort IndexedDBService.olderFirst).
Qed.

(** An instance of X14: one item is pending after an offline creation. *)
Lemma getSyncQueueStatus_counts_witness :
  ∃ queue w1 status,
    (IndexedDBService.init;; IndexedDBService.getSyncQueue)
      Fixtures.calmEnv Fixtures.offlineCreated = (Ok queue, w1) ∧
    PlanService.getSyncQueueStatus Fixtures.calmEnv Fixtures.offlineCreated
    = (Ok status, w1) ∧
    pending status = size (syncQueue Fixtures.offlineCreated) ∧
    pending status = 1%nat ∧
    items status = PlanService.summarize <$> queue.
Proof.
  edestruct (getSyncQueueStatus_counts Fixtures.calmEnv Fixtures.offlineCreated)
    as (status & Hstatus & Hpending & Hitems & _); [vm_compute; reflexivity|].
  eexists _, _, status. split; [vm_compute; reflexivity|].
  split_and!; [exact Hstatus | exact Hpending | | exact Hitems].
  rewrite Hpending. vm_compute. reflexivity.
Defined.

Lemma remove_swallowed itemId env w :
  ∃ w1,
    tryCatch (IndexedDBService.removeFromSyncQueue itemId) (λ _, ret tt) env w
    = (Ok tt, w1) ∧
    plans w1 = plans w ∧ events w1 = events w ∧ isOnline w1 = isOnline w ∧
    syncQueue w1 ⊆ syncQueue w.
Proof.
  unfold_indexeddb. unfold_monad. simpl.
  destruct (initState w) eqn:Hinit; simpl; rewrite ?Hinit; simpl;
    repeat (match goal with
            | |- context [storageFails ?env ?n ?op] =>
                destruct (storageFails env n op) eqn:?; simpl
            end);
    eexists; split_and!; try reflexivity; try apply delete_subseteq.
Qed.

Lemma drain_swallowed env queue w :
  ∃ w',
    forEachM
      (λ item, tryCatch (IndexedDBService.removeFromSyncQueue (sync_id item))
                        (λ _, ret tt))
      queue env w = (Ok tt, w') ∧
    plans w' = plans w ∧ events w' = events w ∧ isOnline w' = isOnline w ∧
    syncQueue w' ⊆ syncQueue w.
Proof.
  revert w. induction queue as [|item queue IH]; intros w.
  - by eexists.
  - cbn [forEachM].
    destruct (remove_swallowed (sync_id item) env w)
      as (w1 & Hstep & Hplans1 & Hevents1 & Honline1 & Hqueue1).
    rewrite (bind_run _ _ _ _ _ _ Hstep).
    destruct (IH w1) as (w' & Hrest & Hplans & Hevents & Honline & Hqueue).
    exists w'. split; [done|]. split_and!; try congruence.
    by etrans.
Qed.

(** X15. processSyncQueue never rejects: whatever fails while it runs, it
    resolves, leaves the plans store and the event trace as they were, and
    only ever removes items from the queue. *)
Theorem processSyncQueue_swallows_failures env w :
  ∃ w',
    PlanService.processSyncQueue env w = (Ok tt, w') ∧
    plans w' = plans w ∧ events w' = events w ∧ isOnline w' = isOnline w ∧
    syncQueue w' ⊆ syncQueue w.
Proof.
  unfold PlanService.processSyncQueue. unfold tryCatch at 1. unfold bind.
  destruct (IndexedDBService.init env w) as [[[]|error] w0] eqn:Hinit.
  - assert (plans w0 = plans w ∧ events w0 = events w ∧ isOnline w0 = isOnline w ∧
            syncQueue w0 = syncQueue w) as (Hplans0 & Hevents0 & Honline0 & Hqueue0).
    { revert Hinit. unfold_indexeddb. unfold_monad. intros Hinit. crunch. }
    destruct (IndexedDBService.getSyncQueue env w0) as [[queue|error] w1] eqn:Hread.
    + assert (plans w1 = plans w0 ∧ events w1 = events w0 ∧
              isOnline w1 = isOnline w0 ∧ syncQueue w1 = syncQueue w0)
        as (Hplans1 & Hevents1 & Honline1 & Hqueue1).
      { revert Hread. unfold_indexeddb. unfold_monad. intros Hread. crunch. }
      destruct (drain_swallowed env queue w1)
        as (w' & Hdrain & Hplans & Hevents & Honline & Hqueue).
      exists w'. rewrite Hdrain. split; [done|]. split_and!; try congruence.
      by rewrite <- Hqueue0, <- Hqueue1.
    + assert (plans w1 = plans w0 ∧ events w1 = events w0 ∧
              isOnline w1 = isOnline w0 ∧ syncQueue w1 = syncQueue w0)
        as (Hplans1 & Hevents1 & Honline1 & Hqueue1).
      { revert Hread. unfold_indexeddb. unfold_monad. intros Hread. crunch. }
      exists w1. split; [done|]. split_and!; try congruence.
      by rewrite Hqueue1, Hqueue0.
  - assert (plans w0 = plans w ∧ events w0 = events w ∧ isOnline w0 = isOnline w ∧
            syncQueue w0 = syncQueue w) as (Hplans0 & Hevents0 & Honline0 & Hqueue0).
    { revert Hinit. unfold_indexeddb. unfold_monad. intros Hinit. crunch. }
    exists w0. split; [done|]. split_and!; try done. by rewrite Hqueue0.
Qed.

Lemma drained_all (store : gmap string SyncQueueItem) queue :
  map_Forall (λ key item, sync_id item = key) store →
  (∀ item, (∃ key, store !! key = Some item) → item ∈ queue) →
  drained queue store = ∅.
Proof.
  intros Hkeyed Hall. apply map_eq. intros key. rewrite lookup_empty.
  destruct (store !! key) as [item|] eqn:Hlookup.
  - rewrite <- (Hkeyed _ _ Hlookup). apply drained_removes. apply Hall. by exists key.
  - by apply drained_stays_absent.
Qed.

(** X16. Going back online with a store that answers empties the sync
    queue: every pending item is removed, the plans store is not touched,
    and the service considers itself online. *)
Theorem onOnline_empties_queue env w :
  calm env → initState w ≠ Rejected → queueKeyedById w →
  ∃ w',
    PlanService.onOnline env w = (Ok tt, w') ∧
    syncQueue w' = ∅ ∧ isOnline w' = true ∧ plans w' = plans w.
Proof.
  intros Hcalm Hinit Hkeyed.
  assert (∃ w0, initState w0 = Opened ∧ syncQueue w0 = syncQueue w ∧
                plans w0 = plans w ∧
                PlanService.onOnline env w = PlanService.onOnline env w0)
    as (w0 & Hopened & Hqueue0 & Hplans0 & ->).
  { destruct (initState w) eqn:Hstate; [|by exists w|done].
    exists (step (setInitState Opened w)). split_and!; try done.
    destruct w; simpl in *; subst.
    unfold PlanService.onOnline, PlanService.processSyncQueue.
    unfold tryCatch at 1. unfold bind at 1 2 3. unfold modify, IndexedDBService.init.
    simpl. by rewrite Hcalm. }
  destruct (onOnline_calm env w0 Hcalm Hopened) as (w' & Hrun & Honline & Hplans & Hqueue).
  exists w'. split_and!; try congruence.
  rewrite Hqueue, Hqueue0. apply drained_all; [done|].
  intros item Hstored. rewrite merge_sort_Permutation. by apply elem_of_values.
Qed.

(** An instance of X16: the item queued by an offline creation is gone
    once the service is back online. *)
Lemma onOnline_empties_queue_witness :
  size (syncQueue Fixtures.offlineCreated) = 1%nat ∧
  ∃ w',
    PlanService.onOnline Fixtures.calmEnv Fixtures.offlineCreated = (Ok tt, w') ∧
    syncQueue w' = ∅ ∧ isOnline w' = true ∧ plans w' = plans Fixtures.offlineCreated.
Proof.
  split; [vm_compute; reflexivity|].
  apply (onOnline_empties_queue Fixtures.calmEnv Fixtures.offlineCreated calmEnv_calm).
  - vm_compute. discriminate.
  - unfold queueKeyedById. apply (bool_decide_unpack _). vm_compute. exact I.
Defined.

(** ** Change identifiers *)

Lemma list_ascii_of_string_app (a b : string) :
  list_ascii_of_string (a +:+ b) = (list_ascii_of_string a ++ list_ascii_of_string b)%list.
Proof. induction a as [|c a IH]; simpl; [done|]. by rewrite IH. Qed.

Lemma pretty_N_char_digit (x : N) :
  (x < 10)%N →
  EnhancementService.isDigit (pretty_N_char x) = true ∧
  EnhancementService.digitValue (pretty_N_char x) = Z.of_N x.
Proof.
  intros Hlt.
  assert (x = 0 ∨ x = 1 ∨ x = 2 ∨ x = 3 ∨ x = 4 ∨ x = 5 ∨ x = 6 ∨ x = 7 ∨ x = 8
          ∨ x = 9)%N as Hcases by lia.
  repeat destruct Hcases as [->|Hcases]; try subst x; by vm_compute.
Qed.

(** The decimal numeral: digits only, read back by [parseInt10]. *)
Lemma pretty_N_go_digits (x : N) (s : string) :
  ∃ digits,
    list_ascii_of_string (pretty_N_go x s) = (digits ++ list_ascii_of_string s)%list ∧
    Forall (λ c, EnhancementService.isDigit c = true) digits ∧
    (∀ rest acc,
       fold_left (λ acc c, 10 * acc + EnhancementService.digitValue c)
         (digits ++ rest)%list acc
       = fold_left (λ acc c, 10 * acc + EnhancementService.digitValue c) rest
           (acc * 10 ^ Z.of_nat (length digits) + Z.of_N x)) ∧
    ((0 < x)%N → digits ≠ []).
Proof.
  revert s. induction (N.lt_wf_0 x) as [x _ IH]. intros s.
  assert (x = 0 ∨ 0 < x)%N as [->|Hpos] by lia.
  - exists []. rewrite pretty_N_go_0. split_and!; [done|done| |lia].
    intros rest acc. simpl. f_equal. lia.
  - rewrite pretty_N_go_step by done.
    destruct (IH (x `div` 10)%N (N.div_lt x 10 Hpos eq_refl)
                 (String (pretty_N_char (x `mod` 10)) s))
      as (digits & Hchars & Hdigits & Hvalue & _).
    destruct (pretty_N_char_digit (x `mod` 10)%N) as [Hdigit Hlast].
    { by apply N.mod_lt. }
    exists (digits ++ [pretty_N_char (x `mod` 10)])%list. split_and!.
    + rewrite Hchars. simpl. by rewrite <- app_assoc.
    + apply Forall_app. by split; [|repeat constructor].
    + intros rest acc. rewrite <- app_assoc, Hvalue. simpl. f_equal.
      rewrite Hlast, length_app. simpl.
      rewrite Nat2Z.inj_add, Z.pow_add_r by lia.
      pose proof (N.div_mod x 10 ltac:(done)) as Hsplit.
      rewrite N2Z.inj_div, N2Z.inj_mod. change (Z.of_N 10) with 10.
      pose proof (Z.div_mod (Z.of_N x) 10 ltac:(done)). lia.
    + intros _. by destruct digits.
Qed.

Lemma pretty_nat_digits (index : nat) :
  ∃ digits,
    list_ascii_of_string (pretty index) = digits ∧ digits ≠ [] ∧
    Forall (λ c, EnhancementService.isDigit c = true) digits ∧
    EnhancementService.parseInt10 digits = Z.of_nat index.
Proof.
  unfold pretty, pretty_nat, pretty, pretty_N.
  case_decide as Hzero.
  - exists ["0"%char]. split_and!; [done|done|by repeat constructor|].
    assert (index = 0%nat) as -> by lia. done.
  - destruct (pretty_N_go_digits (N.of_nat index) "")
      as (digits & Hchars & Hdigits & Hvalue & Hnonempty).
    exists digits. simpl in Hchars. rewrite app_nil_r in Hchars.
    split_and!; [done|apply Hnonempty; lia|done|].
    unfold EnhancementService.parseInt10.
    specialize (Hvalue [] 0). rewrite app_nil_r in Hvalue. rewrite Hvalue. simpl. lia.
Qed.

Lemma takeDigits_run digits rest :
  Forall (λ c, EnhancementService.isDigit c = true) digits →
  EnhancementService.takeDigits (digits ++ "-"%char :: rest) = digits ∧
  EnhancementService.dropDigits (digits ++ "-"%char :: rest) = "-"%char :: rest.
Proof.
  induction 1 as [|c digits Hdigit _ [IHtake IHdrop]]; simpl; [done|].
  by rewrite Hdigit, IHtake, IHdrop.
Qed.

Lemma extractChangeIndex_changeIdOf enhancementId index :
  EnhancementService.extractChangeIndex
    (EnhancementService.changeIdOf enhancementId index) = Z.of_nat index.
Proof.
  unfold EnhancementService.extractChangeIndex, EnhancementService.changeIdOf.
  destruct (pretty_nat_digits index) as (digits & Hchars & Hnonempty & Hdigits & Hvalue).
  assert (rev (list_ascii_of_string (enhancementId +:+ "-change-" +:+ pretty index))
          = (rev digits ++ "-"%char ::
               (["e"; "g"; "n"; "a"; "h"; "c"; "-"]%char
                ++ rev (list_ascii_of_string enhancementId)))%list) as ->.
  { rewrite !list_ascii_of_string_app, Hchars, !rev_app_distr.
    by rewrite <- app_assoc. }
  destruct (takeDigits_run (rev digits)
              (["e"; "g"; "n"; "a"; "h"; "c"; "-"]%char
               ++ rev (list_ascii_of_string enhancementId))%list) as [-> ->].
  { by apply Forall_rev. }
  destruct (rev digits) as [|c rest] eqn:Hrev.
  { apply (f_equal (@rev _)) in Hrev. rewrite rev_involutive in Hrev. done. }
  rewrite <- Hrev, rev_involutive. by simpl.
Qed.


(** ** Approving, rejecting and editing changes *)

Lemma approveLoop_facts enhancement enhancementId userId changeIds entries result env w :
  ∃ newEntries w1,
    EnhancementService.approveLoop enhancement enhancementId userId changeIds
      entries result env w
    = (Ok ((entries ++ newEntries)%list,
           {| successful :=
                (successful result ++ filter (addresses enhancement) changeIds)%list;
              failed :=
                (failed result
                 ++ (notFound <$> filter (addressesNothing enhancement) changeIds))%list |}),
       w1) ∧
    sameStores w w1 ∧ enhDbOpen w1 = enhDbOpen w ∧
    hist_changeId <$> newEntries = filter (addresses enhancement) changeIds ∧
    Forall (recordsChange enhancement enhancementId userId) newEntries.
Proof.
  revert entries result w. induction changeIds as [|changeId rest IH];
    intros entries result w; simpl.
  - exists [], w. rewrite !app_nil_r. by destruct result.
  - destruct (EnhancementService.changeAt _ _) as [change|] eqn:Hchange.
    + unfold_monad. simpl.
      edestruct IH as (newEntries & w1 & -> & Hsame & Hopen & Hids & Hrecords).
      eexists (_ :: newEntries), w1.
      rewrite (filter_cons_True (addresses enhancement)) by (by eexists).
      rewrite (filter_cons_False (addressesNothing enhancement))
        by (unfold addressesNothing; congruence).
      simpl. rewrite <- !app_assoc. simpl. split_and!; try done.
      * simpl. by f_equal.
      * constructor; [|done]. split_and!; try done. by exists change.
    + edestruct IH as (newEntries & w1 & -> & Hsame & Hopen & Hids & Hrecords).
      exists newEntries, w1.
      rewrite (filter_cons_False (addresses enhancement))
        by (unfold addresses; rewrite Hchange; by intros [??]).
      rewrite (filter_cons_True (addressesNothing enhancement)) by done.
      simpl. rewrite <- !app_assoc. by simpl.
Qed.

Lemma allChangeIds_address enhancement enhancementId :
  Forall (addresses enhancement)
         (EnhancementService.allChangeIds enhancement enhancementId).
Proof.
  apply Forall_lookup. intros index changeId. unfold EnhancementService.allChangeIds.
  rewrite list_lookup_imap. intros Hid.
  destruct (enh_changes enhancement !! index) as [change|] eqn:Hchange; [|done].
  simpl in Hid. injection Hid as <-. unfold addresses.
  rewrite extractChangeIndex_changeIdOf. unfold EnhancementService.changeAt.
  destruct (Z.ltb_spec (Z.of_nat index) 0) as [?|_]; [lia|].
  rewrite Nat2Z.id. by rewrite Hchange.
Qed.

Lemma filter_all {A} (P : A → Prop) `{∀ x, Decision (P x)} (l : list A) :
  Forall P l → filter P l = l.
Proof.
  induction 1 as [|x l Hx _ IH]; [done|]. by rewrite filter_cons_True, IH.
Qed.

Lemma filter_none {A} (P : A → Prop) `{∀ x, Decision (P x)} (l : list A) :
  Forall (λ x, ¬ P x) l → filter P l = [].
Proof.
  induction 1 as [|x l Hx _ IH]; [done|]. by rewrite filter_cons_False, IH.
Qed.

(** The outcomes of the two writes, whatever the storage does. *)
Lemma saveChangeHistory_cases entries env w :
  ∃ outcome w1,
    EnhancementService.saveChangeHistory entries env w = (outcome, w1) ∧
    plans w1 = plans w ∧ enhancements w1 = enhancements w ∧
    match outcome with
    | Ok _ => changeHistory w1 = EnhancementService.putAll entries (changeHistory w)
    | Throw error =>
        changeHistory w1 = changeHistory w ∧
        error = MkError EnhancementService.requestError
    end.
Proof.
  unfold_enhancement. unfold_monad. simpl.
  destruct (enhDbOpen w), entries; simpl;
    repeat (match goal with
            | |- context [storageFails ?env ?n ?op] =>
                destruct (storageFails env n op); simpl
            end); by eexists _, _.
Qed.

Lemma saveEnhancement_cases enhancement env w :
  ∃ outcome w1,
    EnhancementService.saveEnhancement enhancement env w = (outcome, w1) ∧
    plans w1 = plans w ∧ changeHistory w1 = changeHistory w ∧
    match outcome with
    | Ok _ => enhancements w1 = <[enh_id enhancement := enhancement]> (enhancements w)
    | Throw error =>
        enhancements w1 = enhancements w ∧
        error = MkError EnhancementService.requestError
    end.
Proof.
  unfold_enhancement. unfold_monad. simpl.
  destruct (enhDbOpen w); simpl;
    repeat (match goal with
            | |- context [storageFails ?env ?n ?op] =>
                destruct (storageFails env n op); simpl
            end); by eexists _, _.
Qed.

Lemma getEnhancementById_cases enhancementId env w :
  ∃ outcome w1,
    EnhancementService.getEnhancementById enhancementId env w = (outcome, w1) ∧
    sameStores w w1 ∧
    match outcome with
    | Ok found => found = enhancements w !! enhancementId
    | Throw error => error = MkError EnhancementService.requestError
    end.
Proof.
  unfold_enhancement. unfold_monad. simpl.
  destruct (enhDbOpen w); simpl;
    repeat (match goal with
            | |- context [storageFails ?env ?n ?op] =>
                destruct (storageFails env n op); simpl
            end); by eexists _, _.
Qed.

(** approveChanges on a stored enhancement, whatever the storage does. *)
Lemma approveChanges_cases enhancementId changeIds userId enhancement env w w0 :
  EnhancementService.getEnhancementById enhancementId env w
  = (Ok (Some enhancement), w0) →
  ∃ outcome w' entries,
    EnhancementService.approveChanges enhancementId changeIds userId env w
    = (outcome, w') ∧
    plans w' = plans w ∧
    let ids := default (EnhancementService.allChangeIds enhancement enhancementId)
                       changeIds in
    hist_changeId <$> entries = filter (addresses enhancement) ids ∧
    Forall (recordsChange enhancement enhancementId userId) entries ∧
    match outcome with
    | Ok result =>
        successful result = filter (addresses enhancement) ids ∧
        failed result = notFound <$> filter (addressesNothing enhancement) ids ∧
        changeHistory w' = EnhancementService.putAll entries (changeHistory w) ∧
        ∃ now, enhancements w'
               = <[enh_id enhancement :=
                     EnhancementService.setStatusApproved enhancement now]>
                   (enhancements w)
    | Throw error =>
        error = MkError "changesToApprove is not defined" ∧
        enhancements w' = enhancements w ∧
        (changeHistory w' = changeHistory w ∨
         changeHistory w' = EnhancementService.putAll entries (changeHistory w))
    end.
Proof.
  intros Hget.
  destruct (getEnhancementById_cases enhancementId env w)
    as (outcome0 & w0' & Hget' & (Hp0 & _ & He0 & Hh0) & _).
  rewrite Hget in Hget'. injection Hget' as <- <-.
  unfold EnhancementService.approveChanges.
  rewrite (bind_run _ _ _ _ _ _ Hget). unfold tryCatch.
  set (ids := default _ changeIds).
  destruct (approveLoop_facts enhancement enhancementId userId ids []
              {| successful := []; failed := [] |} env w0)
    as (entries & w1 & Hloop & (Hp1 & _ & He1 & Hh1) & _ & Hids & Hrecords).
  rewrite (bind_run _ _ _ _ _ _ Hloop). simpl.
  destruct (saveChangeHistory_cases entries env w1)
    as ([[]|error2] & w2 & Hsave & Hp2 & He2 & Hh2).
  - rewrite (bind_run _ _ _ _ _ _ Hsave).
    unfold bind at 1, newDate at 1.
    destruct (saveEnhancement_cases
                (EnhancementService.setStatusApproved enhancement (date_at env (tick w2)))
                env (step w2))
      as ([[]|error3] & w3 & Hput & Hp3 & Hh3 & He3).
    + rewrite (bind_run _ _ _ _ _ _ Hput). unfold ret.
      eexists _, w3, entries. split; [done|]. split; [simpl in *; congruence|].
      simpl. split_and!; try done.
      * simpl in *; congruence.
      * exists (date_at env (tick w2)). simpl in *. congruence.
    + unfold bind. rewrite Hput. unfold throw. destruct He3 as [He3 _].
      eexists _, w3, entries. split; [done|]. split; [simpl in *; congruence|].
      simpl. split_and!; try done.
      * simpl in *; congruence.
      * right. simpl in *. congruence.
  - unfold bind at 1. rewrite Hsave. unfold throw. destruct Hh2 as [Hh2 _].
    eexists _, w2, entries. split; [done|]. split; [congruence|].
    simpl. split_and!; try done; [congruence|]. left. congruence.
Qed.

(** X18. Approving changes of a stored enhancement when no storage request
    fails: the identifiers that address a change are reported successful, in
    order; each of the others fails with 'Change not found'; exactly one
    history entry is written per successful identifier, recording the
    addressed change's old and new value; and when no identifiers are given,
    every change of the enhancement is approved and none fails. *)
Theorem approveChanges_partitions_identifiers enhancementId changeIds userId
    enhancement env w :
  calm env →
  enhancements w !! enhancementId = Some enhancement →
  ∃ result w' entries,
    EnhancementService.approveChanges enhancementId changeIds userId env w
    = (Ok result, w') ∧
    let ids := default (EnhancementService.allChangeIds enhancement enhancementId)
                       changeIds in
    successful result = filter (addresses enhancement) ids ∧
    failed result = notFound <$> filter (addressesNothing enhancement) ids ∧
    changeHistory w' = EnhancementService.putAll entries (changeHistory w) ∧
    hist_changeId <$> entries = successful result ∧
    Forall (recordsChange enhancement enhancementId userId) entries ∧
    (changeIds = None →
     successful result = EnhancementService.allChangeIds enhancement enhancementId ∧
     failed result = [] ∧
     length entries = length (enh_changes enhancement)).
Proof.
  intros Hcalm Hstored.
  destruct (getEnhancementById_calm enhancementId env w Hcalm) as (w0 & Hget & _).
  rewrite Hstored in Hget.
  destruct (approveChanges_calm enhancementId changeIds userId enhancement env w
              Hcalm Hstored) as (result & w' & _ & _ & Hrun & _).
  destruct (approveChanges_cases enhancementId changeIds userId enhancement env w w0 Hget)
    as (outcome & w'' & entries & Hrun' & _ & Hids & Hrecords & Hcases).
  rewrite Hrun in Hrun'. injection Hrun' as <- <-.
  destruct Hcases as (Hsuccessful & Hfailed & Hhistory & _).
  exists result, w', entries. split; [done|]. simpl.
  split_and!; try done; [congruence|].
  intros ->. simpl in *.
  pose proof (allChangeIds_address enhancement enhancementId) as Hall.
  rewrite (filter_all _ _ Hall) in Hsuccessful, Hids.
  split_and!; [done| |].
  - rewrite Hfailed, filter_none; [done|].
    eapply Forall_impl; [exact Hall|].
    intros changeId [change Hchange]. unfold addressesNothing. congruence.
  - rewrite <- (length_fmap hist_changeId), Hids.
    unfold EnhancementService.allChangeIds. apply length_imap.
Qed.

(** An instance of X18: every change of a pending enhancement is approved. *)
Lemma approveChanges_partitions_identifiers_witness :
  let e := Fixtures.mkEnhancement "e1" EnhPending in
  let w := Fixtures.worldWithEnhancement e in
  ∃ result w' entries,
    EnhancementService.approveChanges "e1" None "user-1" Fixtures.calmEnv w
    = (Ok result, w') ∧
    successful result = ["e1-change-0"] ∧
    failed result = [] ∧
    changeHistory w' = EnhancementService.putAll entries (changeHistory w) ∧
    length entries = 1%nat ∧
    Forall (recordsChange e "e1" "user-1") entries.
Proof.
  intros e w.
  destruct (approveChanges_partitions_identifiers "e1" None "user-1" e Fixtures.calmEnv w
              calmEnv_calm ltac:(vm_compute; reflexivity))
    as (result & w' & entries & Hrun & _ & _ & Hhistory & _ & Hrecords & Hall).
  destruct (Hall eq_refl) as (Hsuccessful & Hfailed & Hlength).
  exists result, w', entries. by split_and!.
Defined.

(** X19. A write that fails while approving is not reported in the result:
    once the enhancement has been read, approveChanges either resolves, and
    then every failure it lists is 'Change not found' and the stored status is
    approved, or it rejects with the ReferenceError raised by its own catch
    block, and then the enhancement is stored as it was, although the history
    entries may already have been written. *)
Theorem approveChanges_write_failure enhancementId changeIds userId enhancement
    env w w0 outcome w' :
  EnhancementService.getEnhancementById enhancementId env w
  = (Ok (Some enhancement), w0) →
  EnhancementService.approveChanges enhancementId changeIds userId env w
  = (outcome, w') →
  plans w' = plans w ∧
  match outcome with
  | Ok result =>
      Forall (λ failure, failure_error failure = "Change not found") (failed result) ∧
      ∃ now, enhancements w' !! enh_id enhancement
             = Some (EnhancementService.setStatusApproved enhancement now)
  | Throw error =>
      error = MkError "changesToApprove is not defined" ∧
      enhancements w' = enhancements w
  end.
Proof.
  intros Hget Hrun.
  destruct (approveChanges_cases enhancementId changeIds userId enhancement env w w0 Hget)
    as (outcome' & w'' & entries & Hrun' & Hplans & _ & _ & Hcases).
  rewrite Hrun in Hrun'. injection Hrun' as <- <-. split; [done|].
  destruct outcome as [result|error].
  - destruct Hcases as (_ & -> & _ & now & Henh). split.
    + apply Forall_fmap. by apply Forall_true.
    + exists now. rewrite Henh. apply lookup_insert_eq.
  - by destruct Hcases as (-> & Henh & _).
Qed.

(** An instance of X19: the history is written, then the write of the
    enhancement fails. *)
Lemma approveChanges_write_failure_witness :
  let e := Fixtures.mkEnhancement "e1" EnhPending in
  let w := Fixtures.worldWithEnhancement e in
  ∃ w',
    EnhancementService.approveChanges "e1" None "user-1" Fixtures.readOnlyEnv w
    = (Throw (MkError "changesToApprove is not defined"), w') ∧
    plans w' = plans w ∧
    enhancements w' = enhancements w.
Proof.
  intros e w.
  edestruct (approveChanges_write_failure "e1" None "user-1" e Fixtures.readOnlyEnv w)
    as (Hplans & Hcase); [vm_compute; reflexivity | vm_compute; reflexivity |].
  eexists. split; [vm_compute; reflexivity|]. split; [exact Hplans|].
  exact (proj2 Hcase).
Defined.

(** X20. rejectChanges never rejects once the enhancement has been read:
    either the enhancement is stored as rejected with the feedback given, and
    every identifier is reported successful, or the write failed, the
    enhancement is stored as it was, and every identifier is reported failed
    with the error of the request. No history entry is written either way. *)
Theorem rejectChanges_reports_write_failure enhancementId changeIds feedback userId
    enhancement env w w0 :
  EnhancementService.getEnhancementById enhancementId env w
  = (Ok (Some enhancement), w0) →
  ∃ result w',
    EnhancementService.rejectChanges enhancementId changeIds feedback userId env w
    = (Ok result, w') ∧
    plans w' = plans w ∧ changeHistory w' = changeHistory w ∧
    let ids := default (EnhancementService.allChangeIds enhancement enhancementId)
                       changeIds in
    ((successful result = ids ∧ failed result = [] ∧
      ∃ now, enhancements w'
             = <[enh_id enhancement :=
                   EnhancementService.setStatusRejected enhancement now feedback]>
                 (enhancements w)) ∨
     (successful result = [] ∧ failed result = requestFailed <$> ids ∧
      enhancements w' = enhancements w)).
Proof.
  intros Hget.
  destruct (getEnhancementById_cases enhancementId env w)
    as (outcome0 & w0' & Hget' & (Hp0 & _ & He0 & Hh0) & _).
  rewrite Hget in Hget'. injection Hget' as <- <-.
  unfold EnhancementService.rejectChanges.
  rewrite (bind_run _ _ _ _ _ _ Hget). unfold tryCatch.
  unfold bind at 1, newDate at 1.
  destruct (saveEnhancement_cases
              (EnhancementService.setStatusRejected enhancement (date_at env (tick w0))
                 feedback)
              env (step w0))
    as ([[]|error] & w1 & Hput & Hp1 & Hh1 & He1).
  - rewrite (bind_run _ _ _ _ _ _ Hput). unfold ret.
    eexists _, w1. split; [done|]. simpl in *. split_and!; [congruence..|].
    left. split_and!; try done. exists (date_at env (tick w0)). congruence.
  - unfold bind. rewrite Hput. unfold ret. destruct He1 as [He1 ->].
    eexists _, w1. split; [done|]. simpl in *. split_and!; [congruence..|].
    right. split_and!; try done. congruence.
Qed.

(** An instance of X20: the write of the rejected enhancement fails. *)
Lemma rejectChanges_reports_write_failure_witness :
  let e := Fixtures.mkEnhancement "e1" EnhPending in
  let w := Fixtures.worldWithEnhancement e in
  ∃ result w',
    EnhancementService.rejectChanges "e1" None (Some "Not now") "user-1"
      Fixtures.readOnlyEnv w = (Ok result, w') ∧
    changeHistory w' = changeHistory w ∧
    ((successful result = ["e1-change-0"] ∧ failed result = [] ∧
      ∃ now, enhancements w'
             = <["e1" := EnhancementService.setStatusRejected e now (Some "Not now")]>
                 (enhancements w)) ∨
     (successful result = [] ∧ failed result = [requestFailed "e1-change-0"] ∧
      enhancements w' = enhancements w)).
Proof.
  intros e w.
  edestruct (rejectChanges_reports_write_failure "e1" None (Some "Not now") "user-1" e
               Fixtures.readOnlyEnv w)
    as (result & w' & Hrun & _ & Hhistory & Hcases); [vm_compute; reflexivity|].
  exists result, w'. split_and!; [exact Hrun | exact Hhistory | exact Hcases].
Defined.

(** X21. An enhancement that is not stored: with a store that answers,
    approveChanges, rejectChanges and editChange each reject with
    'Enhancement <id> not found' and write nothing. *)
Theorem missing_enhancement_is_rejected enhancementId changeIds feedback changeId
    newValue userId env w :
  calm env →
  enhancements w !! enhancementId = None →
  let missing := MkError ("Enhancement " +:+ enhancementId +:+ " not found") in
  (∃ w', EnhancementService.approveChanges enhancementId changeIds userId env w
         = (Throw missing, w') ∧ sameStores w w') ∧
  (∃ w', EnhancementService.rejectChanges enhancementId changeIds feedback userId env w
         = (Throw missing, w') ∧ sameStores w w') ∧
  (∃ w', EnhancementService.editChange enhancementId changeId newValue userId env w
         = (Throw missing, w') ∧ sameStores w w').
Proof.
  intros Hcalm Hmissing missing.
  destruct (getEnhancementById_calm enhancementId env w Hcalm) as (w0 & Hget & Hsame).
  rewrite Hmissing in Hget.
  unfold EnhancementService.approveChanges, EnhancementService.rejectChanges,
    EnhancementService.editChange.
  rewrite !(bind_run _ _ _ _ _ _ Hget). unfold throw.
  split_and!; by exists w0.
Qed.

(** An instance of X21: no enhancement is stored. *)
Lemma missing_enhancement_is_rejected_witness :
  ∃ w',
    EnhancementService.approveChanges "ghost" None "user-1" Fixtures.calmEnv
      Fixtures.emptyWorld
    = (Throw (MkError "Enhancement ghost not found"), w') ∧
    sameStores Fixtures.emptyWorld w'.
Proof.
  exact (proj1 (missing_enhancement_is_rejected "ghost" None None "ghost-change-0"
                  JsUndefined "user-1" Fixtures.calmEnv Fixtures.emptyWorld
                  calmEnv_calm eq_refl)).
Defined.

(** X22. editChange with an identifier that addresses no change of a stored
    enhancement rejects with 'Change <id> not found' before any write: the
    stores are as they were. *)
Theorem editChange_unknown_change enhancementId changeId newValue userId
    enhancement env w w0 :
  EnhancementService.getEnhancementById enhancementId env w
  = (Ok (Some enhancement), w0) →
  addressesNothing enhancement changeId →
  EnhancementService.editChange enhancementId changeId newValue userId env w
  = (Throw (MkError ("Change " +:+ changeId +:+ " not found")), w0) ∧
  sameStores w w0.
Proof.
  intros Hget Hnothing.
  destruct (getEnhancementById_cases enhancementId env w)
    as (outcome0 & w0' & Hget' & Hsame & _).
  rewrite Hget in Hget'. injection Hget' as <- <-. split; [|done].
  unfold EnhancementService.editChange. rewrite (bind_run _ _ _ _ _ _ Hget).
  unfold addressesNothing, EnhancementService.changeAt in Hnothing.
  destruct (Z.ltb_spec (EnhancementService.extractChangeIndex changeId) 0)
    as [Hneg|Hpos]; [done|].
  apply lookup_ge_None in Hnothing.
  destruct (Z.leb_spec (Z.of_nat (length (enh_changes enhancement)))
              (EnhancementService.extractChangeIndex changeId)) as [_|Hlt]; [done|].
  lia.
Qed.

(** An instance of X22: the identifier has no index. *)
Lemma editChange_unknown_change_witness :
  let e := Fixtures.mkEnhancement "e1" EnhPending in
  let w := Fixtures.worldWithEnhancement e in
  ∃ w0,
    EnhancementService.editChange "e1" "nonsense" (JsString "Other title") "user-1"
      Fixtures.calmEnv w
    = (Throw (MkError "Change nonsense not found"), w0) ∧
    sameStores w w0.
Proof.
  intros e w. eexists.
  apply (editChange_unknown_change "e1" "nonsense" (JsString "Other title") "user-1" e
           Fixtures.calmEnv w).
  - vm_compute. reflexivity.
  - vm_compute. reflexivity.
Defined.

(** ** Batches, listings and the history *)

Lemma approveChanges_keeps_plans enhancementId changeIds userId env w :
  ∃ outcome w',
    EnhancementService.approveChanges enhancementId changeIds userId env w
    = (outcome, w') ∧ plans w' = plans w.
Proof.
  destruct (getEnhancementById_cases enhancementId env w)
    as ([[enhancement|]|error] & w0 & Hget & (Hplans & _) & _).
  - destruct (approveChanges_cases enhancementId changeIds userId enhancement env w w0
                Hget) as (outcome & w' & _ & Hrun & Hplans' & _).
    by exists outcome, w'.
  - unfold EnhancementService.approveChanges. rewrite (bind_run _ _ _ _ _ _ Hget).
    by eexists _, w0.
  - unfold EnhancementService.approveChanges, bind. rewrite Hget. by eexists _, w0.
Qed.

Lemma rejectChanges_keeps_plans enhancementId changeIds feedback userId env w :
  ∃ outcome w',
    EnhancementService.rejectChanges enhancementId changeIds feedback userId env w
    = (outcome, w') ∧ plans w' = plans w.
Proof.
  destruct (getEnhancementById_cases enhancementId env w)
    as ([[enhancement|]|error] & w0 & Hget & (Hplans & _) & _).
  - unfold EnhancementService.rejectChanges.
    rewrite (bind_run _ _ _ _ _ _ Hget). unfold tryCatch.
    unfold bind at 1, newDate at 1.
    destruct (saveEnhancement_cases
                (EnhancementService.setStatusRejected enhancement
                   (date_at env (tick w0)) feedback)
                env (step w0))
      as ([[]|error] & w1 & Hput & Hplans1 & _).
    + rewrite (bind_run _ _ _ _ _ _ Hput). unfold ret.
      eexists _, w1. split; [done|]. simpl in *. congruence.
    + unfold bind. rewrite Hput. unfold ret.
      eexists _, w1. split; [done|]. simpl in *. congruence.
  - unfold EnhancementService.rejectChanges. rewrite (bind_run _ _ _ _ _ _ Hget).
    by eexists _, w0.
  - unfold EnhancementService.rejectChanges, bind. rewrite Hget. by eexists _, w0.
Qed.

Lemma batchApproveLoop_facts enhancementIds userId result env w :
  ∃ result' w',
    EnhancementService.batchApproveLoop enhancementIds userId result env w
    = (Ok result', w') ∧
    plans w' = plans w ∧
    (successful result' ++ (failure_id <$> failed result'))%list
    ≡ₚ ((successful result ++ (failure_id <$> failed result)) ++ enhancementIds)%list.
Proof.
  revert result w. induction enhancementIds as [|enhancementId rest IH]; intros result w.
  - exists result, w. by rewrite app_nil_r.
  - cbn [EnhancementService.batchApproveLoop].
    destruct (approveChanges_keeps_plans enhancementId None userId env w)
      as (outcome & w1 & Hrun & Hplans1).
    unfold bind at 1, tryCatch, bind at 1. rewrite Hrun.
    destruct outcome as [approved|error]; unfold ret;
      edestruct IH as (result' & w' & -> & Hplans & Hperm);
      exists result', w'; (split; [done|]); (split; [congruence|]);
      rewrite Hperm; simpl; rewrite ?fmap_app; simpl.
    + rewrite <- !app_assoc. apply Permutation_app_head. simpl.
      apply Permutation_middle.
    + by rewrite <- !app_assoc.
Qed.

Lemma batchRejectLoop_facts enhancementIds feedback userId result env w :
  ∃ result' w',
    EnhancementService.batchRejectLoop enhancementIds feedback userId result env w
    = (Ok result', w') ∧
    plans w' = plans w ∧
    (successful result' ++ (failure_id <$> failed result'))%list
    ≡ₚ ((successful result ++ (failure_id <$> failed result)) ++ enhancementIds)%list.
Proof.
  revert result w. induction enhancementIds as [|enhancementId rest IH]; intros result w.
  - exists result, w. by rewrite app_nil_r.
  - cbn [EnhancementService.batchRejectLoop].
    destruct (rejectChanges_keeps_plans enhancementId None feedback userId env w)
      as (outcome & w1 & Hrun & Hplans1).
    unfold bind at 1, tryCatch, bind at 1. rewrite Hrun.
    destruct outcome as [rejected|error]; unfold ret;
      edestruct IH as (result' & w' & -> & Hplans & Hperm);
      exists result', w'; (split; [done|]); (split; [congruence|]);
      rewrite Hperm; simpl; rewrite ?fmap_app; simpl.
    + rewrite <- !app_assoc. apply Permutation_app_head. simpl.
      apply Permutation_middle.
    + by rewrite <- !app_assoc.
Qed.

(** X23. The batch operations never reject and account for every
    identifier: whatever the storage does, batchApproveEnhancements and
    batchRejectEnhancements resolve, each identifier given is reported once,
    either as successful or as failed, and the plans store is not written. *)
Theorem batch_operations_account_for_every_id enhancementIds feedback userId env w :
  (∃ result w',
     EnhancementService.batchApproveEnhancements enhancementIds userId env w
     = (Ok result, w') ∧
     plans w' = plans w ∧
     (successful result ++ (failure_id <$> failed result))%list ≡ₚ enhancementIds) ∧
  (∃ result w',
     EnhancementService.batchRejectEnhancements enhancementIds feedback userId env w
     = (Ok result, w') ∧
     plans w' = plans w ∧
     (successful result ++ (failure_id <$> failed result))%list ≡ₚ enhancementIds).
Proof.
  split.
  - destruct (batchApproveLoop_facts enhancementIds userId
                {| successful := []; failed := [] |} env w)
      as (result & w' & Hrun & Hplans & Hperm).
    by exists result, w'.
  - destruct (batchRejectLoop_facts enhancementIds feedback userId
                {| successful := []; failed := [] |} env w)
      as (result & w' & Hrun & Hplans & Hperm).
    by exists result, w'.
Qed.



Lemma StronglySorted_filter {A} (R : A → A → Prop) (keep : A → bool) (l : list A) :
  StronglySorted R l → StronglySorted R (List.filter keep l).
Proof.
  induction 1 as [|x l Hsorted IH Hall]; simpl; [constructor|].
  destruct (keep x); [|done]. constructor; [done|].
  apply Forall_forall. intros y Hin. apply list_elem_of_In, filter_In in Hin as [Hin _].
  apply list_elem_of_In in Hin. by apply (proj1 (Forall_forall _ _) Hall).
Qed.

(** X25. getPendingEnhancements resolves with exactly the stored
    enhancements of the plan whose status is pending, the most recently
    created first, and writes nothing. *)
Theorem getPendingEnhancements_lists_pending planId env w found w' :
  EnhancementService.getPendingEnhancements planId env w = (Ok found, w') →
  (∀ enhancement,
     enhancement ∈ found ↔
     enh_planId enhancement = planId ∧ enh_status enhancement = EnhPending ∧
     ∃ key, enhancements w !! key = Some enhancement) ∧
  StronglySorted (λ a b, enh_createdAt b ≤ enh_createdAt a) found ∧
  sameStores w w'.
Proof.
  intros Hrun.
  assert (found = List.filter EnhancementService.isPending
                    (merge_sort EnhancementService.createdLast
                       (filter (λ e, enh_planId e = planId)
                               (snd <$> map_to_list (enhancements w)))) ∧
          sameStores w w') as (-> & Hsame).
  { revert Hrun. unfold EnhancementService.getPendingEnhancements,
      EnhancementService.getEnhancementsByPlan.
    unfold_enhancement. unfold_monad. intros Hrun. crunch. }
  split_and!; [| |done].
  - intros enhancement. rewrite list_elem_of_In, filter_In, <- list_elem_of_In.
    rewrite merge_sort_Permutation, list_elem_of_filter, elem_of_values.
    unfold EnhancementService.isPending.
    destruct (enh_status enhancement); intuition congruence.
  - apply StronglySorted_filter.
    apply (StronglySorted_merge_sort EnhancementService.createdLast).
Qed.

(** An instance of X25: one pending enhancement of "p1". *)
Lemma getPendingEnhancements_lists_pending_witness :
  let w := Fixtures.worldWithEnhancement (Fixtures.mkEnhancement "e1" EnhPending) in
  ∃ found w',
    EnhancementService.getPendingEnhancements "p1" Fixtures.calmEnv w = (Ok found, w') ∧
    length found = 1%nat ∧
    (∀ enhancement,
       enhancement ∈ found ↔
       enh_planId enhancement = "p1" ∧ enh_status enhancement = EnhPending ∧
       ∃ key, enhancements w !! key = Some enhancement) ∧
    sameStores w w'.
Proof.
  intros w.
  edestruct (getPendingEnhancements_lists_pending "p1" Fixtures.calmEnv w)
    as (Hfound & _ & Hsame); [vm_compute; reflexivity|].
  eexists _, _. split; [vm_compute; reflexivity|].
  split_and!; [reflexivity | exact Hfound | exact Hsame].
Defined.

(** X26. getChangeHistory resolves with exactly the stored history entries
    of the plan, each once per key, the most recently applied first, and
    writes nothing. *)
Theorem getChangeHistory_newest_first planId env w history w' :
  EnhancementService.getChangeHistory planId env w = (Ok history, w') →
  history ≡ₚ filter (λ entry, hist_planId entry = planId)
               (snd <$> map_to_list (changeHistory w)) ∧
  (∀ entry, entry ∈ history ↔
            hist_planId entry = planId ∧ ∃ key, changeHistory w !! key = Some entry) ∧
  StronglySorted (λ a b, hist_appliedAt b ≤ hist_appliedAt a) history ∧
  sameStores w w'.
Proof.
  intros Hrun.
  assert (history = merge_sort EnhancementService.appliedLast
                      (filter (λ entry, hist_planId entry = planId)
                              (snd <$> map_to_list (changeHistory w))) ∧
          sameStores w w') as (-> & Hsame).
  { revert Hrun. unfold EnhancementService.getChangeHistory.
    unfold_enhancement. unfold_monad. intros Hrun. crunch. }
  split_and!; [apply merge_sort_Permutation| | |done].
  - intros entry. by rewrite merge_sort_Permutation, list_elem_of_filter, elem_of_values.
  - apply (StronglySorted_merge_sort EnhancementService.appliedLast).
Qed.

(** An instance of X26: the two retitlings of "p1". *)
Lemma getChangeHistory_newest_first_witness :
  let h1 := Fixtures.mkHistoryEntry "h1" (JsString "Draft") (JsString "Plan A") in
  let h2 := Fixtures.mkHistoryEntry "h2" (JsString "Plan A") (JsString "Test Plan") in
  let w := Fixtures.worldWithHistory Fixtures.planWithItem [h1; h2] in
  ∃ history w',
    EnhancementService.getChangeHistory "p1" Fixtures.calmEnv w = (Ok history, w') ∧
    length history = 2%nat ∧
    StronglySorted (λ a b, hist_appliedAt b ≤ hist_appliedAt a) history ∧
    sameStores w w'.
Proof.
  intros h1 h2 w.
  edestruct (getChangeHistory_newest_first "p1" Fixtures.calmEnv w)
    as (_ & _ & Hsorted & Hsame); [vm_compute; reflexivity|].
  eexists _, _. split; [vm_compute; reflexivity|].
  split_and!; [reflexivity | exact Hsorted | exact Hsame].
Defined.

(** X27. clearHistory deletes exactly the history entries of the plan that
    were applied before the cutoff, which is the date given or, when none is
    given, thirty days before the clock's reading; entries of other plans and
    the enhancements are kept; clearing again with the same cutoff removes
    nothing more; and a run that rejects has removed nothing. *)
Theorem clearHistory_removes_expired planId olderThan env w outcome w' :
  EnhancementService.clearHistory planId olderThan env w = (outcome, w') →
  enhancements w' = enhancements w ∧ plans w' = plans w ∧
  match outcome with
  | Throw _ => changeHistory w' = changeHistory w
  | Ok _ =>
      ∃ cutoff,
        match olderThan with
        | Some date => cutoff = date
        | None => ∃ n, cutoff = date_at env n - 2592000000
        end ∧
        (∀ key entry,
           changeHistory w' !! key = Some entry ↔
           changeHistory w !! key = Some entry ∧
           ¬ (hist_planId entry = planId ∧ hist_appliedAt entry < cutoff)) ∧
        (∀ w'', EnhancementService.clearHistory planId (Some cutoff) env w'
                = (Ok tt, w'') →
                changeHistory w'' = changeHistory w')
  end.
Proof.
  intros Hrun.
  assert (enhancements w' = enhancements w ∧ plans w' = plans w ∧
          match outcome with
          | Throw _ => changeHistory w' = changeHistory w
          | Ok _ =>
              ∃ cutoff,
                match olderThan with
                | Some date => cutoff = date
                | None => ∃ n, cutoff = date_at env n - 2592000000
                end ∧
                changeHistory w'
                = filter (λ kv, ¬ EnhancementService.expired planId cutoff kv.2)
                         (changeHistory w)
          end) as (Henh & Hplans & Hcases).
  { revert Hrun. unfold EnhancementService.clearHistory.
    unfold_enhancement. unfold_monad. intros Hrun.
    destruct olderThan; crunch; split_and!; try done; eexists; split; try done;
      by eexists. }
  split; [done|]. split; [done|].
  destruct outcome as [[]|error]; [|done].
  destruct Hcases as (cutoff & Hcutoff & Hhistory).
  exists cutoff. split; [done|]. split.
  - intros key entry. rewrite Hhistory, map_lookup_filter_Some. done.
  - intros w'' Hagain.
    assert (changeHistory w''
            = filter (λ kv, ¬ EnhancementService.expired planId cutoff kv.2)
                     (changeHistory w')) as ->.
    { revert Hagain. unfold EnhancementService.clearHistory.
      unfold_enhancement. unfold_monad. intros Hagain. crunch. }
    rewrite Hhistory. apply map_eq. intros key.
    apply option_eq. intros entry. rewrite !map_lookup_filter_Some. intuition.
Qed.

(** An instance of X27: the history of "p1" is cleared up to date 40. *)
Lemma clearHistory_removes_expired_witness :
  let h := Fixtures.mkHistoryEntry "h1" (JsString "Plan A") (JsString "Test Plan") in
  let w := Fixtures.worldWithHistory Fixtures.planWithItem [h] in
  ∃ w',
    EnhancementService.clearHistory "p1" (Some 40) Fixtures.calmEnv w = (Ok tt, w') ∧
    enhancements w' = enhancements w ∧ plans w' = plans w ∧
    changeHistory w' !! "h1" = None.
Proof.
  intros h w.
  edestruct (clearHistory_removes_expired "p1" (Some 40) Fixtures.calmEnv w)
    as (Henh & Hplans & Hcase); [vm_compute; reflexivity|].
  destruct Hcase as (cutoff & Hcutoff & Hkept & _).
  eexists. split; [vm_compute; reflexivity|].
  split_and!; [exact Henh | exact Hplans |].
  apply eq_None_not_Some. intros [entry Hentry].
  apply Hkept in Hentry as [Hstored Hfresh]. apply Hfresh.
  vm_compute in Hstored. injection Hstored as <-. subst cutoff.
  split; [reflexivity|]. vm_compute. reflexivity.
Defined.

(** ** The cache of the provider *)

Lemma observed_events {A} (call : M A) state env w outcome w' emitted :
  call env w = (outcome, w') →
  events w' = (events w ++ emitted)%list →
  PlanProvider.observed call state env w
  = (outcome,
     foldl (λ st ev, PlanProvider.planReducer st (PlanProvider.listenerAction ev))
           state emitted,
     w').
Proof.
  intros Hrun Hevents. unfold PlanProvider.observed.
  by rewrite Hrun, Hevents, drop_app_length.
Qed.

Lemma remove_plan_twice state planId :
  PlanProvider.planReducer
    (PlanProvider.planReducer state (PlanProvider.REMOVE_PLAN planId))
    (PlanProvider.REMOVE_PLAN planId)
  = PlanProvider.planReducer state (PlanProvider.REMOVE_PLAN planId).
Proof.
  unfold PlanProvider.planReducer. simpl. f_equal.
  - rewrite list_filter_filter. apply list_filter_iff. tauto.
  - repeat case_decide; congruence.
Qed.

Lemma update_plan_matches (payload : Plan) (cached : list Plan) :
  Forall (λ plan, plan_id plan = plan_id payload → plan = payload)
    ((λ plan, if decide (plan_id plan = plan_id payload) then payload else plan)
       <$> cached).
Proof.
  apply Forall_fmap, Forall_true. intros plan. simpl. by case_decide.
Qed.

(** X28. The reducer keeps the cache by plan identity. UPDATE_PLAN replaces
    every cached plan of the payload's identity by the payload, keeps the
    others and the length of the list, and changes nothing in a cache that
    does not hold that identity; REMOVE_PLAN leaves no plan of the identity,
    never leaves it selected, and is idempotent. *)
Theorem reducer_keeps_cache_by_identity state :
  (∀ payload,
     let state' := PlanProvider.planReducer state (PlanProvider.UPDATE_PLAN payload) in
     length (PlanProvider.state_plans state') = length (PlanProvider.state_plans state) ∧
     Forall (λ plan, plan_id plan = plan_id payload → plan = payload)
            (PlanProvider.state_plans state') ∧
     (∀ plan, plan_id plan ≠ plan_id payload →
              plan ∈ PlanProvider.state_plans state' ↔
              plan ∈ PlanProvider.state_plans state) ∧
     (Forall (λ plan, plan_id plan ≠ plan_id payload) (PlanProvider.state_plans state) →
      PlanProvider.state_plans state' = PlanProvider.state_plans state)) ∧
  (∀ planId,
     let state' := PlanProvider.planReducer state (PlanProvider.REMOVE_PLAN planId) in
     Forall (λ plan, plan_id plan ≠ planId) (PlanProvider.state_plans state') ∧
     (∀ plan, plan_id plan ≠ planId →
              plan ∈ PlanProvider.state_plans state' ↔
              plan ∈ PlanProvider.state_plans state) ∧
     PlanProvider.state_selectedPlanId state' ≠ Some planId ∧
     PlanProvider.planReducer state' (PlanProvider.REMOVE_PLAN planId) = state').
Proof.
  split.
  - intros payload state'. subst state'. simpl. split_and!.
    + apply length_fmap.
    + apply update_plan_matches.
    + intros plan Hother. rewrite list_elem_of_fmap. split.
      * intros (cached & -> & Hin). by case_decide.
      * intros Hin. exists plan. split; [|done]. by case_decide.
    + intros Hnone. induction Hnone as [|plan rest Hother _ IH]; [done|].
      rewrite fmap_cons, IH. by case_decide.
  - intros planId state'. subst state'. split_and!.
    + simpl. apply Forall_forall. intros plan Hin.
      by apply list_elem_of_filter in Hin as [? _].
    + intros plan Hother. simpl. rewrite list_elem_of_filter. tauto.
    + simpl. case_decide; congruence.
    + apply remove_plan_twice.
Qed.

(** X29. The deletePlan action of the provider. When the service resolves,
    the cache is the one REMOVE_PLAN gives, and the plans store no longer
    holds the plan. When the service rejects, the list of cached plans is
    restored to what it was and the error message is shown, but a selection
    of that plan, cleared by the optimistic removal, is not restored. *)
Theorem provider_deletePlan_outcomes planId state env w outcome state' w' :
  PlanProvider.deletePlan planId state env w = (outcome, state', w') →
  match outcome with
  | Ok _ =>
      state' = PlanProvider.planReducer state (PlanProvider.REMOVE_PLAN planId) ∧
      plans w' = delete planId (plans w)
  | Throw error =>
      PlanProvider.state_plans state' = PlanProvider.state_plans state ∧
      PlanProvider.state_error state' = Some (message error) ∧
      PlanProvider.state_loading state' = false ∧
      PlanProvider.state_selectedPlanId state'
      = (if decide (PlanProvider.state_selectedPlanId state = Some planId) then None
         else PlanProvider.state_selectedPlanId state)
  end.
Proof.
  unfold PlanProvider.deletePlan.
  pose proof (deletePlan_facts planId env w) as Hfacts. simpl in Hfacts.
  destruct (PlanService.deletePlan planId env w) as [[[]|error] w1] eqn:Hrun;
    simpl in Hfacts; destruct Hfacts as (_ & Hevents & Hrest).
  - rewrite (observed_events _ _ _ _ _ _ _ Hrun Hevents). simpl.
    intros [= <- <- <-]. split; [apply remove_plan_twice|]. by destruct Hrest.
  - rewrite (observed_events _ _ _ _ _ _ _ Hrun Hevents). simpl.
    by intros [= <- <- <-].
Qed.

(** An instance of X29: the plan is selected and the store refuses to
    delete it. *)
Lemma provider_deletePlan_outcomes_witness :
  let state := Fixtures.cached [Fixtures.planWithItem] (Some "p1") in
  let w := Fixtures.worldWith Fixtures.planWithItem in
  ∃ error state' w',
    PlanProvider.deletePlan "p1" state Fixtures.brokenDeleteEnv w
    = (Throw error, state', w') ∧
    PlanProvider.state_plans state' = [Fixtures.planWithItem] ∧
    PlanProvider.state_error state' = Some (message error) ∧
    PlanProvider.state_selectedPlanId state' = None.
Proof.
  intros state w.
  eassert (PlanProvider.deletePlan "p1" state Fixtures.brokenDeleteEnv w = _) as Hrun
    by (vm_compute; reflexivity).
  destruct (provider_deletePlan_outcomes "p1" state Fixtures.brokenDeleteEnv w _ _ _ Hrun)
    as (Hplans & Herror & _ & Hselected).
  eexists _, _, _. split; [vm_compute; reflexivity|].
  split_and!; [exact Hplans | exact Herror | exact Hselected].
Defined.

(** X30. The item actions of the provider. When the service resolves with
    a plan, the cache is the one UPDATE_PLAN gives for that plan, so every
    cached plan of that identity is the plan the store now holds; when the
    service rejects, the cached plans and the selection are as they were and
    the error message is shown. *)
Theorem provider_item_action_outcomes m state env w outcome state' w' :
  runProviderItemMutation m state env w = (outcome, state', w') →
  match outcome with
  | Ok plan =>
      state' = PlanProvider.planReducer state (PlanProvider.UPDATE_PLAN plan) ∧
      plans w' !! plan_id plan = Some plan ∧
      Forall (λ cached, plan_id cached = plan_id plan → cached = plan)
             (PlanProvider.state_plans state')
  | Throw error =>
      PlanProvider.state_plans state' = PlanProvider.state_plans state ∧
      PlanProvider.state_selectedPlanId state'
      = PlanProvider.state_selectedPlanId state ∧
      PlanProvider.state_error state' = Some (message error) ∧
      PlanProvider.state_loading state' = false
  end.
Proof.
  assert (runProviderItemMutation m = PlanProvider.reported (runItemMutation m)) as ->
    by by destruct m.
  unfold PlanProvider.reported.
  pose proof (itemMutation_facts m env w) as Hfacts. simpl in Hfacts.
  destruct (runItemMutation m env w) as [[result|error] w1] eqn:Hrun; simpl in Hfacts.
  - destruct Hfacts as [(error & ? & _)|(plan & newItems & now & _ & _ & Hcall & Hresult)];
      [done|].
    pose proof (Hresult result eq_refl) as ->.
    destruct Hcall as (_ & Hevents & Hplans & _).
    rewrite (observed_events _ _ _ _ _ _ _ Hrun Hevents). simpl.
    intros [= <- <- <-]. split_and!; [done| |].
    + rewrite Hplans. apply lookup_insert_eq.
    + apply (update_plan_matches (committedPlan plan newItems now)).
  - assert (events w1 = (events w ++ [errorEvent error])%list) as Hevents.
    { destruct Hfacts as [(error' & [= <-] & _ & Hevents & _)
                         |(plan & newItems & now & _ & _ & (_ & Hevents & _) & _)];
        done. }
    rewrite (observed_events _ _ _ _ _ _ _ Hrun Hevents). simpl.
    by intros [= <- <- <-].
Qed.

(** An instance of X30: an item is added to the cached plan. *)
Lemma provider_item_action_outcomes_witness :
  let state := Fixtures.cached [Fixtures.planWithItem] None in
  let w := Fixtures.worldWith Fixtures.planWithItem in
  ∃ plan state' w',
    runProviderItemMutation (AddItem "p1" Fixtures.newItem) state Fixtures.calmEnv w
    = (Ok plan, state', w') ∧
    PlanProvider.state_plans state' = [plan] ∧
    plans w' !! "p1" = Some plan.
Proof.
  intros state w.
  eassert (runProviderItemMutation (AddItem "p1" Fixtures.newItem) state
             Fixtures.calmEnv w = _) as Hrun by (vm_compute; reflexivity).
  destruct (provider_item_action_outcomes (AddItem "p1" Fixtures.newItem) state
              Fixtures.calmEnv w _ _ _ Hrun) as (Hstate & Hstored & _).
  eexists _, _, _. split; [vm_compute; reflexivity|].
  split; [|exact Hstored]. rewrite Hstate. reflexivity.
Defined.
